(** * Pandas election voter: extraction and derivation pipeline

    A shallow embedding of [src/extractor.py] (the [Parser] classes),
    [src/middlewares.py] (the [FakePlatformMiddleware]) and [src/spider.py]
    (the [VoteForPandas] spider), together with the parts of the Python
    runtime they call: [str] methods, [chr], [str(int)], UTF-8 encoding and
    decoding, [base64.b64encode], the three look-around regular
    expressions, [json.loads] with the two limits of the interpreter it can
    hit, and [urllib.parse.urljoin] for the references the code passes.

    Conventions.  A function that can raise returns a [result]; a generator
    callback returns the list of requests it yields.  The [Set-Cookie]
    header of a response is the [bytes] the code decodes; the [user-agent]
    header of a request, which the middleware writes from a [str] of its
    table, is given by that text.  A [Request] record holds the arguments
    of the constructor call of the spider.  A logging call is kept as the
    dict lookups its arguments evaluate.  What the code calls outside the
    repository and the interpreter fixes only at run time is gathered in a
    [Runtime]: the limits of the interpreter, the base URL of a document,
    [urljoin] outside the modelled references, the [str] of a float or a
    container.  The crawl engine is present only as what it does with the
    requests of the spider: it passes each through the middleware, runs the
    callback on a response, runs the errback on a failed download; its own
    retry and cookie middlewares, the classes it picks for a response, and
    failures of the file system, are outside the embedding. *)

From Stdlib Require Import ZArith List String Ascii Bool Lia.
Import ListNotations.
Open Scope Z_scope.
Set Warnings "-register-all".

(** ** Python values *)

(** A Python [str] is a sequence of Unicode code points; a [bytes] object a
    sequence of integers below 256. *)
Definition char := Z.
Definition pystr := list char.
Definition bytes := list Z.

(** The [str] written by an ASCII literal of the source. *)
Definition py (s : string) : pystr :=
  map (fun a => Z.of_N (N_of_ascii a)) (list_ascii_of_string s).

(** The same, for sample texts: an apostrophe of the literal stands for a
    double quote of the text. *)
Definition quoted (s : string) : pystr :=
  map (fun c => if c =? 39 then 34 else c) (py s).

Definition str_eqb (a b : pystr) : bool :=
  if list_eq_dec Z.eq_dec a b then true else false.

(** Exceptions raised by the modelled code.  [ValueError msg arg] is
    [ValueError(msg)] or [ValueError(msg, arg)], the class itself and not
    one of its subclasses; [JSONDecodeError] and [UnicodeDecodeError] are
    two of those, told apart because an [except] clause of the code names
    the first. *)
Inductive errarg :=
| ArgText (s : pystr)
| ArgDecodeError.

Inductive exn :=
| ValueError (msg : pystr) (arg : option errarg)
| JSONDecodeError
| UnicodeDecodeError
| UnicodeEncodeError
| KeyError (key : pystr)
| TypeError
| OverflowError
| RecursionError.

Inductive result (A : Type) :=
| Ok (a : A)
| Raise (e : exn).
Arguments Ok {A} a.
Arguments Raise {A} e.

Definition bind {A B} (r : result A) (k : A -> result B) : result B :=
  match r with
  | Ok a => k a
  | Raise e => Raise e
  end.

Notation "x <- r ;; k" := (bind r (fun x => k))
  (at level 61, r at next level, right associativity).
Notation "' p <- r ;; k" := (bind r (fun x => let p := x in k))
  (at level 61, p pattern, r at next level, right associativity).

(** [for x in xs: f(x)] collecting the results, stopping at the first
    exception. *)
Fixpoint mapM {A B} (f : A -> result B) (xs : list A) : result (list B) :=
  match xs with
  | [] => Ok []
  | x :: tl => y <- f x ;; ys <- mapM f tl ;; Ok (y :: ys)
  end.

(** ** [str] methods *)

Fixpoint startswith (prefix s : pystr) : bool :=
  match prefix, s with
  | [], _ => true
  | p :: ptl, c :: tl => (p =? c) && startswith ptl tl
  | _ :: _, [] => false
  end.

(** [sub in s] *)
Fixpoint contains (sub s : pystr) : bool :=
  startswith sub s ||
  match s with
  | [] => false
  | _ :: tl => contains sub tl
  end.

(** [s.split(sep)] for a one-character separator. *)
Fixpoint split (sep : char) (s : pystr) : list pystr :=
  match s with
  | [] => [[]]
  | c :: tl =>
      if c =? sep then [] :: split sep tl
      else match split sep tl with
           | [] => [[c]]
           | piece :: pieces => (c :: piece) :: pieces
           end
  end.

(** [sep.join(pieces)] *)
Fixpoint join (sep : pystr) (pieces : list pystr) : pystr :=
  match pieces with
  | [] => []
  | [p] => p
  | p :: tl => p ++ sep ++ join sep tl
  end.

(** [chr(i)]: the one-character string of code point [i]; [ValueError]
    outside [range(0x110000)]. *)
Definition chr (i : Z) : result char :=
  if (0 <=? i) && (i <? 1114112) then Ok i
  else Raise (ValueError (py "chr() arg not in range(0x110000)") None).

(** ** [str(int)] *)

Definition digit_char (d : Z) : char := 48 + d.

Fixpoint digits_from (fuel : nat) (n : Z) (acc : pystr) : pystr :=
  match fuel with
  | O => acc
  | S fuel' =>
      if n <? 10 then digit_char n :: acc
      else digits_from fuel' (n / 10) (digit_char (n mod 10) :: acc)
  end.

(** Decimal digits of a natural number, most significant first. *)
Definition str_nat (n : Z) : pystr :=
  digits_from (S (Z.to_nat (Z.log2 n))) n [].

Definition str_int (z : Z) : pystr :=
  if z <? 0 then 45 :: str_nat (- z) else str_nat z.

(** ** [str.encode("utf-8")] *)

Definition utf8_char (c : char) : result bytes :=
  if c <? 0 then Raise UnicodeEncodeError
  else if c <? 128 then Ok [c]
  else if c <? 2048 then
    Ok [192 + Z.shiftr c 6; 128 + Z.land c 63]
  else if c <? 65536 then
    if (55296 <=? c) && (c <=? 57343) then Raise UnicodeEncodeError
    else Ok [224 + Z.shiftr c 12;
             128 + Z.land (Z.shiftr c 6) 63;
             128 + Z.land c 63]
  else if c <? 1114112 then
    Ok [240 + Z.shiftr c 18;
        128 + Z.land (Z.shiftr c 12) 63;
        128 + Z.land (Z.shiftr c 6) 63;
        128 + Z.land c 63]
  else Raise UnicodeEncodeError.

Fixpoint encode_utf8 (s : pystr) : result bytes :=
  match s with
  | [] => Ok []
  | c :: tl => b <- utf8_char c ;; bs <- encode_utf8 tl ;; Ok (b ++ bs)
  end.

(** ** [bytes.decode("utf-8")] *)

Definition is_continuation (b : Z) : bool := (128 <=? b) && (b <=? 191).

(** The second byte of a three-byte sequence: no overlong form after
    [0xE0], no surrogate after [0xED]. *)
Definition second_of_three (b0 b1 : Z) : bool :=
  if b0 =? 224 then (160 <=? b1) && (b1 <=? 191)
  else if b0 =? 237 then (128 <=? b1) && (b1 <=? 159)
  else is_continuation b1.

(** The second byte of a four-byte sequence: no overlong form after
    [0xF0], nothing above U+10FFFF after [0xF4]. *)
Definition second_of_four (b0 b1 : Z) : bool :=
  if b0 =? 240 then (144 <=? b1) && (b1 <=? 191)
  else if b0 =? 244 then (128 <=? b1) && (b1 <=? 143)
  else is_continuation b1.

(** Strict decoding: any byte sequence that is not well-formed UTF-8
    raises [UnicodeDecodeError]. *)
Fixpoint decode_utf8 (data : bytes) : result pystr :=
  match data with
  | [] => Ok []
  | b0 :: tl0 =>
      if (0 <=? b0) && (b0 <? 128) then
        s <- decode_utf8 tl0 ;; Ok (b0 :: s)
      else
        match tl0 with
        | [] => Raise UnicodeDecodeError
        | b1 :: tl1 =>
            if (194 <=? b0) && (b0 <=? 223) then
              if is_continuation b1 then
                s <- decode_utf8 tl1 ;;
                Ok ((b0 - 192) * 64 + (b1 - 128) :: s)
              else Raise UnicodeDecodeError
            else
              match tl1 with
              | [] => Raise UnicodeDecodeError
              | b2 :: tl2 =>
                  if (224 <=? b0) && (b0 <=? 239) then
                    if second_of_three b0 b1 && is_continuation b2 then
                      s <- decode_utf8 tl2 ;;
                      Ok ((b0 - 224) * 4096 + (b1 - 128) * 64 + (b2 - 128)
                          :: s)
                    else Raise UnicodeDecodeError
                  else
                    match tl2 with
                    | [] => Raise UnicodeDecodeError
                    | b3 :: tl3 =>
                        if (240 <=? b0) && (b0 <=? 244) then
                          if second_of_four b0 b1 && is_continuation b2
                             && is_continuation b3 then
                            s <- decode_utf8 tl3 ;;
                            Ok ((b0 - 240) * 262144 + (b1 - 128) * 4096
                                + (b2 - 128) * 64 + (b3 - 128) :: s)
                          else Raise UnicodeDecodeError
                        else Raise UnicodeDecodeError
                    end
              end
        end
  end.

(** ** [base64] (RFC 4648, standard alphabet) *)

Definition b64_alphabet : pystr :=
  py "ABCDEFGHIJKLMNOPQRSTUVWXYZabcdefghijklmnopqrstuvwxyz0123456789+/".

Definition b64_char (sextet : Z) : char :=
  nth (Z.to_nat sextet) b64_alphabet 61.

Definition b64_pad : char := 61.

(** [base64.b64encode(data).decode("utf-8")]: the output alphabet is ASCII,
    so the decoded text has one character per output byte. *)
Fixpoint b64encode (data : bytes) : pystr :=
  match data with
  | [] => []
  | [a] =>
      let n := Z.shiftl a 16 in
      [b64_char (Z.land (Z.shiftr n 18) 63);
       b64_char (Z.land (Z.shiftr n 12) 63);
       b64_pad; b64_pad]
  | [a; b] =>
      let n := Z.shiftl a 16 + Z.shiftl b 8 in
      [b64_char (Z.land (Z.shiftr n 18) 63);
       b64_char (Z.land (Z.shiftr n 12) 63);
       b64_char (Z.land (Z.shiftr n 6) 63);
       b64_pad]
  | a :: b :: c :: tl =>
      let n := Z.shiftl a 16 + Z.shiftl b 8 + c in
      b64_char (Z.land (Z.shiftr n 18) 63)
      :: b64_char (Z.land (Z.shiftr n 12) 63)
      :: b64_char (Z.land (Z.shiftr n 6) 63)
      :: b64_char (Z.land n 63)
      :: b64encode tl
  end.

Fixpoint index_of (c : char) (l : pystr) (i : Z) : option Z :=
  match l with
  | [] => None
  | x :: tl => if x =? c then Some i else index_of c tl (i + 1)
  end.

Definition b64_value (c : char) : option Z := index_of c b64_alphabet 0.

(** Base64 decoding of padded text. *)
Fixpoint b64decode (s : pystr) : option bytes :=
  match s with
  | [] => Some []
  | [c1; c2; p1; p2] =>
      match b64_value c1, b64_value c2 with
      | Some v1, Some v2 =>
          let n := Z.shiftl v1 18 + Z.shiftl v2 12 in
          if (p1 =? b64_pad) && (p2 =? b64_pad) then
            Some [Z.land (Z.shiftr n 16) 255]
          else
            match b64_value p1 with
            | Some v3 =>
                let n := n + Z.shiftl v3 6 in
                if p2 =? b64_pad then
                  Some [Z.land (Z.shiftr n 16) 255;
                        Z.land (Z.shiftr n 8) 255]
                else
                  match b64_value p2 with
                  | Some v4 =>
                      let n := n + v4 in
                      Some [Z.land (Z.shiftr n 16) 255;
                            Z.land (Z.shiftr n 8) 255;
                            Z.land n 255]
                  | None => None
                  end
            | None => None
            end
      | _, _ => None
      end
  | c1 :: c2 :: c3 :: c4 :: tl =>
      match b64_value c1, b64_value c2, b64_value c3, b64_value c4,
            b64decode tl with
      | Some v1, Some v2, Some v3, Some v4, Some rest =>
          let n := Z.shiftl v1 18 + Z.shiftl v2 12 + Z.shiftl v3 6 + v4 in
          Some (Z.land (Z.shiftr n 16) 255
                :: Z.land (Z.shiftr n 8) 255
                :: Z.land n 255 :: rest)
      | _, _, _, _, _ => None
      end
  | _ => None
  end.

(** ** Regular expressions of the form [(?<=P).*?(?=T)] *)

(** The lazy [.*?] from the current position up to the first terminator;
    [.] does not match a line feed, so the attempt fails when a line feed
    comes first. *)
Fixpoint lazy_until (term : char) (s : pystr) : option pystr :=
  match s with
  | [] => None
  | c :: tl =>
      if c =? term then Some []
      else if c =? 10 then None
      else option_map (cons c) (lazy_until term tl)
  end.

Fixpoint skipn_str (n : nat) (s : pystr) : pystr :=
  match n with
  | O => s
  | S n' => match s with [] => [] | _ :: tl => skipn_str n' tl end
  end.

(** [re.search("(?<=P).*?(?=T)", text).group()] for a literal prefix [P]
    and a one-character terminator [T]: the leftmost position preceded by
    [P] from which the lazy match succeeds; [None] when there is none. *)
Fixpoint search_between (prefix : pystr) (term : char) (text : pystr)
  : option pystr :=
  let here :=
    if startswith prefix text
    then lazy_until term (skipn_str (List.length prefix) text)
    else None in
  match here with
  | Some m => Some m
  | None =>
      match text with
      | [] => None
      | _ :: tl => search_between prefix term tl
      end
  end.

(** ** [json.loads] *)

(** The value [json.loads] builds.  [JObj members] is a [dict] with its
    items in insertion order.  A number with a fraction or an exponent
    becomes a [float], kept here as its lexeme. *)
Inductive json :=
| JNull
| JBool (b : bool)
| JInt (z : Z)
| JFloat (lexeme : pystr)
| JStr (s : pystr)
| JArr (items : list json)
| JObj (members : list (pystr * json)).

(** What the interpreter and the libraries outside the repository
    contribute at run time.

    - [recursion_allowance]: how many containers of a JSON document can be
      open at once before the decoder (the C scanner of CPython, which
      enters a recursive call for each object and array) has used up what
      is left of the recursion limit;
    - [int_max_str_digits]: [sys.get_int_max_str_digits()], the limit on
      the digits of an integer literal; 0 when there is none;
    - [html_base_url text url]: [w3lib.html.get_base_url], the base URL of a
      document with text [text] fetched from [url] (that of a [<base href>]
      of the text when it has one), or the exception it raises;
    - [urljoin_other base reference]: [urllib.parse.urljoin] on the pairs
      that [urljoin] below does not compute;
    - [py_repr v]: [str(v)] for a float, a list or a dict. *)
Record Runtime := {
  recursion_allowance : nat;
  int_max_str_digits : nat;
  html_base_url : pystr -> pystr -> result pystr;
  urljoin_other : pystr -> pystr -> result pystr;
  py_repr : json -> pystr }.

(** The outcome of scanning: a value and the text after it, an exception,
    or the end of the fuel of the recursion (which [json_loads] never
    reaches). *)
Inductive scan (A : Type) :=
| Scanned (a : A) (rest : pystr)
| Failed (e : exn)
| Exhausted.
Arguments Scanned {A} a rest.
Arguments Failed {A} e.
Arguments Exhausted {A}.

(** [json.JSONDecodeError], whatever its message and position. *)
Abbreviation Invalid := (Failed JSONDecodeError).

Definition is_ws (c : char) : bool :=
  (c =? 32) || (c =? 9) || (c =? 10) || (c =? 13).

Fixpoint skip_ws (s : pystr) : pystr :=
  match s with
  | c :: tl => if is_ws c then skip_ws tl else s
  | [] => []
  end.

Definition is_digit (c : char) : bool := (48 <=? c) && (c <=? 57).

Fixpoint span_digits (s : pystr) : pystr * pystr :=
  match s with
  | c :: tl =>
      if is_digit c then let (ds, rest) := span_digits tl in (c :: ds, rest)
      else ([], s)
  | [] => ([], [])
  end.

(** [int(lexeme)] for a run of ASCII digits. *)
Definition digits_value (ds : pystr) : Z :=
  fold_left (fun acc d => 10 * acc + (d - 48)) ds 0.

(** The optional fraction of a number: a dot and at least one digit. *)
Definition scan_frac (s : pystr) : pystr * pystr :=
  match s with
  | c :: tl =>
      if c =? 46 then
        match span_digits tl with
        | ([], _) => ([], s)
        | (ds, rest) => (c :: ds, rest)
        end
      else ([], s)
  | [] => ([], s)
  end.

(** The optional exponent of a number: [e] or [E], an optional sign and at
    least one digit. *)
Definition scan_exp (s : pystr) : pystr * pystr :=
  match s with
  | e :: tl =>
      if (e =? 101) || (e =? 69) then
        let (sign, tl') :=
          match tl with
          | c :: tl' => if (c =? 45) || (c =? 43) then ([c], tl') else ([], tl)
          | [] => ([], tl)
          end in
        match span_digits tl' with
        | ([], _) => ([], s)
        | (ds, rest) => (e :: sign ++ ds, rest)
        end
      else ([], s)
  | [] => ([], s)
  end.

(** The integer part of a number: [0], or a non-zero digit and further
    digits. *)
Definition scan_int_part (s : pystr) : option (pystr * pystr) :=
  match s with
  | d :: tl =>
      if d =? 48 then Some ([48], tl)
      else if is_digit d then
        let (ds, rest) := span_digits tl in Some (d :: ds, rest)
      else None
  | [] => None
  end.

(** A number after its sign: the integer part, then the optional fraction
    and exponent; an [int] when it has neither, a [float] otherwise. *)
Definition scan_unsigned (sign s : pystr) : option (json * pystr) :=
  match scan_int_part s with
  | None => None
  | Some (ip, r) =>
      let (frac, r1) := scan_frac r in
      let (ex, r2) := scan_exp r1 in
      match frac, ex with
      | [], [] =>
          let v := digits_value ip in
          Some (JInt (match sign with [] => v | _ => - v end), r2)
      | _, _ => Some (JFloat (sign ++ ip ++ frac ++ ex), r2)
      end
  end.

(** A number, with its optional minus sign. *)
Definition scan_number (s : pystr) : option (json * pystr) :=
  match s with
  | c :: tl => if c =? 45 then scan_unsigned [c] tl else scan_unsigned [] s
  | [] => None
  end.

Definition hex_value (c : char) : option Z :=
  if is_digit c then Some (c - 48)
  else if (97 <=? c) && (c <=? 102) then Some (c - 87)
  else if (65 <=? c) && (c <=? 70) then Some (c - 55)
  else None.

Definition hex4 (a b c d : char) : option Z :=
  match hex_value a, hex_value b, hex_value c, hex_value d with
  | Some x, Some y, Some z, Some w => Some (((x * 16 + y) * 16 + z) * 16 + w)
  | _, _, _, _ => None
  end.

Definition simple_escape (c : char) : option char :=
  if (c =? 34) || (c =? 92) || (c =? 47) then Some c
  else if c =? 98 then Some 8
  else if c =? 102 then Some 12
  else if c =? 110 then Some 10
  else if c =? 114 then Some 13
  else if c =? 116 then Some 9
  else None.

Definition is_high_surrogate (c : Z) : bool := (55296 <=? c) && (c <=? 56319).
Definition is_low_surrogate (c : Z) : bool := (56320 <=? c) && (c <=? 57343).

Definition prepend {A} (a : A) (o : option (list A * pystr))
  : option (list A * pystr) :=
  match o with
  | Some (l, rest) => Some (a :: l, rest)
  | None => None
  end.

(** The body of a string literal, after its opening quote (strict mode:
    a raw control character is an error).  A high surrogate escape directly
    followed by a low surrogate escape is one character. *)
Fixpoint scan_string (s : pystr) : option (pystr * pystr) :=
  match s with
  | [] => None
  | c :: tl =>
      if c =? 34 then Some ([], tl)
      else if c =? 92 then
        match tl with
        | [] => None
        | e :: tl1 =>
            if e =? 117 then
              match tl1 with
              | a :: b :: c3 :: d :: tl2 =>
                  match hex4 a b c3 d with
                  | None => None
                  | Some hi =>
                      let lone := prepend hi (scan_string tl2) in
                      match tl2 with
                      | b1 :: u1 :: a' :: b' :: c' :: d' :: tl3 =>
                          if is_high_surrogate hi && (b1 =? 92) && (u1 =? 117)
                          then
                            match hex4 a' b' c' d' with
                            | None => None
                            | Some lo =>
                                if is_low_surrogate lo then
                                  prepend
                                    (65536 + (hi - 55296) * 1024 + (lo - 56320))
                                    (scan_string tl3)
                                else lone
                            end
                          else lone
                      | _ => lone
                      end
                  end
              | _ => None
              end
            else
              match simple_escape e with
              | Some x => prepend x (scan_string tl1)
              | None => None
              end
        end
      else if c <=? 31 then None
      else prepend c (scan_string tl)
  end.

Definition scan_map {A B} (f : A -> B) (r : scan A) : scan B :=
  match r with
  | Scanned a rest => Scanned (f a) rest
  | Failed e => Failed e
  | Exhausted => Exhausted
  end.

(** The number of digits of the integer part of the number at the head of
    [s]. *)
Definition int_digits (s : pystr) : nat :=
  let unsigned :=
    match s with
    | c :: tl => if c =? 45 then tl else s
    | [] => s
    end in
  match scan_int_part unsigned with
  | Some (ip, _) => List.length ip
  | None => O
  end.

(** [int(lexeme)] refuses a literal of more digits than the limit of the
    interpreter, when there is a limit; a literal of 640 digits or fewer is
    never refused (the threshold is tested first, as in [longobject.c]). *)
Definition exceeds_digit_limit (rt : Runtime) (digits : nat) : bool :=
  (640 <? digits)%nat
  && ((0 <? int_max_str_digits rt)%nat && (int_max_str_digits rt <? digits)%nat).

(** The [ValueError] of a refused literal (text of CPython 3.11). *)
Definition DigitLimitError (rt : Runtime) (digits : nat) : exn :=
  ValueError
    (py "Exceeds the limit ("
     ++ str_nat (Z.of_nat (int_max_str_digits rt))
     ++ py " digits) for integer string conversion: value has "
     ++ str_nat (Z.of_nat digits)
     ++ py " digits; use sys.set_int_max_str_digits() to increase the limit")
    None.

(** The literals and numbers: [null], [true], [false], a number, [NaN],
    [Infinity], [-Infinity]. *)
Definition scan_atom (rt : Runtime) (s : pystr) : scan json :=
  if startswith (py "null") s then Scanned JNull (skipn_str 4 s)
  else if startswith (py "true") s then Scanned (JBool true) (skipn_str 4 s)
  else if startswith (py "false") s then Scanned (JBool false) (skipn_str 5 s)
  else
    match scan_number s with
    | Some (JInt z, rest) =>
        if exceeds_digit_limit rt (int_digits s)
        then Failed (DigitLimitError rt (int_digits s))
        else Scanned (JInt z) rest
    | Some (v, rest) => Scanned v rest
    | None =>
        if startswith (py "NaN") s then
          Scanned (JFloat (py "NaN")) (skipn_str 3 s)
        else if startswith (py "Infinity") s then
          Scanned (JFloat (py "Infinity")) (skipn_str 8 s)
        else if startswith (py "-Infinity") s then
          Scanned (JFloat (py "-Infinity")) (skipn_str 9 s)
        else Invalid
    end.

(** [d[k] = v] on the items of a dict: the value of a key already there
    is replaced where it stands, a new key goes last. *)
Fixpoint dict_set (k : pystr) (v : json) (d : list (pystr * json))
  : list (pystr * json) :=
  match d with
  | [] => [(k, v)]
  | (k', v') :: tl =>
      if str_eqb k k' then (k', v) :: tl else (k', v') :: dict_set k v tl
  end.

(** The dict of the members of an object, inserted in document order. *)
Definition dict_of (pairs : list (pystr * json)) : list (pystr * json) :=
  fold_left (fun d kv => dict_set (fst kv) (snd kv) d) pairs [].

Section Scanner.

Variable rt : Runtime.

(** The scanner: one value at the head of [s], with [depth] containers
    still allowed to open.  An object or an array enters a recursive call
    before anything of it is read, and raises [RecursionError] when none is
    left.  [parse_items] and [parse_members] are the loops of an array
    after its first [[] and of an object after its first [{], both
    positioned at the next element; an object becomes the dict of its
    members. *)
Fixpoint parse_value (fuel depth : nat) (s : pystr)
         {struct fuel} : scan json :=
  match fuel with
  | O => Exhausted
  | S fuel' =>
      match s with
      | [] => Invalid
      | c :: tl =>
          if c =? 34 then
            match scan_string tl with
            | Some (str, rest) => Scanned (JStr str) rest
            | None => Invalid
            end
          else if c =? 123 then
            match depth with
            | O => Failed RecursionError
            | S depth' =>
                let body := skip_ws tl in
                if startswith [125] body
                then Scanned (JObj []) (skipn_str 1 body)
                else scan_map (fun pairs => JObj (dict_of pairs))
                              (parse_members fuel' depth' body)
            end
          else if c =? 91 then
            match depth with
            | O => Failed RecursionError
            | S depth' =>
                let body := skip_ws tl in
                if startswith [93] body
                then Scanned (JArr []) (skipn_str 1 body)
                else scan_map JArr (parse_items fuel' depth' body)
            end
          else scan_atom rt s
      end
  end

with parse_items (fuel depth : nat) (s : pystr)
       {struct fuel} : scan (list json) :=
  match fuel with
  | O => Exhausted
  | S fuel' =>
      match parse_value fuel' depth s with
      | Scanned v rest =>
          match skip_ws rest with
          | c :: rest' =>
              if c =? 93 then Scanned [v] rest'
              else if c =? 44 then
                scan_map (cons v) (parse_items fuel' depth (skip_ws rest'))
              else Invalid
          | [] => Invalid
          end
      | Failed e => Failed e
      | Exhausted => Exhausted
      end
  end

with parse_members (fuel depth : nat) (s : pystr)
       {struct fuel} : scan (list (pystr * json)) :=
  match fuel with
  | O => Exhausted
  | S fuel' =>
      match s with
      | [] => Invalid
      | q :: tl =>
          if q =? 34 then
            match scan_string tl with
            | None => Invalid
            | Some (key, rest) =>
                match skip_ws rest with
                | [] => Invalid
                | colon :: rest' =>
                    if colon =? 58 then
                      match parse_value fuel' depth (skip_ws rest') with
                      | Scanned v rest'' =>
                          match skip_ws rest'' with
                          | c :: rest3 =>
                              if c =? 125 then Scanned [(key, v)] rest3
                              else if c =? 44 then
                                scan_map (cons (key, v))
                                         (parse_members fuel' depth
                                            (skip_ws rest3))
                              else Invalid
                          | [] => Invalid
                          end
                      | Failed e => Failed e
                      | Exhausted => Exhausted
                      end
                    else Invalid
                end
            end
          else Invalid
      end
  end.

End Scanner.

(** Fuel that the scanner never uses up on [s]. *)
Definition enough_fuel (s : pystr) : nat := S (S (2 * List.length s)).

(** [json.loads(s)]: the value, [json.JSONDecodeError] for a text that is
    not a JSON document, [RecursionError] for one nested deeper than the
    interpreter allows, [ValueError] for an integer literal longer than its
    digit limit; whichever the scanner meets first, from left to right. *)
Definition json_loads (rt : Runtime) (s : pystr) : result json :=
  let body := skip_ws s in
  match parse_value rt (enough_fuel body) (recursion_allowance rt) body with
  | Scanned v rest =>
      match skip_ws rest with
      | [] => Ok v
      | _ => Raise JSONDecodeError
      end
  | Failed e => Raise e
  | Exhausted => Raise JSONDecodeError
  end.

(** ** Python operations on the values [json.loads] returns *)

(** [d.get(k)] on an insertion-ordered association: the first item with
    the key. *)
Fixpoint assoc_get {V} (k : pystr) (d : list (pystr * V)) : option V :=
  match d with
  | [] => None
  | (k', v) :: tl => if str_eqb k k' then Some v else assoc_get k tl
  end.

(** Lookup by key in the items of a dict (were a key to stand twice in the
    list, its last item would count). *)
Definition dict_get (k : pystr) (members : list (pystr * json)) : option json :=
  assoc_get k (rev members).

(** The keys of the dict, each once, in order of first insertion. *)
Fixpoint dict_keys (members : list (pystr * json)) (seen : list pystr)
  : list pystr :=
  match members with
  | [] => []
  | (k, _) :: tl =>
      if existsb (str_eqb k) seen then dict_keys tl seen
      else k :: dict_keys tl (k :: seen)
  end.

(** [v[key]] for a [str] key: only a [dict] can be indexed by a string. *)
Definition py_getitem (v : json) (key : pystr) : result json :=
  match v with
  | JObj members =>
      match dict_get key members with
      | Some x => Ok x
      | None => Raise (KeyError key)
      end
  | _ => Raise TypeError
  end.

(** [iter(v)]: the elements of a list, the one-character strings of a
    string, the keys of a dict; anything else is not iterable. *)
Definition py_iter (v : json) : result (list json) :=
  match v with
  | JArr items => Ok items
  | JStr s => Ok (map (fun c => JStr [c]) s)
  | JObj members => Ok (map JStr (dict_keys members []))
  | _ => Raise TypeError
  end.

(** [chr(v)]: [v] must be an [int] ([bool] is one); an integer outside the
    range of a C [int] overflows before the range check. *)
Definition py_chr (v : json) : result char :=
  match v with
  | JInt z =>
      if (z <? -2147483648) || (2147483647 <? z) then Raise OverflowError
      else chr z
  | JBool b => chr (if b then 1 else 0)
  | _ => Raise TypeError
  end.

(** ** Documents *)

(** A parsed HTML document: elements with a tag, attributes and children
    (text nodes play no part in what follows). *)
Inductive Element :=
| Elem (tag : pystr) (attrib : list (pystr * pystr)) (children : list Element).

Definition SelectorList := list Element.

Definition has_id (id : pystr) (attrs : list (pystr * pystr)) : bool :=
  match assoc_get (py "id") attrs with
  | Some v => str_eqb v id
  | None => false
  end.

(** The elements below [e] (and [e] itself when [inside]) selected by the
    CSS selector [#id tag], in document order: the [tag] elements that have
    an ancestor whose id is [id]. *)
Fixpoint select_descendants (id tag : pystr) (inside : bool) (e : Element)
  : list Element :=
  match e with
  | Elem t attrs kids =>
      (if inside && str_eqb t tag then [e] else [])
      ++ flat_map (select_descendants id tag (inside || has_id id attrs)) kids
  end.

(** [SelectorList.attrib]: the attributes of the first selected element, or
    an empty dict when nothing is selected. *)
Definition selector_attrib (sel : SelectorList) : list (pystr * pystr) :=
  match sel with
  | Elem _ attrs _ :: _ => attrs
  | [] => []
  end.

(** [sel is None]: a [SelectorList] is an object, never [None]. *)
Definition is_None (sel : SelectorList) : bool := false.

(** ** Requests and responses *)

Record Group := { name : pystr; vote : pystr }.

(** [request.meta]: the keys the spider and the middleware use; a key that
    is absent is [None]. *)
Record Meta := {
  meta_fake_platform : option bool;
  meta_group : option Group;
  meta_os : option pystr;
  meta_carnivore_value : option pystr;
  meta_rats_hash : option pystr }.

(** [d[key]] on a dict entry that may be absent. *)
Definition getitem {A} (key : string) (entry : option A) : result A :=
  match entry with
  | Some v => Ok v
  | None => Raise (KeyError (py key))
  end.

Inductive Callback :=
| cb_parse
| cb_parse_hastorni_js_file
| cb_parse_daxiongmao_js_file
| cb_parse_voting_result.

Inductive Errback :=
| eb_handle_vote_failure.

Inductive Body :=
| NoBody
| FormEncoded (fields : list (pystr * pystr)).

(** Request headers: the text of the [user-agent] header, when set. *)
Record Headers := { user_agent : option pystr }.

Record Request := {
  req_url : pystr;
  req_method : pystr;
  req_headers : Headers;
  req_cookies : list (pystr * pystr);
  req_body : Body;
  req_callback : Callback;
  req_errback : option Errback;
  req_dont_filter : bool;
  req_meta : Meta }.

(** A response: its URL, the request it answers, its [Set-Cookie] header
    when there is one (the [bytes] that [headers.get] returns), its body
    text and the document the body parses to. *)
Record Response := {
  resp_url : pystr;
  resp_request : Request;
  resp_set_cookie : option bytes;
  resp_text : pystr;
  resp_document : list Element }.

(** [response.meta] is the meta of the request the response answers. *)
Definition resp_meta (response : Response) : Meta :=
  req_meta (resp_request response).

Inductive selector :=
| IdDescendant (id tag : pystr).

(** [response.css(sel)] *)
Definition css (response : Response) (sel : selector) : SelectorList :=
  match sel with
  | IdDescendant id tag =>
      flat_map (select_descendants id tag false) (resp_document response)
  end.

(** ** The errors of the specification, as the code raises them *)

Definition ElementNotFound : exn :=
  ValueError
    (py "Input element with id 'carnivoreatingbambu' not found in the response.")
    None.
Definition AttributeMissing : exn :=
  ValueError (py "Value attribute not found in the input element.") None.
Definition MissingHeader : exn :=
  ValueError (py "No 'Set-Cookie' header found in the response.") None.
Definition SessionCookieAbsent : exn :=
  ValueError (py "Session cookie not found in Set-Cookie.") None.
Definition UnexpectedResponse (text : pystr) : exn :=
  ValueError (py "Response page not expected: ") (Some (ArgText text)).
Definition ResultParseError : exn :=
  ValueError (py "Could not read election result: ") (Some ArgDecodeError).

(** The [ValueError] of a tuple assignment with the wrong number of
    values. *)
Definition TooManyValues : exn :=
  ValueError (py "too many values to unpack (expected 2)") None.
Definition NotEnoughValues : exn :=
  ValueError (py "not enough values to unpack (expected 2, got 1)") None.

(** * [extractor.py]: the [Parser] classes *)

(** ** [Parser.VotingPage] *)

Definition get_carnivore_value (response : Response) : result pystr :=
  let input_element :=
    css response (IdDescendant (py "carnivoreatingbambu") (py "input")) in
  if is_None input_element then Raise ElementNotFound
  else
    match assoc_get (py "value") (selector_attrib input_element) with
    | None => Raise AttributeMissing
    | Some value => Ok value
    end.

(** ** [Parser.Common] *)

(** [headers] stands for [headers.get('Set-Cookie')]: the bytes of the
    header, [None] when the response has none. *)
Definition get_session_cookies (headers : option bytes)
  : result (pystr * pystr) :=
  match headers with
  | None => Raise MissingHeader
  | Some set_cookie_header =>
      cookies_str <- decode_utf8 set_cookie_header ;;
      let cookies := split 59 cookies_str in
      match find (startswith (py "session=")) cookies with
      | None => Raise SessionCookieAbsent
      | Some session_cookie =>
          match split 61 session_cookie with
          | [key; value] => Ok (key, value)
          | [] | [_] => Raise NotEnoughValues
          | _ => Raise TooManyValues
          end
      end
  end.

(** ** [Parser.DaxiongmaoJsFile] *)

Definition get_rogue_racoons_hash (response_text : pystr) : result pystr :=
  let find_hash_prefix := py "oons" ++ [34] ++ py " value=" ++ [34] in
  match search_between find_hash_prefix 34 response_text with
  | None =>
      Raise (ValueError (py "Rogue raccoons hash not found in response.") None)
  | Some hash_ => Ok hash_
  end.

(** ** [Parser.HastorniJsFile] *)

Definition _convert_char_codes_to_str (char_codes : json) : result pystr :=
  match (letters <- py_iter char_codes ;; mapM py_chr letters) with
  | Raise TypeError =>
      Raise (ValueError (py "Input is not a list of character codes.") None)
  | r => r
  end.

(** In the two functions below the [except] clause names
    [json.JSONDecodeError]: any other exception of [json.loads] leaves the
    function as it is. *)
Definition get_ursidae_name (rt : Runtime) (response_text : pystr)
  : result pystr :=
  match search_between (py "ursidae = ") 59 response_text with
  | None =>
      Raise (ValueError
               (py "Char codes for Ursidae name not found in response text.")
               None)
  | Some char_codes_str =>
      match json_loads rt char_codes_str with
      | Raise JSONDecodeError =>
          Raise (ValueError (py "Char codes string is not a valid JSON object.")
                            None)
      | Raise e => Raise e
      | Ok char_codes => _convert_char_codes_to_str char_codes
      end
  end.

Definition _get_letters_map (rt : Runtime) (response_text : pystr)
  : result json :=
  match search_between (py "kretzoi = ") 59 response_text with
  | None => Raise (ValueError (py "Map not found in the response.") None)
  | Some map_str =>
      match json_loads rt map_str with
      | Raise JSONDecodeError =>
          Raise (ValueError (py "Error decoding map") None)
      | Raise e => Raise e
      | Ok map_ => Ok map_
      end
  end.

(** ** [urllib.parse.urljoin] *)

(** [s.split(sep, 1)]: the text before the first [sep], and the text after
    it when there is one. *)
Fixpoint partition_at (sep : char) (s : pystr) : pystr * option pystr :=
  match s with
  | [] => ([], None)
  | c :: tl =>
      if c =? sep then ([], Some tl)
      else let (before, after) := partition_at sep tl in (c :: before, after)
  end.

(** Tab, line feed and carriage return: [urlsplit] removes them from a URL
    in a recent interpreter and keeps them in an older one. *)
Definition is_removed_char (c : char) : bool :=
  (c =? 9) || (c =? 10) || (c =? 13).

(** The authority of a URL after [scheme://]: up to the first [/], [?] or
    [#]. *)
Fixpoint take_netloc (s : pystr) : pystr :=
  match s with
  | [] => []
  | c :: tl =>
      if (c =? 47) || (c =? 63) || (c =? 35) then [] else c :: take_netloc tl
  end.

(** Printable ASCII other than the space and the square brackets: with
    these [urlsplit] checks nothing in an authority. *)
Definition is_netloc_char (c : char) : bool :=
  (33 <=? c) && (c <=? 126) && negb (c =? 91) && negb (c =? 93).

(** The scheme and authority [http://netloc] or [https://netloc] of a base
    URL written in lower case with a plain authority; [None] for any other
    base. *)
Definition url_origin (base : pystr) : option pystr :=
  let origin_after scheme :=
    let netloc := take_netloc (skipn_str (List.length scheme) base) in
    if forallb is_netloc_char netloc then Some (scheme ++ netloc) else None in
  if existsb is_removed_char base then None
  else if startswith (py "https://") base then origin_after (py "https://")
  else if startswith (py "http://") base then origin_after (py "http://")
  else None.

(** Path, query and fragment of a reference that is an absolute path (one
    leading [/]) without parameters ([;]) and without [.] or [..] segments;
    [None] for any other reference.  As [urlsplit] does, the fragment is
    cut at the first [#], then the query at the first [?]. *)
Definition split_reference (reference : pystr)
  : option (pystr * pystr * pystr) :=
  let (url, fragment) := partition_at 35 reference in
  let (path, query) := partition_at 63 url in
  if startswith [47] path && negb (startswith [47; 47] path)
     && negb (existsb is_removed_char reference)
     && negb (existsb (Z.eqb 59) path)
     && negb (existsb (fun segment => str_eqb segment (py ".")
                                      || str_eqb segment (py ".."))
                      (split 47 path))
  then Some (path,
             match query with Some q => q | None => [] end,
             match fragment with Some f => f | None => [] end)
  else None.

(** [urljoin(base, reference)].  For an [http(s)] base and an absolute-path
    reference as above, the result is the origin of the base, the path,
    then [?query] and [#fragment] when they are not empty (an empty query or
    fragment loses its sign).  Every other pair is left to the runtime. *)
Definition urljoin (rt : Runtime) (base reference : pystr) : result pystr :=
  match url_origin base, split_reference reference with
  | Some origin, Some (path, query, fragment) =>
      Ok (origin ++ path
          ++ match query with [] => [] | _ => 63 :: query end
          ++ match fragment with [] => [] | _ => 35 :: fragment end)
  | _, _ => urljoin_other rt base reference
  end.

(** An instance of the runtime, for running the definitions: the limits
    are those of a CPython 3.11 with its default settings (a recursion
    limit of 1000, 4300 digits), a document has no [<base>] element, and
    neither [urljoin] on other pairs nor the [str] of a float or a
    container is needed. *)
Definition sample_runtime : Runtime :=
  {| recursion_allowance := 1000;
     int_max_str_digits := 4300;
     html_base_url := fun text url => Ok url;
     urljoin_other := fun base reference => Ok reference;
     py_repr := fun v => py "<repr>" |}.

Section Pipeline.

Variable rt : Runtime.

(** [str(v)] *)
Definition py_str (v : json) : pystr :=
  match v with
  | JInt z => str_int z
  | JStr s => s
  | JNull => py "None"
  | JBool true => py "True"
  | JBool false => py "False"
  | _ => py_repr rt v
  end.

(** [scrapy.utils.response.get_base_url(response)]: the base URL of the
    first 4096 characters of the body. *)
Definition get_base_url (response : Response) : result pystr :=
  html_base_url rt (firstn 4096 (resp_text response)) (resp_url response).

(** [response.urljoin(reference)], of a text response: the join with the
    base URL of the document, not with [response.url]. *)
Definition resp_urljoin (response : Response) (reference : pystr)
  : result pystr :=
  base <- get_base_url response ;;
  urljoin rt base reference.

Definition get_daxiongmao_file_url (response : Response) (ursidae_name : pystr)
  : result pystr :=
  os <- getitem "os" (meta_os (resp_meta response)) ;;
  ua <- getitem "user-agent" (user_agent (req_headers (resp_request response))) ;;
  ua_ursidae_os <- encode_utf8 (ua ++ ursidae_name ++ os) ;;
  let ua_ursidae_os_b64 := b64encode ua_ursidae_os in
  carnivore_value <-
    getitem "carnivore_value" (meta_carnivore_value (resp_meta response)) ;;
  let daxiongmao_file_endpoint :=
    py "/daxiongmao.js?" ++ carnivore_value ++ py "=" ++ ua_ursidae_os_b64
    ++ py "&key=aadfa" in
  resp_urljoin response daxiongmao_file_endpoint.

Definition get_rats_hash (response : Response) : result pystr :=
  letters_map <- _get_letters_map rt (resp_text response) ;;
  group <- getitem "group" (meta_group (resp_meta response)) ;;
  let group_name := name group in
  let group_name_letters := map (fun c => [c]) group_name in
  group_name_numbers <-
    mapM (fun letter => v <- py_getitem letters_map letter ;; Ok (py_str v))
         group_name_letters ;;
  let rats_content := join (py "|") group_name_numbers in
  rats_content_encoded <- encode_utf8 rats_content ;;
  Ok (b64encode rats_content_encoded).

(** * [middlewares.py]: [FakePlatformMiddleware] *)

Record Platform := { platform_os : pystr; platform_ua : pystr }.

Definition all_platforms : list Platform :=
  map (fun p => {| platform_os := py (fst p); platform_ua := py (snd p) |})
  [ ("Win32",
     "Mozilla/5.0 (Windows NT 5.1 rv: 52.0) Gecko/20100101 Firefox/52.0");
    ("Win64",
     "Mozilla/5.0 (Windows NT 10.0; Win64; x64) AppleWebKit/537.36 (KHTML, like Gecko) Chrome/89.0.4389.82 Safari/537.36");
    ("MacIntel",
     "Mozilla/5.0 (Macintosh; Intel Mac OS X 10_15_7) AppleWebKit/605.1.15 (KHTML, like Gecko) Version/14.0 Safari/605.1.15");
    ("iPhone",
     "Mozilla/5.0 (iPhone; CPU iPhone OS 14_2 like Mac OS X) AppleWebKit/605.1.15 (KHTML, like Gecko) Version/14.0 Mobile/15E148 Safari/604.1");
    ("iPad",
     "Mozilla/5.0 (iPad; CPU OS 14_2 like Mac OS X) AppleWebKit/605.1.15 (KHTML, like Gecko) Version/14.0 Mobile/15E148 Safari/604.1");
    ("Linux i686",
     "Mozilla/5.0 (X11; Linux i686; rv:52.0) Gecko/20100101 Firefox/52.0");
    ("Linux x86_64",
     "Mozilla/5.0 (X11; Linux x86_64) AppleWebKit/537.36 (KHTML, like Gecko) Chrome/89.0.4389.82 Safari/537.36");
    ("FreeBSD i386",
     "Mozilla/5.0 (FreeBSD; U; FreeBSD i386; en-US) AppleWebKit/537.36 (KHTML, like Gecko) Chrome/79.0.3945.79 Safari/537.36");
    ("FreeBSD amd64",
     "Mozilla/5.0 (FreeBSD; U; FreeBSD amd64; en-US) AppleWebKit/537.36 (KHTML, like Gecko) Chrome/79.0.3945.79 Safari/537.36");
    ("OpenBSD i386",
     "Mozilla/5.0 (X11; OpenBSD i386; rv:52.0) Gecko/20100101 Firefox/52.0");
    ("OpenBSD amd64",
     "Mozilla/5.0 (X11; OpenBSD amd64; rv:52.0) Gecko/20100101 Firefox/52.0");
    ("SunOS i86pc",
     "Mozilla/5.0 (X11; SunOS i86pc) AppleWebKit/537.36 (KHTML, like Gecko) Chrome/89.0.4389.82 Safari/537.36");
    ("SunOS sun4u",
     "Mozilla/5.0 (X11; SunOS sun4u) AppleWebKit/537.36 (KHTML, like Gecko) Chrome/89.0.4389.82 Safari/537.36");
    ("Android",
     "Mozilla/5.0 (Android; Mobile; rv:58.0) Gecko/58.0 Firefox/58.0") ]%string.

(** [random.choice(all_platforms)], the random draw being the index
    [draw]. *)
Definition _get_random_platform (draw : nat) : Platform :=
  nth (Nat.modulo draw (List.length all_platforms)) all_platforms
      {| platform_os := []; platform_ua := [] |}.

(** The request as the middleware leaves it: with a drawn user agent in
    its headers and the matching OS in its meta when [fake_platform] is a
    key of the meta, untouched otherwise. *)
Definition process_request (draw : nat) (request : Request) : Request :=
  match meta_fake_platform (req_meta request) with
  | Some _ =>
      let fake_platform := _get_random_platform draw in
      let fake_os := platform_os fake_platform in
      let fake_ua := platform_ua fake_platform in
      let m := req_meta request in
      {| req_url := req_url request;
         req_method := req_method request;
         req_headers := {| user_agent := Some fake_ua |};
         req_cookies := req_cookies request;
         req_body := req_body request;
         req_callback := req_callback request;
         req_errback := req_errback request;
         req_dont_filter := req_dont_filter request;
         req_meta := {| meta_fake_platform := meta_fake_platform m;
                        meta_group := meta_group m;
                        meta_os := Some fake_os;
                        meta_carnivore_value := meta_carnivore_value m;
                        meta_rats_hash := meta_rats_hash m |} |}
  | None => request
  end.

(** * [spider.py]: [VoteForPandas] *)

Definition form_page_url : pystr :=
  py "https://panda.belvo.io/?trial_key=A3F3D333452DF83D32A387F3FC3-GUBA".

Definition voting_url : pystr :=
  py "https://panda.belvo.io/ursidaecarinove_eating_bambu_must_die".

(** [self.groups], as [__init__] builds it from the [final_decision]
    argument of the spider. *)
Definition groups (final_decision : pystr) : list Group :=
  [ {| name := py "bearfoot_bearitone"; vote := py "0" |};
    {| name := py "bearium_bearon"; vote := py "0" |};
    {| name := py "stupandas_bamboozle"; vote := py "1" |};
    {| name := py "bearing_embearass_goosebeary"; vote := py "1" |};
    {| name := py "beary_pawsitively_forbearance"; vote := final_decision |} ].

Definition no_meta : Meta :=
  {| meta_fake_platform := None; meta_group := None; meta_os := None;
     meta_carnivore_value := None; meta_rats_hash := None |}.

Definition send_group_to_vote (group : Group) : Request :=
  {| req_url := form_page_url;
     req_method := py "GET";
     req_headers := {| user_agent := None |};
     req_cookies := [];
     req_body := NoBody;
     req_callback := cb_parse;
     req_errback := None;
     req_dont_filter := true;
     req_meta := {| meta_fake_platform := Some true;
                    meta_group := Some group;
                    meta_os := None;
                    meta_carnivore_value := None;
                    meta_rats_hash := None |} |}.

Definition start_requests (final_decision : pystr) : list Request :=
  map send_group_to_vote (groups final_decision).

Definition parse (response : Response) : result (list Request) :=
  _ <- getitem "group" (meta_group (resp_meta response)) ;;
  '(key, value) <- get_session_cookies (resp_set_cookie response) ;;
  carnivore_value <- get_carnivore_value response ;;
  hastorni_js_file_url <- resp_urljoin response (py "/hastorni.js") ;;
  group <- getitem "group" (meta_group (resp_meta response)) ;;
  os <- getitem "os" (meta_os (resp_meta response)) ;;
  let meta := {| meta_fake_platform := None;
                 meta_group := Some group;
                 meta_os := Some os;
                 meta_carnivore_value := Some carnivore_value;
                 meta_rats_hash := None |} in
  Ok [ {| req_url := hastorni_js_file_url;
          req_method := py "GET";
          req_headers := req_headers (resp_request response);
          req_cookies := [(key, value)];
          req_body := NoBody;
          req_callback := cb_parse_hastorni_js_file;
          req_errback := None;
          req_dont_filter := true;
          req_meta := meta |} ].

Definition parse_hastorni_js_file (response : Response)
  : result (list Request) :=
  _ <- getitem "group" (meta_group (resp_meta response)) ;;
  ursidae_name <- get_ursidae_name rt (resp_text response) ;;
  daxiongmao_file_url <- get_daxiongmao_file_url response ursidae_name ;;
  rats_hash <- get_rats_hash response ;;
  group <- getitem "group" (meta_group (resp_meta response)) ;;
  let meta := {| meta_fake_platform := None;
                 meta_group := Some group;
                 meta_os := None;
                 meta_carnivore_value := None;
                 meta_rats_hash := Some rats_hash |} in
  Ok [ {| req_url := daxiongmao_file_url;
          req_method := py "GET";
          req_headers := req_headers (resp_request response);
          req_cookies := req_cookies (resp_request response);
          req_body := NoBody;
          req_callback := cb_parse_daxiongmao_js_file;
          req_errback := None;
          req_dont_filter := false;
          req_meta := meta |} ].

Definition parse_daxiongmao_js_file (response : Response)
  : result (list Request) :=
  _ <- getitem "group" (meta_group (resp_meta response)) ;;
  rogue_racoons <- get_rogue_racoons_hash (resp_text response) ;;
  '(key, value) <- get_session_cookies (resp_set_cookie response) ;;
  group <- getitem "group" (meta_group (resp_meta response)) ;;
  let group_name := name group in
  let group_vote := vote group in
  rats_hash <- getitem "rats_hash" (meta_rats_hash (resp_meta response)) ;;
  let form_data := [ (py "rogue_racoons", rogue_racoons);
                     (py "username", group_name);
                     (py "survive", group_vote);
                     (py "rats", rats_hash) ] in
  let meta := {| meta_fake_platform := None;
                 meta_group := Some group;
                 meta_os := None;
                 meta_carnivore_value := None;
                 meta_rats_hash := None |} in
  Ok [ {| req_url := voting_url;
          req_method := py "POST";
          req_headers := req_headers (resp_request response);
          req_cookies := [(key, value)];
          req_body := FormEncoded form_data;
          req_callback := cb_parse_voting_result;
          req_errback := Some eb_handle_vote_failure;
          req_dont_filter := false;
          req_meta := meta |} ].

(** What [parse_voting_result] does besides returning: the call
    [write_output_to_file(json.dumps(election_result))], recorded with the
    document it serialises. *)
Inductive effect :=
| write_output_to_file (election_result : json).

Definition parse_voting_result (response : Response) : result (list effect) :=
  let has_vote_suceeded_msg := contains (py "Thank you bea") (resp_text response) in
  let has_election_result_msg := contains (py "pandas_future") (resp_text response) in
  let has_valid_response := has_vote_suceeded_msg || has_election_result_msg in
  if negb has_valid_response then
    Raise (UnexpectedResponse (resp_text response))
  else if has_election_result_msg then
    match json_loads rt (resp_text response) with
    | Ok election_result => Ok [write_output_to_file election_result]
    | Raise JSONDecodeError => Raise ResultParseError
    | Raise e => Raise e
    end
  else Ok [].

(** The classification of a submission response in the vocabulary of the
    specification. *)
Inductive VoteResult :=
| Accepted
| ElectionClosed (payload : json).

Definition outcome_of (v : VoteResult) : result (list effect) :=
  match v with
  | Accepted => Ok []
  | ElectionClosed payload => Ok [write_output_to_file payload]
  end.

(** [failure.request] is the request whose download failed. *)
Definition handle_vote_failure (failure_request : Request)
  : result (list Request) :=
  group <- getitem "group" (meta_group (req_meta failure_request)) ;;
  Ok [send_group_to_vote group].

(** ** The crawl engine, as far as the spider sees it *)

(** What comes back for a request: a response, or a failure of the
    download. *)
Record Reply := {
  reply_url : pystr;
  reply_set_cookie : option bytes;
  reply_text : pystr;
  reply_document : list Element }.

Inductive outcome :=
| Received (reply : Reply)
| TransportFailure.

Definition respond (request : Request) (reply : Reply) : Response :=
  {| resp_url := reply_url reply;
     resp_request := request;
     resp_set_cookie := reply_set_cookie reply;
     resp_text := reply_text reply;
     resp_document := reply_document reply |}.

(** The callback of the request, run on its response. *)
Definition run_callback (response : Response)
  : result (list Request * list effect) :=
  match req_callback (resp_request response) with
  | cb_parse => rs <- parse response ;; Ok (rs, [])
  | cb_parse_hastorni_js_file =>
      rs <- parse_hastorni_js_file response ;; Ok (rs, [])
  | cb_parse_daxiongmao_js_file =>
      rs <- parse_daxiongmao_js_file response ;; Ok (rs, [])
  | cb_parse_voting_result =>
      es <- parse_voting_result response ;; Ok ([], es)
  end.

(** The requests the spider schedules when the outcome of [request] is
    known.  An exception in a callback is logged by the engine and yields
    nothing; a failed download goes to the errback of the request, and is
    dropped when it has none. *)
Definition react (request : Request) (o : outcome) : list Request :=
  match o with
  | Received reply =>
      match run_callback (respond request reply) with
      | Ok (rs, _) => rs
      | Raise _ => []
      end
  | TransportFailure =>
      match req_errback request with
      | Some eb_handle_vote_failure =>
          match handle_vote_failure request with
          | Ok rs => rs
          | Raise _ => []
          end
      | None => []
      end
  end.

(** The requests the engine sends in the transaction of [group]: the start
    request, and every request the spider schedules in reaction to the
    outcome of one already sent, each passed through the middleware. *)
Inductive sent (group : Group) : Request -> Prop :=
| sent_start draw :
    sent group (process_request draw (send_group_to_vote group))
| sent_next request o request' draw :
    sent group request ->
    In request' (react request o) ->
    sent group (process_request draw request').

(** The four stages, told apart by the callback of the request. *)
Inductive Stage := FormPage | Script | Payload | Submission.

Definition stage_of (request : Request) : Stage :=
  match req_callback request with
  | cb_parse => FormPage
  | cb_parse_hastorni_js_file => Script
  | cb_parse_daxiongmao_js_file => Payload
  | cb_parse_voting_result => Submission
  end.

(** * Vocabulary of the statements *)

Definition is_byte (b : Z) : Prop := 0 <= b < 256.

(** [parse] never runs out of fuel on a text whose length, twice, plus
    [slack] is within the fuel, and what it scans is not empty. *)
Definition fuel_ok {A} (parse : nat -> pystr -> scan A) (slack fuel : nat)
  : Prop :=
  forall s,
    (2 * List.length s + slack <= fuel)%nat ->
    parse fuel s <> Exhausted
    /\ forall a rest, parse fuel s = Scanned a rest ->
                      (List.length rest < List.length s)%nat.

Definition is_digit_char (c : char) : Prop := 48 <= c <= 57.

(** The exceptions of [json.loads]: the text is not a JSON document, it is
    nested deeper than the interpreter allows, or one of its integers has
    more digits than the interpreter converts. *)
Definition loads_error (rt : Runtime) (e : exn) : Prop :=
  e = JSONDecodeError \/ e = RecursionError
  \/ exists digits,
       exceeds_digit_limit rt digits = true /\ e = DigitLimitError rt digits.

(** The code points of a Python [str]. *)
Definition is_code_point (c : Z) : Prop := 0 <= c < 1114112.

(** No character that could continue a number comes first in [rest]. *)
Definition stops_number (rest : pystr) : bool :=
  match rest with
  | [] => true
  | c :: _ => negb (is_digit c) && negb (c =? 46) && negb (c =? 101)
              && negb (c =? 69)
  end.

(** The first character of a numeral: a digit or the minus sign. *)
Definition starts_number (s : pystr) : Prop :=
  exists c tl, s = c :: tl /\ (c = 45 \/ is_digit_char c).

(** [s.find(sub)]: the index of the first occurrence of [sub] in [s]. *)
Fixpoint find_first (sub s : pystr) : option nat :=
  if startswith sub s then Some O
  else match s with
       | [] => None
       | _ :: tl => option_map S (find_first sub tl)
       end.

(** The list literal [[c1,c2,...]] of a list of integers. *)
Definition render_codes (codes : list Z) : pystr :=
  [91] ++ join [44] (map str_int codes) ++ [93].

(** A script in which the assignment [ursidae = [c1,c2,...];] follows
    [before] and is followed by [after]. *)
Definition script_with_codes (before : pystr) (codes : list Z) (after : pystr)
  : pystr :=
  before ++ py "ursidae = " ++ render_codes codes ++ [59] ++ after.

Definition is_ascii (c : char) : Prop := 0 <= c < 128.

(** The fields of the submission form. *)
Definition form_fields (payload_token group_name group_vote group_hash : pystr)
  : list (pystr * pystr) :=
  [ (py "rogue_racoons", payload_token);
    (py "username", group_name);
    (py "survive", group_vote);
    (py "rats", group_hash) ].

(** What holds of every request sent in the transaction of [group]. *)
Definition request_ok (group : Group) (q : Request) : Prop :=
  meta_group (req_meta q) = Some group
  /\ match stage_of q with
     | FormPage =>
         req_errback q = None
         /\ exists draw, q = process_request draw (send_group_to_vote group)
     | Script =>
         req_errback q = None /\ meta_fake_platform (req_meta q) = None
     | Payload =>
         req_errback q = None /\ meta_fake_platform (req_meta q) = None
     | Submission =>
         req_errback q = Some eb_handle_vote_failure
         /\ meta_fake_platform (req_meta q) = None
         /\ req_method q = py "POST"
         /\ exists t h,
              req_body q = FormEncoded (form_fields t (name group) (vote group) h)
     end.

(** An attempt at the transaction of [group]: the exchanges made since the
    transaction was last started, oldest first, each the request sent and
    the reply received for it, and the request now sent.  A reply makes the
    attempt one exchange longer; a failed download that the errback answers
    starts a new attempt. *)
Inductive attempt (group : Group) : list (Request * Reply) -> Request -> Prop :=
| attempt_start draw :
    attempt group [] (process_request draw (send_group_to_vote group))
| attempt_reply history request reply request' draw :
    attempt group history request ->
    In request' (react request (Received reply)) ->
    attempt group (history ++ [(request, reply)])
            (process_request draw request')
| attempt_retry history request request' draw :
    attempt group history request ->
    In request' (react request TransportFailure) ->
    attempt group [] (process_request draw request').

(** The exchanges of an attempt and the request they led to, as the
    callbacks link them: the start request, then each request the one that
    the callback of the stage before yields on the reply received. *)
Definition chain (group : Group) (history : list (Request * Reply))
           (q : Request) : Prop :=
  let started q1 :=
    exists draw, q1 = process_request draw (send_group_to_vote group) in
  match history with
  | [] => started q
  | [(q1, r1)] =>
      started q1 /\ parse (respond q1 r1) = Ok [q]
  | [(q1, r1); (q2, r2)] =>
      started q1 /\ parse (respond q1 r1) = Ok [q2]
      /\ parse_hastorni_js_file (respond q2 r2) = Ok [q]
  | [(q1, r1); (q2, r2); (q3, r3)] =>
      started q1 /\ parse (respond q1 r1) = Ok [q2]
      /\ parse_hastorni_js_file (respond q2 r2) = Ok [q3]
      /\ parse_daxiongmao_js_file (respond q3 r3) = Ok [q]
  | _ => False
  end.

(** One exchange of the transaction: the request the spider schedules on
    the outcome of [q], as the middleware leaves it. *)
Definition next_request (draw : nat) (q : Request) (o : outcome)
  : option Request :=
  match react q o with
  | [q'] => Some (process_request draw q')
  | _ => None
  end.

(** ** A sample transaction *)

Definition sample_form_page : Reply :=
  {| reply_url := form_page_url;
     reply_set_cookie := Some (py "session=S1; Path=/; HttpOnly");
     reply_text := [];
     reply_document :=
       [ Elem (py "html") []
           [ Elem (py "form") [(py "id", py "carnivoreatingbambu")]
               [ Elem (py "input") [(py "type", py "hidden");
                                    (py "value", py "T1")] [] ] ] ] |}.

(** A script with the given identity codes and letter map. *)
Definition script_reply (codes letters_map : string) : Reply :=
  {| reply_url := py "https://panda.belvo.io/hastorni.js";
     reply_set_cookie := None;
     reply_text :=
       py "var ursidae = " ++ py codes ++ py ";" ++ [10]
       ++ py "var kretzoi = " ++ quoted letters_map ++ py ";";
     reply_document := [] |}.

Definition sample_script : Reply :=
  script_reply
    "[124,124,98,101,97,114,124,124]"
    "{'_':10,'a':11,'b':12,'c':13,'e':14,'f':15,'i':16,'l':17,'n':18,'o':19,'p':20,'r':21,'s':22,'t':23,'v':24,'w':25,'y':26}".

(** The script of the scenario of the specification. *)
Definition bear_script : Reply :=
  script_reply "[98,101,97,114]" "{'b':1,'e':2,'a':3,'r':4}".

Definition sample_payload : Reply :=
  {| reply_url := py "https://panda.belvo.io/daxiongmao.js";
     reply_set_cookie := Some (py "session=S2; Path=/");
     reply_text := quoted "<input name='rogue_racoons' value='H1'>";
     reply_document := [] |}.

Definition option_bind {A B} (o : option A) (k : A -> option B) : option B :=
  match o with
  | Some a => k a
  | None => None
  end.

(** The submission the sample replies lead to, for a given script. *)
Definition sample_submission (script : Reply) (group : Group)
  : option Request :=
  let q1 := process_request 0 (send_group_to_vote group) in
  option_bind (next_request 0 q1 (Received sample_form_page)) (fun q2 =>
  option_bind (next_request 0 q2 (Received script)) (fun q3 =>
  next_request 0 q3 (Received sample_payload))).

(** The submission request with the given form fields, as the sample
    replies shape it. *)
Definition submission_request (group : Group) (fields : list (pystr * pystr))
  : Request :=
  {| req_url := voting_url;
     req_method := py "POST";
     req_headers :=
       {| user_agent :=
            Some (py "Mozilla/5.0 (Windows NT 5.1 rv: 52.0) Gecko/20100101 Firefox/52.0") |};
     req_cookies := [(py "session", py "S2")];
     req_body := FormEncoded fields;
     req_callback := cb_parse_voting_result;
     req_errback := Some eb_handle_vote_failure;
     req_dont_filter := false;
     req_meta := {| meta_fake_platform := None;
                    meta_group := Some group;
                    meta_os := None;
                    meta_carnivore_value := None;
                    meta_rats_hash := None |} |}.

(** A stage-2 response for a group named [AB], [ABC], ... with the letter
    map that gives 5 to [A] and 7 to [B]. *)
Definition ab_response (group_name : string) : Response :=
  respond (send_group_to_vote {| name := py group_name; vote := py "1" |})
          (script_reply "[98]" "{'A':5,'B':7}").

(** A stage-2 response for the identity hash: user agent, operating system
    and form token in place. *)
Definition identity_response_with (token : pystr) : Response :=
  {| resp_url := py "https://panda.belvo.io/hastorni.js";
     resp_request :=
       {| req_url := py "https://panda.belvo.io/hastorni.js";
          req_method := py "GET";
          req_headers :=
            {| user_agent :=
                 Some (py "Mozilla/5.0 (Windows NT 5.1 rv: 52.0) Gecko/20100101 Firefox/52.0") |};
          req_cookies := [(py "session", py "S1")];
          req_body := NoBody;
          req_callback := cb_parse_hastorni_js_file;
          req_errback := None;
          req_dont_filter := true;
          req_meta := {| meta_fake_platform := None;
                         meta_group := Some {| name := py "bear"; vote := py "1" |};
                         meta_os := Some (py "Win32");
                         meta_carnivore_value := Some token;
                         meta_rats_hash := None |} |};
     resp_set_cookie := None;
     resp_text := [];
     resp_document := [] |}.

Definition identity_response : Response := identity_response_with (py "T1").

(** A submission response with the results marker and an integer of 4301
    digits. *)
Definition long_integer_body : pystr :=
  py "{" ++ [34] ++ py "pandas_future" ++ [34] ++ py ": 1"
  ++ repeat 48 4300 ++ py "}".

(** The fifth group of the spider. *)
Definition fifth_group (final_decision : pystr) : Group :=
  {| name := py "beary_pawsitively_forbearance"; vote := final_decision |}.

(** ** Vocabulary of the further properties *)

(** The marker before the payload token: [oons" value="]. *)
Definition payload_marker : pystr :=
  py "oons" ++ [34] ++ py " value=" ++ [34].

(** The not-found errors of the three pattern extractors. *)
Definition UrsidaeNotFound : exn :=
  ValueError (py "Char codes for Ursidae name not found in response text.")
             None.
Definition MapNotFound : exn :=
  ValueError (py "Map not found in the response.") None.
Definition HashNotFound : exn :=
  ValueError (py "Rogue raccoons hash not found in response.") None.

(** The code point [chr] gives for a value, when it gives one. *)
Definition code_of (v : json) : option Z :=
  match v with
  | JInt z => if (0 <=? z) && (z <? 1114112) then Some z else None
  | JBool b => Some (if b then 1 else 0)
  | _ => None
  end.

(** A path that [urljoin] keeps as it is: one leading [/], no [?], [#]
    or [;], none of the characters that [urlsplit] may remove, no [.] or
    [..] segment. *)
Definition plain_path (path : pystr) : bool :=
  forallb (fun c => negb ((c =? 35) || (c =? 63) || (c =? 59)
                          || is_removed_char c)) path
  && startswith [47] path && negb (startswith [47; 47] path)
  && negb (existsb (fun segment => str_eqb segment (py ".")
                                   || str_eqb segment (py ".."))
                   (split 47 path)).


(** The characters of base64 text. *)
Definition b64_symbol (c : char) : Prop := In c b64_alphabet \/ c = b64_pad.

(** The stage a response leads to. *)
Definition next_stage (s : Stage) : option Stage :=
  match s with
  | FormPage => Some Script
  | Script => Some Payload
  | Payload => Some Submission
  | Submission => None
  end.

(** The user agent of the request is that of an entry of the table, and
    while the request carries an operating system (form page and script
    stages) it is that of the same entry. *)
Definition platform_ok (q : Request) : Prop :=
  exists platform,
    In platform all_platforms
    /\ user_agent (req_headers q) = Some (platform_ua platform)
    /\ (stage_of q = FormPage \/ stage_of q = Script ->
        meta_os (req_meta q) = Some (platform_os platform)).

(** The three requests after the start request of the sample
    transaction, for a given script, when the replies lead that far. *)
Definition sample_requests (script : Reply) (group : Group)
  : option (Request * Request * Request) :=
  let q1 := process_request 0 (send_group_to_vote group) in
  option_bind (next_request 0 q1 (Received sample_form_page)) (fun q2 =>
  option_bind (next_request 0 q2 (Received script)) (fun q3 =>
  option_bind (next_request 0 q3 (Received sample_payload)) (fun q4 =>
  Some (q2, q3, q4)))).

(** The payload request the sample replies lead to, for a given script. *)
Definition sample_payload_request (script : Reply) (group : Group)
  : option Request :=
  let q1 := process_request 0 (send_group_to_vote group) in
  option_bind (next_request 0 q1 (Received sample_form_page)) (fun q2 =>
  next_request 0 q2 (Received script)).

(** The runtime finds no [<base>] element in the body of [reply]: the base
    URL of the document is the URL of the response. *)
Definition no_base_element (reply : Reply) : Prop :=
  html_base_url rt (firstn 4096 (reply_text reply)) (reply_url reply)
  = Ok (reply_url reply).

End Pipeline.

(** * Properties *)

(** ** Base64 *)

Lemma list_ind3 {A} (P : list A -> Prop) :
  P [] -> (forall a, P [a]) -> (forall a b, P [a; b]) ->
  (forall a b c l, P l -> P (a :: b :: c :: l)) ->
  forall l, P l.
Proof.
  intros H0 H1 H2 H3 l.
  assert (P l /\ (forall a, P (a :: l)) /\ (forall a b, P (a :: b :: l)))
    as [H _]; [|exact H].
  induction l as [|x l [IH0 [IH1 IH2]]]; auto.
Qed.

Lemma b64_char_decodes_nat (n : nat) :
  (n < 64)%nat ->
  b64_value (b64_char (Z.of_nat n)) = Some (Z.of_nat n)
  /\ (b64_char (Z.of_nat n) =? b64_pad) = false.
Proof.
  do 64 (destruct n as [|n]; [intros _; vm_compute; split; reflexivity|]).
  lia.
Qed.

Lemma b64_char_decodes (v : Z) :
  0 <= v < 64 ->
  b64_value (b64_char v) = Some v /\ (b64_char v =? b64_pad) = false.
Proof.
  intros H. rewrite <- (Z2Nat.id v) by lia.
  apply b64_char_decodes_nat. lia.
Qed.

Lemma sextet_range (x : Z) : 0 <= Z.land x 63 < 64.
Proof.
  change 63 with (Z.ones 6). rewrite Z.land_ones by lia.
  apply Z.mod_pos_bound. lia.
Qed.

Ltac bits_to_arith :=
  change 63 with (Z.ones 6); change 255 with (Z.ones 8);
  rewrite ?Z.land_ones by lia;
  rewrite ?Z.shiftl_mul_pow2, ?Z.shiftr_div_pow2 by lia;
  change (2 ^ 6) with 64; change (2 ^ 8) with 256;
  change (2 ^ 12) with 4096; change (2 ^ 16) with 65536;
  change (2 ^ 18) with 262144.

Ltac b64_chars :=
  repeat match goal with
    | |- context [b64_value (b64_char (Z.land ?x 63))] =>
        rewrite (proj1 (b64_char_decodes _ (sextet_range x)))
    | |- context [b64_char (Z.land ?x 63) =? b64_pad] =>
        rewrite (proj2 (b64_char_decodes _ (sextet_range x)))
    end.

Lemma b64_group1 (a : Z) :
  is_byte a ->
  let n := Z.shiftl a 16 in
  Z.land (Z.shiftr (Z.shiftl (Z.land (Z.shiftr n 18) 63) 18
                    + Z.shiftl (Z.land (Z.shiftr n 12) 63) 12) 16) 255 = a.
Proof.
  intros H n. subst n. unfold is_byte in *. bits_to_arith.
  Z.div_mod_to_equations. lia.
Qed.

Lemma b64_group2 (a b : Z) :
  is_byte a -> is_byte b ->
  let n := Z.shiftl a 16 + Z.shiftl b 8 in
  let m := Z.shiftl (Z.land (Z.shiftr n 18) 63) 18
           + Z.shiftl (Z.land (Z.shiftr n 12) 63) 12
           + Z.shiftl (Z.land (Z.shiftr n 6) 63) 6 in
  Z.land (Z.shiftr m 16) 255 = a /\ Z.land (Z.shiftr m 8) 255 = b.
Proof.
  intros Ha Hb n m. subst n m. unfold is_byte in *. bits_to_arith.
  split; Z.div_mod_to_equations; lia.
Qed.

Lemma b64_group3 (a b c : Z) :
  is_byte a -> is_byte b -> is_byte c ->
  let n := Z.shiftl a 16 + Z.shiftl b 8 + c in
  let m := Z.shiftl (Z.land (Z.shiftr n 18) 63) 18
           + Z.shiftl (Z.land (Z.shiftr n 12) 63) 12
           + Z.shiftl (Z.land (Z.shiftr n 6) 63) 6
           + Z.land n 63 in
  Z.land (Z.shiftr m 16) 255 = a /\ Z.land (Z.shiftr m 8) 255 = b
  /\ Z.land m 255 = c.
Proof.
  intros Ha Hb Hc n m. subst n m. unfold is_byte in *. bits_to_arith.
  repeat split; Z.div_mod_to_equations; lia.
Qed.

Lemma b64decode_cons4 (c1 c2 c3 c4 : char) (rest : pystr) :
  rest <> [] ->
  b64decode (c1 :: c2 :: c3 :: c4 :: rest) =
  match b64_value c1, b64_value c2, b64_value c3, b64_value c4,
        b64decode rest with
  | Some v1, Some v2, Some v3, Some v4, Some tl =>
      let n := Z.shiftl v1 18 + Z.shiftl v2 12 + Z.shiftl v3 6 + v4 in
      Some (Z.land (Z.shiftr n 16) 255
            :: Z.land (Z.shiftr n 8) 255
            :: Z.land n 255 :: tl)
  | _, _, _, _, _ => None
  end.
Proof. destruct rest; [congruence | reflexivity]. Qed.

(** Decoding undoes encoding, on any sequence of bytes. *)
Lemma b64decode_b64encode (data : bytes) :
  Forall is_byte data -> b64decode (b64encode data) = Some data.
Proof.
  induction data as [|a|a b|a b c tl IH] using list_ind3; intros Hall.
  - reflexivity.
  - inversion_clear Hall as [|? ? Ha _].
    cbn [b64encode b64decode]. b64_chars.
    rewrite Z.eqb_refl. cbn [andb].
    now rewrite (b64_group1 a Ha).
  - inversion_clear Hall as [|? ? Ha Hall']. inversion_clear Hall' as [|? ? Hb _].
    cbn [b64encode b64decode]. b64_chars. cbn [andb]. b64_chars.
    rewrite Z.eqb_refl.
    destruct (b64_group2 a b Ha Hb) as [E1 E2]. cbv zeta in E1, E2.
    now rewrite E1, E2.
  - inversion_clear Hall as [|? ? Ha Hall']. inversion_clear Hall' as [|? ? Hb Hall''].
    inversion_clear Hall'' as [|? ? Hc Htl].
    specialize (IH Htl).
    destruct (b64_group3 a b c Ha Hb Hc) as [E1 [E2 E3]]. cbv zeta in E1, E2, E3.
    cbn [b64encode]. cbv zeta.
    destruct tl as [|t tl'].
    + cbn [b64encode b64decode]. b64_chars. cbn [andb]. b64_chars.
      now rewrite E1, E2, E3.
    + remember (b64encode (t :: tl')) as rest eqn:Hrest.
      assert (Hne : rest <> []).
      { subst rest. destruct tl' as [|? [|? ?]]; discriminate. }
      rewrite b64decode_cons4 by exact Hne. b64_chars. rewrite IH.
      cbv zeta. now rewrite E1, E2, E3.
Qed.

(** ** Decimal numerals *)

Lemma digits_value_snoc (ds : pystr) (d : char) :
  digits_value (ds ++ [d]) = 10 * digits_value ds + (d - 48).
Proof. unfold digits_value. now rewrite fold_left_app. Qed.

Lemma digits_from_spec (fuel : nat) :
  forall n acc,
    0 <= n < 2 ^ Z.of_nat fuel -> (0 < fuel)%nat ->
    exists ds,
      digits_from fuel n acc = ds ++ acc
      /\ Forall is_digit_char ds
      /\ digits_value ds = n
      /\ (exists d tl, ds = d :: tl /\ (d = 48 -> n = 0 /\ tl = [])).
Proof.
  induction fuel as [|fuel IH]; intros n acc Hn Hpos; [lia|].
  cbn [digits_from]. destruct (n <? 10) eqn:Hlt.
  - apply Z.ltb_lt in Hlt. exists [digit_char n]. unfold digit_char, is_digit_char.
    split; [reflexivity|]. split; [|split].
    + constructor; [lia | constructor].
    + unfold digits_value. cbn [fold_left]. lia.
    + exists (48 + n), []. split; [reflexivity|]. intros. split; [lia | reflexivity].
  - apply Z.ltb_ge in Hlt.
    assert (Hpow : 2 ^ Z.of_nat (S fuel) = 2 * 2 ^ Z.of_nat fuel).
    { rewrite Nat2Z.inj_succ, Z.pow_succ_r by lia. reflexivity. }
    assert (Hq : 1 <= n / 10 < 2 ^ Z.of_nat fuel).
    { split; Z.div_mod_to_equations; lia. }
    assert (Hf : (0 < fuel)%nat).
    { destruct fuel; [cbn in Hq; lia | lia]. }
    destruct (IH (n / 10) (digit_char (n mod 10) :: acc)) as (ds & E & Hall & Hval & d & tl & Hd & Hz);
      [lia | exact Hf |].
    exists (ds ++ [digit_char (n mod 10)]). split; [|split; [|split]].
    + rewrite E. now rewrite <- app_assoc.
    + apply Forall_app. split; [exact Hall|].
      constructor; [|constructor]. unfold is_digit_char, digit_char.
      Z.div_mod_to_equations; lia.
    + rewrite digits_value_snoc, Hval. unfold digit_char.
      Z.div_mod_to_equations; lia.
    + subst ds. exists d, (tl ++ [digit_char (n mod 10)]). split; [reflexivity|].
      intros Hd0. destruct (Hz Hd0) as [Hzero _]. lia.
Qed.

Lemma str_nat_spec (n : Z) :
  0 <= n ->
  Forall is_digit_char (str_nat n)
  /\ digits_value (str_nat n) = n
  /\ exists d tl, str_nat n = d :: tl /\ (d = 48 -> n = 0 /\ tl = []).
Proof.
  intros Hn. unfold str_nat.
  destruct (digits_from_spec (S (Z.to_nat (Z.log2 n))) n []) as (ds & E & H).
  - split; [lia|]. rewrite Nat2Z.inj_succ, Z2Nat.id by apply Z.log2_nonneg.
    destruct (Z.eq_dec n 0) as [->|Hnz]; [cbn; lia|].
    apply Z.log2_spec. lia.
  - lia.
  - rewrite E, app_nil_r. exact H.
Qed.

(** ** Scanning the numerals that [str_int] writes *)

Lemma is_digit_true (c : char) : is_digit_char c -> is_digit c = true.
Proof. unfold is_digit_char, is_digit. lia. Qed.

Lemma digit_cases (d : char) :
  is_digit_char d ->
  d = 48 \/ d = 49 \/ d = 50 \/ d = 51 \/ d = 52 \/ d = 53 \/ d = 54
  \/ d = 55 \/ d = 56 \/ d = 57.
Proof. unfold is_digit_char. lia. Qed.

Lemma span_digits_app (ds rest : pystr) :
  Forall is_digit_char ds -> stops_number rest = true ->
  span_digits (ds ++ rest) = (ds, rest).
Proof.
  intros Hall Hstop. induction Hall as [|d ds Hd _ IH].
  - destruct rest as [|c rest]; [reflexivity|].
    cbn in Hstop |- *. destruct (is_digit c); [discriminate | reflexivity].
  - cbn [app span_digits]. now rewrite (is_digit_true d Hd), IH.
Qed.

Lemma scan_frac_stop (rest : pystr) :
  stops_number rest = true -> scan_frac rest = ([], rest).
Proof.
  destruct rest as [|c rest]; [reflexivity|]. cbn [stops_number scan_frac].
  intros H. destruct (c =? 46); [|reflexivity].
  rewrite andb_false_r in H. cbn in H. discriminate.
Qed.

Lemma scan_exp_stop (rest : pystr) :
  stops_number rest = true -> scan_exp rest = ([], rest).
Proof.
  destruct rest as [|c rest]; [reflexivity|]. cbn [stops_number scan_exp].
  intros H. destruct (c =? 101), (c =? 69); try reflexivity;
    rewrite ?andb_false_r in H; cbn in H; try discriminate;
    rewrite ?andb_false_r in H; discriminate.
Qed.

Lemma scan_int_part_digits (d : char) (tl rest : pystr) :
  is_digit_char d -> Forall is_digit_char tl -> (d = 48 -> tl = []) ->
  stops_number rest = true ->
  scan_int_part (d :: tl ++ rest) = Some (d :: tl, rest).
Proof.
  intros Hd Htl Hzero Hstop.
  unfold scan_int_part. destruct (Z.eqb_spec d 48) as [->|Hnz].
  - now rewrite (Hzero eq_refl).
  - now rewrite (is_digit_true d Hd), (span_digits_app tl rest Htl Hstop).
Qed.

Lemma scan_number_digits (d : char) (tl rest : pystr) :
  is_digit_char d -> Forall is_digit_char tl -> (d = 48 -> tl = []) ->
  stops_number rest = true ->
  let v := digits_value (d :: tl) in
  (scan_number (d :: tl ++ rest) = Some (JInt v, rest))
  /\ (scan_number (45 :: d :: tl ++ rest) = Some (JInt (- v), rest)).
Proof.
  intros Hd Htl Hzero Hstop v.
  pose proof (scan_int_part_digits d tl rest Hd Htl Hzero Hstop) as Hint.
  assert (Hd45 : (d =? 45) = false) by (unfold is_digit_char in Hd; lia).
  split; unfold scan_number, scan_unsigned; rewrite ?Hd45, ?Z.eqb_refl;
    rewrite Hint, (scan_frac_stop rest Hstop), (scan_exp_stop rest Hstop);
    reflexivity.
Qed.

Lemma scan_number_str_int (z : Z) (rest : pystr) :
  stops_number rest = true ->
  scan_number (str_int z ++ rest) = Some (JInt z, rest).
Proof.
  intros Hstop. unfold str_int. destruct (z <? 0) eqn:Hneg.
  - apply Z.ltb_lt in Hneg.
    destruct (str_nat_spec (- z)) as (Hall & Hval & d & tl & E & Hz); [lia|].
    rewrite E in Hall, Hval |- *. inversion_clear Hall as [|? ? Hd Htl].
    cbn [app].
    assert (Hz' : d = 48 -> tl = []) by (intros H0; now destruct (Hz H0)).
    destruct (scan_number_digits d tl rest Hd Htl Hz' Hstop) as [_ H].
    cbv zeta in H. rewrite Hval, Z.opp_involutive in H. exact H.
  - apply Z.ltb_ge in Hneg.
    destruct (str_nat_spec z) as (Hall & Hval & d & tl & E & Hz); [lia|].
    rewrite E in Hall, Hval |- *. inversion_clear Hall as [|? ? Hd Htl].
    cbn [app].
    assert (Hz' : d = 48 -> tl = []) by (intros H0; now destruct (Hz H0)).
    destruct (scan_number_digits d tl rest Hd Htl Hz' Hstop) as [H _].
    cbv zeta in H. rewrite Hval in H. exact H.
Qed.

Lemma str_int_starts (z : Z) (rest : pystr) : starts_number (str_int z ++ rest).
Proof.
  unfold str_int. destruct (z <? 0) eqn:Hneg.
  - exists 45, (str_nat (- z) ++ rest). split; [reflexivity | now left].
  - apply Z.ltb_ge in Hneg.
    destruct (str_nat_spec z) as (Hall & _ & d & tl & E & _); [lia|].
    rewrite E in Hall |- *. inversion_clear Hall as [|? ? Hd _].
    exists d, (tl ++ rest). split; [reflexivity | now right].
Qed.

Lemma startswith_head_ne (p : char) (ptl : pystr) (c : char) (tl : pystr) :
  p <> c -> startswith (p :: ptl) (c :: tl) = false.
Proof.
  intros H. cbn [startswith]. destruct (Z.eqb_spec p c); [contradiction|].
  reflexivity.
Qed.

(** The decimal numeral of a code point has few digits. *)
Lemma digits_from_length (fuel : nat) (n : Z) (acc : pystr) :
  (List.length (digits_from fuel n acc) <= fuel + List.length acc)%nat.
Proof.
  revert n acc. induction fuel as [|fuel IH]; intros n acc; cbn [digits_from].
  - apply Nat.le_refl.
  - destruct (n <? 10); [cbn [List.length]; lia|].
    specialize (IH (n / 10) (digit_char (n mod 10) :: acc)).
    cbn [List.length] in IH. lia.
Qed.

Lemma str_nat_length (n : Z) :
  is_code_point n -> (List.length (str_nat n) <= 21)%nat.
Proof.
  intros [Hlo Hhi]. unfold str_nat.
  pose proof (digits_from_length (S (Z.to_nat (Z.log2 n))) n []) as H.
  cbn [List.length] in H.
  assert (Z.log2 n < 21).
  { destruct (Z.eq_dec n 0) as [->|Hn]; [reflexivity|].
    apply Z.log2_lt_pow2; [lia|]. change (2 ^ 21) with 2097152. lia. }
  pose proof (Z.log2_nonneg n). lia.
Qed.

Lemma int_digits_code (z : Z) (rest : pystr) :
  is_code_point z -> stops_number rest = true ->
  (int_digits (str_int z ++ rest) <= 21)%nat.
Proof.
  intros Hz Hstop. pose proof (str_nat_length z Hz) as Hlen.
  unfold str_int. replace (z <? 0) with false by (destruct Hz; lia).
  destruct (str_nat_spec z) as (Hall & _ & d & tl & E & Hzero);
    [destruct Hz; lia|].
  rewrite E in Hall, Hlen |- *. inversion_clear Hall as [|? ? Hd Htl].
  assert (Hz' : d = 48 -> tl = []) by (intros H0; now destruct (Hzero H0)).
  unfold int_digits. cbn [app].
  replace (d =? 45) with false by (unfold is_digit_char in Hd; lia).
  now rewrite (scan_int_part_digits d tl rest Hd Htl Hz' Hstop).
Qed.

Lemma short_literal_accepted (rt : Runtime) (digits : nat) :
  (digits <= 640)%nat -> exceeds_digit_limit rt digits = false.
Proof.
  intros H. unfold exceeds_digit_limit.
  replace (640 <? digits)%nat with false; [reflexivity|].
  symmetry. apply Nat.ltb_ge. exact H.
Qed.

Lemma scan_atom_code (rt : Runtime) (z : Z) (rest : pystr) :
  is_code_point z -> stops_number rest = true ->
  scan_atom rt (str_int z ++ rest) = Scanned (JInt z) rest.
Proof.
  intros Hz Hstop.
  pose proof (scan_number_str_int z rest Hstop) as Hscan.
  pose proof (int_digits_code z rest Hz Hstop) as Hdigits.
  destruct (str_int_starts z rest) as (c & tl & E & Hc).
  rewrite E in *. unfold scan_atom, is_digit_char in *.
  change (py "null") with (110 :: py "ull").
  change (py "true") with (116 :: py "rue").
  change (py "false") with (102 :: py "alse").
  rewrite !startswith_head_ne by lia. rewrite Hscan.
  rewrite short_literal_accepted; [reflexivity | lia].
Qed.

Lemma parse_value_code (rt : Runtime) (fuel depth : nat) (z : Z)
      (rest : pystr) :
  is_code_point z -> stops_number rest = true ->
  parse_value rt (S fuel) depth (str_int z ++ rest) = Scanned (JInt z) rest.
Proof.
  intros Hz Hstop. pose proof (scan_atom_code rt z rest Hz Hstop) as Hatom.
  destruct (str_int_starts z rest) as (c & tl & E & Hc).
  rewrite E in *. cbn [parse_value]. unfold is_digit_char in Hc.
  replace (c =? 34) with false by lia.
  replace (c =? 123) with false by lia.
  replace (c =? 91) with false by lia.
  exact Hatom.
Qed.

Lemma skip_ws_number (s : pystr) : starts_number s -> skip_ws s = s.
Proof.
  intros (c & tl & -> & Hc). cbn [skip_ws].
  replace (is_ws c) with false; [reflexivity|].
  unfold is_ws, is_digit_char in *. lia.
Qed.

(** ** Parsing a list literal of integers *)

Lemma parse_items_eq (rt : Runtime) (fuel depth : nat) (s : pystr) :
  parse_items rt (S fuel) depth s =
  match parse_value rt fuel depth s with
  | Scanned v rest =>
      match skip_ws rest with
      | c :: rest' =>
          if c =? 93 then Scanned [v] rest'
          else if c =? 44 then
            scan_map (cons v) (parse_items rt fuel depth (skip_ws rest'))
          else Invalid
      | [] => Invalid
      end
  | Failed e => Failed e
  | Exhausted => Exhausted
  end.
Proof. reflexivity. Qed.

Lemma parse_value_array (rt : Runtime) (fuel depth : nat) (tl : pystr) :
  startswith [93] (skip_ws tl) = false ->
  parse_value rt (S fuel) (S depth) (91 :: tl) =
  scan_map JArr (parse_items rt fuel depth (skip_ws tl)).
Proof. intros H. cbn [parse_value Z.eqb Pos.eqb]. now rewrite H. Qed.

Lemma join_cons2 (sep x y : pystr) (l : list pystr) :
  join sep (x :: y :: l) = x ++ sep ++ join sep (y :: l).
Proof. reflexivity. Qed.

Lemma parse_items_codes (rt : Runtime) (depth : nat) (codes : list Z) :
  codes <> [] -> Forall is_code_point codes ->
  forall fuel tail,
    (List.length codes < fuel)%nat ->
    parse_items rt fuel depth (join [44] (map str_int codes) ++ 93 :: tail) =
    Scanned (map JInt codes) tail.
Proof.
  induction codes as [|x codes IH]; [congruence|].
  intros _ Hcodes fuel tail Hfuel.
  inversion_clear Hcodes as [|? ? Hx Hrest].
  destruct fuel as [|[|fuel]]; cbn [List.length] in Hfuel; try lia.
  rewrite parse_items_eq.
  destruct codes as [|y codes].
  - cbn [map join].
    pose proof (parse_value_code rt fuel depth x (93 :: tail) Hx eq_refl)
      as Hv.
    unfold pystr, char in *. now rewrite Hv.
  - cbn [map]. rewrite join_cons2. rewrite <- !app_assoc. cbn [app].
    pose proof (parse_value_code rt fuel depth x
                  (44 :: join [44] (str_int y :: map str_int codes)
                   ++ 93 :: tail) Hx eq_refl) as Hv.
    unfold pystr, char in *. rewrite Hv. clear Hv.
    cbn [skip_ws is_ws Z.eqb orb Pos.eqb].
    change (str_int y :: map str_int codes) with (map str_int (y :: codes)).
    rewrite skip_ws_number.
    + rewrite IH;
        [reflexivity | discriminate | exact Hrest
        | cbn [List.length] in *; lia].
    + destruct codes; cbn [map]; [cbn [join] | rewrite join_cons2, <- app_assoc];
        apply str_int_starts.
Qed.

Lemma join_codes_length (codes : list Z) :
  (List.length codes <= List.length (join [44%Z] (map str_int codes)))%nat.
Proof.
  induction codes as [|x [|y codes] IH]; [apply Nat.le_refl | |].
  - cbn [map join List.length].
    destruct (str_int_starts x []) as (c & tl & E & _).
    rewrite app_nil_r in E. rewrite E. cbn [List.length]. lia.
  - change (map str_int (x :: y :: codes))
      with (str_int x :: str_int y :: map str_int codes).
    rewrite join_cons2, !length_app.
    change (str_int y :: map str_int codes) with (map str_int (y :: codes)).
    cbn [List.length] in *. lia.
Qed.

(** [json.loads] reads the literal of a list of code points back as that
    list, when the interpreter lets it open one container. *)
Lemma json_loads_render_codes (rt : Runtime) (codes : list Z) :
  (0 < recursion_allowance rt)%nat -> Forall is_code_point codes ->
  json_loads rt (render_codes codes) = Ok (JArr (map JInt codes)).
Proof.
  intros Hdepth Hcodes. unfold json_loads, render_codes. cbn [app].
  change (skip_ws (91 :: ?x)) with (91 :: x).
  unfold enough_fuel.
  destruct (recursion_allowance rt) as [|depth]; [lia|].
  destruct codes as [|x codes]; [reflexivity|].
  set (J := join [44] (map str_int (x :: codes))).
  assert (Hstart : starts_number (J ++ [93])).
  { subst J. destruct codes; cbn [map]; [cbn [join] | rewrite join_cons2, <- app_assoc];
      apply str_int_starts. }
  rewrite parse_value_array.
  - rewrite (skip_ws_number _ Hstart). subst J.
    rewrite parse_items_codes; [reflexivity | discriminate | exact Hcodes |].
    pose proof (join_codes_length (x :: codes)).
    cbn [List.length] in *. rewrite length_app. cbn [List.length]. lia.
  - rewrite (skip_ws_number _ Hstart).
    destruct Hstart as (c & tl & -> & Hc). unfold is_digit_char in Hc.
    apply startswith_head_ne. lia.
Qed.


(** ** The scanner never runs out of fuel *)

Ltac len_lia :=
  unfold pystr, char in *; cbn [List.length skipn_str] in *; lia.

Lemma skip_ws_length (s : pystr) :
  (List.length (skip_ws s) <= List.length s)%nat.
Proof.
  induction s as [|c s IH]; [apply Nat.le_refl|].
  cbn [skip_ws]. destruct (is_ws c); cbn [List.length]; len_lia.
Qed.

Lemma startswith_skipn (p s : pystr) :
  startswith p s = true ->
  List.length s
  = (List.length p + List.length (skipn_str (List.length p) s))%nat.
Proof.
  revert s. induction p as [|c p IH]; intros s H; [reflexivity|].
  destruct s as [|x s]; [discriminate|]. cbn [startswith] in H.
  apply andb_prop in H as [_ H]. cbn [List.length skipn_str].
  now rewrite (IH s H).
Qed.

Lemma span_digits_length (s ds rest : pystr) :
  span_digits s = (ds, rest) ->
  List.length s = (List.length ds + List.length rest)%nat.
Proof.
  revert ds rest. induction s as [|c s IH]; intros ds rest H; cbn [span_digits] in H.
  - now injection H as <- <-.
  - destruct (is_digit c).
    + destruct (span_digits s) as [ds' rest'] eqn:E. injection H as <- <-.
      cbn [List.length]. now rewrite (IH ds' rest' eq_refl).
    + now injection H as <- <-.
Qed.

Lemma scan_frac_length (s f rest : pystr) :
  scan_frac s = (f, rest) -> (List.length rest <= List.length s)%nat.
Proof.
  unfold scan_frac. destruct s as [|c tl]; [now intros [= <- <-]|].
  destruct (c =? 46); [|now intros [= <- <-]].
  destruct (span_digits tl) as [[|d ds] r] eqn:E; intros [= <- <-];
    [apply Nat.le_refl|].
  apply span_digits_length in E. cbn [List.length] in *. len_lia.
Qed.

Lemma scan_exp_length (s e rest : pystr) :
  scan_exp s = (e, rest) -> (List.length rest <= List.length s)%nat.
Proof.
  unfold scan_exp. destruct s as [|c tl]; [now intros [= <- <-]|].
  destruct ((c =? 101) || (c =? 69)); [|now intros [= <- <-]].
  assert (Hspan : forall t ds r, span_digits t = (ds, r) ->
                                 (List.length r <= List.length t)%nat).
  { intros t ds r E. apply span_digits_length in E. len_lia. }
  destruct tl as [|x tl'].
  - cbn. now intros [= <- <-].
  - destruct ((x =? 45) || (x =? 43)).
    + destruct (span_digits tl') as [[|d ds] r] eqn:E; intros [= <- <-];
        [apply Nat.le_refl|].
      apply Hspan in E. cbn [List.length] in *. len_lia.
    + destruct (span_digits (x :: tl')) as [[|d ds] r] eqn:E; intros [= <- <-];
        [apply Nat.le_refl|].
      apply Hspan in E. cbn [List.length] in *. len_lia.
Qed.

Lemma scan_int_part_length (s ip rest : pystr) :
  scan_int_part s = Some (ip, rest) ->
  (List.length rest < List.length s)%nat.
Proof.
  unfold scan_int_part. destruct s as [|d tl]; [discriminate|].
  destruct (d =? 48); [intros [= <- <-]; len_lia|].
  destruct (is_digit d); [|discriminate].
  destruct (span_digits tl) as [ds r'] eqn:Es. intros [= <- <-].
  apply span_digits_length in Es. len_lia.
Qed.

Lemma scan_unsigned_length (sign s : pystr) (v : json) (rest : pystr) :
  scan_unsigned sign s = Some (v, rest) ->
  (List.length rest < List.length s)%nat.
Proof.
  unfold scan_unsigned.
  destruct (scan_int_part s) as [[ip r]|] eqn:Ei; [|discriminate].
  apply scan_int_part_length in Ei.
  destruct (scan_frac r) as [frac r1] eqn:Ef. apply scan_frac_length in Ef.
  destruct (scan_exp r1) as [ex r2] eqn:Ee. apply scan_exp_length in Ee.
  intros E. assert (rest = r2) as ->.
  { destruct frac, ex; now injection E as _ <-. }
  len_lia.
Qed.

Lemma scan_number_length (s : pystr) (v : json) (rest : pystr) :
  scan_number s = Some (v, rest) -> (List.length rest < List.length s)%nat.
Proof.
  unfold scan_number. destruct s as [|c tl]; [discriminate|].
  destruct (c =? 45); intros H; apply scan_unsigned_length in H; len_lia.
Qed.

Lemma prepend_some {A} (a : A) (o : option (list A * pystr))
      (l : list A) (rest : pystr) :
  prepend a o = Some (l, rest) -> exists l', o = Some (l', rest).
Proof.
  destruct o as [[l' r]|]; [|discriminate]. intros [= _ <-]. now exists l'.
Qed.

Lemma scan_string_length_bounded (n : nat) :
  forall s key rest,
    (List.length s <= n)%nat ->
    scan_string s = Some (key, rest) ->
    (List.length rest < List.length s)%nat.
Proof.
  induction n as [|n IH]; intros s key rest Hn H.
  - destruct s; [discriminate | cbn [List.length] in Hn; len_lia].
  - assert (Hrec : forall x t key' rest',
              (List.length t <= n)%nat ->
              prepend x (scan_string t) = Some (key', rest') ->
              (List.length rest' < List.length t)%nat).
    { intros x t key' rest' Ht E. apply prepend_some in E as (k' & E).
      exact (IH t k' rest' Ht E). }
    destruct s as [|c tl]; [discriminate|]. cbn [scan_string] in H.
    cbn [List.length] in *.
    destruct (c =? 34); [injection H as _ <-; len_lia|].
    destruct (c =? 92).
    + destruct tl as [|e tl1]; [discriminate|]. cbn [List.length] in *.
      destruct (e =? 117).
      * destruct tl1 as [|a [|b [|c3 [|d tl2]]]]; try discriminate.
        cbn [List.length] in *.
        destruct (hex4 a b c3 d) as [hi|]; [|discriminate]. cbv zeta in H.
        assert (Hlone : prepend hi (scan_string tl2) = Some (key, rest) ->
                        (List.length rest < List.length tl2)%nat).
        { apply Hrec. len_lia. }
        destruct tl2 as [|b1 [|u1 [|a' [|b' [|c' [|d' tl3]]]]]];
          try (apply Hlone in H; cbn [List.length] in *; len_lia).
        destruct (is_high_surrogate hi && (b1 =? 92) && (u1 =? 117));
          [|apply Hlone in H; cbn [List.length] in *; len_lia].
        destruct (hex4 a' b' c' d') as [lo|]; [|discriminate].
        destruct (is_low_surrogate lo);
          [|apply Hlone in H; cbn [List.length] in *; len_lia].
        apply Hrec in H; cbn [List.length] in *; len_lia.
      * destruct (simple_escape e); [|discriminate].
        apply Hrec in H; len_lia.
    + destruct (c <=? 31); [discriminate|]. apply Hrec in H; len_lia.
Qed.

Lemma scan_string_length (s key rest : pystr) :
  scan_string s = Some (key, rest) -> (List.length rest < List.length s)%nat.
Proof. apply (scan_string_length_bounded (List.length s)), Nat.le_refl. Qed.

Lemma startswith_consumes (p s : pystr) :
  startswith p s = true -> p <> [] ->
  (List.length (skipn_str (List.length p) s) < List.length s)%nat.
Proof.
  intros H Hp. apply startswith_skipn in H.
  destruct p; [congruence | len_lia].
Qed.

Lemma scan_atom_length (rt : Runtime) (s : pystr) :
  scan_atom rt s <> Exhausted
  /\ forall v rest, scan_atom rt s = Scanned v rest ->
                    (List.length rest < List.length s)%nat.
Proof.
  unfold scan_atom.
  repeat match goal with
    | |- context [if startswith ?p s then _ else _] =>
        let E := fresh "E" in
        destruct (startswith p s) eqn:E;
        [apply startswith_consumes in E; [|discriminate];
         split; [discriminate | intros v rest [= _ <-]; exact E]|]
    | |- context [scan_number s] =>
        let E := fresh "E" in
        destruct (scan_number s) as [[v0 r0]|] eqn:E;
        [apply scan_number_length in E;
         destruct v0; try destruct (exceeds_digit_limit rt (int_digits s));
         (split; [discriminate
                 | intros v rest H; try discriminate;
                   injection H as _ <-; exact E])|]
    end.
  split; [discriminate | intros; discriminate].
Qed.

Lemma scan_map_exhausted {A B} (f : A -> B) (r : scan A) :
  r <> Exhausted -> scan_map f r <> Exhausted.
Proof. destruct r; [discriminate | discriminate | congruence]. Qed.

Lemma scan_map_scanned {A B} (f : A -> B) (r : scan A) (b : B) (rest : pystr) :
  scan_map f r = Scanned b rest -> exists a, r = Scanned a rest.
Proof. destruct r as [a r'| |]; try discriminate. intros [= _ <-]. now exists a. Qed.

Lemma parse_fuel_ok (rt : Runtime) (fuel : nat) :
  forall depth,
    fuel_ok (fun fuel => parse_value rt fuel depth) 1 fuel
    /\ fuel_ok (fun fuel => parse_items rt fuel depth) 2 fuel
    /\ fuel_ok (fun fuel => parse_members rt fuel depth) 2 fuel.
Proof.
  induction fuel as [|fuel IH]; intros depth.
  { unfold fuel_ok. repeat split; intros; len_lia. }
  destruct (IH depth) as (IHv & IHi & IHm).
  split; [|split]; intros s Hs.
  - (* one value *)
    destruct s as [|c tl]; [split; [discriminate | intros; discriminate]|]. cbn [parse_value].
    cbn [List.length] in Hs.
    destruct (c =? 34).
    { destruct (scan_string tl) as [[str rest]|] eqn:E; [|split; [discriminate | intros; discriminate]].
      apply scan_string_length in E.
      split; [discriminate | intros a r [= _ <-]; cbn [List.length]; len_lia]. }
    pose proof (skip_ws_length tl) as Hws.
    destruct (c =? 123).
    { destruct depth as [|depth'];
        [split; [discriminate | intros; discriminate]|].
      destruct (IH depth') as (_ & _ & IHm').
      cbv zeta. destruct (startswith [125] (skip_ws tl)) eqn:E.
      - apply startswith_consumes in E; [|discriminate].
        split; [discriminate | intros a r [= _ <-]].
        eapply Nat.lt_le_trans; [exact E | len_lia].
      - destruct (IHm' (skip_ws tl)) as [Hne Hlen]; [len_lia|]. split.
        + now apply scan_map_exhausted.
        + intros a r Hr. apply scan_map_scanned in Hr as (ms & Hr).
          apply Hlen in Hr. cbn [List.length]. len_lia. }
    destruct (c =? 91).
    { destruct depth as [|depth'];
        [split; [discriminate | intros; discriminate]|].
      destruct (IH depth') as (_ & IHi' & _).
      cbv zeta. destruct (startswith [93] (skip_ws tl)) eqn:E.
      - apply startswith_consumes in E; [|discriminate].
        split; [discriminate | intros a r [= _ <-]].
        eapply Nat.lt_le_trans; [exact E | len_lia].
      - destruct (IHi' (skip_ws tl)) as [Hne Hlen]; [len_lia|]. split.
        + now apply scan_map_exhausted.
        + intros a r Hr. apply scan_map_scanned in Hr as (ms & Hr).
          apply Hlen in Hr. cbn [List.length]. len_lia. }
    apply scan_atom_length.
  - (* the elements of an array *)
    rewrite parse_items_eq.
    destruct (IHv s) as [Hne Hlen]; [len_lia|].
    destruct (parse_value rt fuel depth s) as [v rest| |]; [|split; [discriminate | intros; discriminate]|congruence].
    specialize (Hlen v rest eq_refl). pose proof (skip_ws_length rest) as Hws.
    destruct (skip_ws rest) as [|c rest']; [split; [discriminate | intros; discriminate]|].
    cbn [List.length] in Hws.
    destruct (c =? 93);
      [split; [discriminate | intros a r [= _ <-]; len_lia]|].
    destruct (c =? 44); [|split; [discriminate | intros; discriminate]].
    pose proof (skip_ws_length rest') as Hws'.
    destruct (IHi (skip_ws rest')) as [Hne' Hlen']; [len_lia|]. split.
    + now apply scan_map_exhausted.
    + intros a r Hr. apply scan_map_scanned in Hr as (vs & Hr).
      apply Hlen' in Hr. len_lia.
  - (* the members of an object *)
    cbn [parse_members].
    destruct s as [|q tl]; [split; [discriminate | intros; discriminate]|]. cbn [List.length] in Hs.
    destruct (q =? 34); [|split; [discriminate | intros; discriminate]].
    destruct (scan_string tl) as [[key rest]|] eqn:E; [|split; [discriminate | intros; discriminate]].
    apply scan_string_length in E. pose proof (skip_ws_length rest) as Hws.
    destruct (skip_ws rest) as [|colon rest']; [split; [discriminate | intros; discriminate]|].
    cbn [List.length] in Hws.
    destruct (colon =? 58); [|split; [discriminate | intros; discriminate]].
    pose proof (skip_ws_length rest') as Hws'.
    destruct (IHv (skip_ws rest')) as [Hne Hlen]; [len_lia|].
    destruct (parse_value rt fuel depth (skip_ws rest')) as [v rest''| |];
      [|split; [discriminate | intros; discriminate]|congruence].
    specialize (Hlen v rest'' eq_refl).
    pose proof (skip_ws_length rest'') as Hws''.
    destruct (skip_ws rest'') as [|c rest3]; [split; [discriminate | intros; discriminate]|].
    cbn [List.length] in Hws''.
    destruct (c =? 125);
      [split; [discriminate | intros a r [= _ <-]; cbn [List.length]; len_lia]|].
    destruct (c =? 44); [|split; [discriminate | intros; discriminate]].
    pose proof (skip_ws_length rest3) as Hws3.
    destruct (IHm (skip_ws rest3)) as [Hne' Hlen']; [len_lia|]. split.
    + now apply scan_map_exhausted.
    + intros a r Hr. apply scan_map_scanned in Hr as (ms & Hr).
      apply Hlen' in Hr. cbn [List.length]. len_lia.
Qed.

(** [json_loads] never fails for want of fuel: a [JSONDecodeError] means
    that the scanner found the text invalid, or found text after the
    value. *)
Lemma json_loads_fuel (rt : Runtime) (depth : nat) (s : pystr) :
  parse_value rt (enough_fuel (skip_ws s)) depth (skip_ws s) <> Exhausted.
Proof.
  destruct (parse_fuel_ok rt (enough_fuel (skip_ws s)) depth) as [Hv _].
  apply (Hv (skip_ws s)). unfold enough_fuel. len_lia.
Qed.

Lemma json_loads_invalid (rt : Runtime) (s : pystr) :
  json_loads rt s = Raise JSONDecodeError ->
  let scanned :=
    parse_value rt (enough_fuel (skip_ws s)) (recursion_allowance rt)
                (skip_ws s) in
  scanned = Invalid
  \/ exists v rest, scanned = Scanned v rest /\ skip_ws rest <> [].
Proof.
  unfold json_loads.
  pose proof (json_loads_fuel rt (recursion_allowance rt) s) as Hfuel.
  destruct (parse_value _ _ _ _) as [v rest|e|]; [| |congruence].
  - intros H. right. exists v, rest. split; [reflexivity|].
    destruct (skip_ws rest); [discriminate | discriminate].
  - intros [= ->]. now left.
Qed.

(** ** The exceptions of [json.loads] *)

Lemma scan_map_failed {A B} (f : A -> B) (r : scan A) (e : exn) :
  scan_map f r = Failed e -> r = Failed e.
Proof. destruct r; [discriminate | now intros [= ->] | discriminate]. Qed.

Lemma scan_atom_errors (rt : Runtime) (s : pystr) (e : exn) :
  scan_atom rt s = Failed e -> loads_error rt e.
Proof.
  unfold scan_atom.
  repeat match goal with
    | |- context [if startswith ?p s then _ else _] =>
        destruct (startswith p s); [discriminate|]
    end.
  destruct (scan_number s) as [[v rest]|].
  - destruct v; try discriminate.
    destruct (exceeds_digit_limit rt (int_digits s)) eqn:E; [|discriminate].
    intros [= <-]. right. right. now exists (int_digits s).
  - repeat match goal with
      | |- context [if startswith ?p s then _ else _] =>
          destruct (startswith p s); [discriminate|]
      end.
    intros [= <-]. now left.
Qed.

Lemma parse_errors (rt : Runtime) (fuel : nat) :
  forall depth s e,
    (parse_value rt fuel depth s = Failed e -> loads_error rt e)
    /\ (parse_items rt fuel depth s = Failed e -> loads_error rt e)
    /\ (parse_members rt fuel depth s = Failed e -> loads_error rt e).
Proof.
  assert (Hinvalid : forall A, @Failed A JSONDecodeError = Failed JSONDecodeError
                               -> loads_error rt JSONDecodeError)
    by (intros; now left).
  induction fuel as [|fuel IH]; intros depth s e;
    [repeat split; discriminate|].
  split; [|split].
  - cbn [parse_value]. destruct s as [|c tl]; [intros [= <-]; now left|].
    destruct (c =? 34).
    { destruct (scan_string tl) as [[? ?]|]; [discriminate|].
      intros [= <-]. now left. }
    destruct (c =? 123).
    { destruct depth as [|depth']; [intros [= <-]; right; now left|].
      cbv zeta. destruct (startswith [125] (skip_ws tl)); [discriminate|].
      intros H. apply scan_map_failed in H.
      now apply (proj2 (proj2 (IH depth' (skip_ws tl) e))). }
    destruct (c =? 91).
    { destruct depth as [|depth']; [intros [= <-]; right; now left|].
      cbv zeta. destruct (startswith [93] (skip_ws tl)); [discriminate|].
      intros H. apply scan_map_failed in H.
      now apply (proj1 (proj2 (IH depth' (skip_ws tl) e))). }
    apply scan_atom_errors.
  - rewrite parse_items_eq.
    destruct (parse_value rt fuel depth s) as [v rest|e'|] eqn:Ev;
      [| |discriminate].
    + destruct (skip_ws rest) as [|c rest']; [intros [= <-]; now left|].
      destruct (c =? 93); [discriminate|].
      destruct (c =? 44); [|intros [= <-]; now left].
      intros H. apply scan_map_failed in H.
      now apply (proj1 (proj2 (IH depth (skip_ws rest') e))).
    + intros [= <-]. now apply (proj1 (IH depth s e')).
  - cbn [parse_members]. destruct s as [|q tl]; [intros [= <-]; now left|].
    destruct (q =? 34); [|intros [= <-]; now left].
    destruct (scan_string tl) as [[key rest]|]; [|intros [= <-]; now left].
    destruct (skip_ws rest) as [|colon rest']; [intros [= <-]; now left|].
    destruct (colon =? 58); [|intros [= <-]; now left].
    destruct (parse_value rt fuel depth (skip_ws rest')) as [v rest''|e'|]
      eqn:Ev; [| |discriminate].
    + destruct (skip_ws rest'') as [|c rest3]; [intros [= <-]; now left|].
      destruct (c =? 125); [discriminate|].
      destruct (c =? 44); [|intros [= <-]; now left].
      intros H. apply scan_map_failed in H.
      now apply (proj2 (proj2 (IH depth (skip_ws rest3) e))).
    + intros [= <-]. now apply (proj1 (IH depth (skip_ws rest') e')).
Qed.

Lemma json_loads_errors (rt : Runtime) (s : pystr) (e : exn) :
  json_loads rt s = Raise e -> loads_error rt e.
Proof.
  unfold json_loads.
  destruct (parse_value _ _ _ _) as [v rest|e'|] eqn:E.
  - destruct (skip_ws rest); [discriminate|]. intros [= <-]. now left.
  - intros [= <-]. exact (proj1 (parse_errors rt _ _ _ e') E).
  - intros [= <-]. now left.
Qed.

(** ** The bounded pattern match *)

Lemma startswith_app (p s : pystr) : startswith p (p ++ s) = true.
Proof.
  induction p as [|c p IH]; [reflexivity|].
  cbn [app startswith]. now rewrite Z.eqb_refl, IH.
Qed.

Lemma skipn_str_app (p s : pystr) : skipn_str (List.length p) (p ++ s) = s.
Proof. induction p as [|c p IH]; [reflexivity | exact IH]. Qed.

Lemma lazy_until_app (term : char) (m after : pystr) :
  Forall (fun c => c <> term /\ c <> 10) m ->
  lazy_until term (m ++ term :: after) = Some m.
Proof.
  induction 1 as [|c m [Hc Hnl] _ IH]; cbn [app lazy_until].
  - now rewrite Z.eqb_refl.
  - destruct (Z.eqb_spec c term); [contradiction|].
    destruct (Z.eqb_spec c 10); [contradiction|].
    now rewrite IH.
Qed.

Lemma search_between_eq (prefix : pystr) (term : char) (text : pystr) :
  search_between prefix term text =
  match (if startswith prefix text
         then lazy_until term (skipn_str (List.length prefix) text)
         else None) with
  | Some m => Some m
  | None =>
      match text with
      | [] => None
      | _ :: tl => search_between prefix term tl
      end
  end.
Proof. destruct text; reflexivity. Qed.

(** When the first occurrence of the prefix is at the end of [before] and
    the lazy match succeeds there, that match is the one found. *)
Lemma search_between_first (prefix : pystr) (term : char)
      (before body : pystr) (m : pystr) :
  find_first prefix (before ++ prefix ++ body) = Some (List.length before) ->
  lazy_until term body = Some m ->
  search_between prefix term (before ++ prefix ++ body) = Some m.
Proof.
  intros Hfirst Hlazy. induction before as [|c before IH].
  - cbn [app].
    now rewrite search_between_eq, startswith_app, skipn_str_app, Hlazy.
  - cbn [app List.length] in *. cbn [find_first] in Hfirst.
    rewrite search_between_eq.
    destruct (startswith prefix (c :: before ++ prefix ++ body));
      [discriminate|].
    apply IH.
    destruct (find_first prefix (before ++ prefix ++ body)); cbn in Hfirst;
      congruence.
Qed.

Lemma str_int_chars (z : Z) :
  Forall (fun c => c = 45 \/ is_digit_char c) (str_int z).
Proof.
  unfold str_int. destruct (z <? 0) eqn:Hneg.
  - apply Z.ltb_lt in Hneg. destruct (str_nat_spec (- z)) as [Hall _]; [lia|].
    constructor; [now left|].
    eapply Forall_impl; [|exact Hall]. intros; now right.
  - apply Z.ltb_ge in Hneg. destruct (str_nat_spec z) as [Hall _]; [lia|].
    eapply Forall_impl; [|exact Hall]. intros; now right.
Qed.

Lemma Forall_join {P : char -> Prop} (sep : pystr) (pieces : list pystr) :
  Forall P sep -> Forall (Forall P) pieces -> Forall P (join sep pieces).
Proof.
  intros Hsep Hall. induction Hall as [|p pieces Hp Hall IH]; [constructor|].
  destruct pieces as [|q pieces]; [exact Hp|].
  cbn [join]. apply Forall_app. split; [exact Hp|].
  apply Forall_app. split; [exact Hsep | exact IH].
Qed.

Lemma render_codes_chars (codes : list Z) :
  Forall (fun c => c <> 59 /\ c <> 10) (render_codes codes).
Proof.
  unfold render_codes. apply Forall_app. split; [repeat constructor; lia|].
  apply Forall_app. split; [|repeat constructor; lia].
  apply Forall_join; [repeat constructor; lia|].
  apply Forall_forall. intros s Hin. apply in_map_iff in Hin as (z & <- & _).
  eapply Forall_impl; [|apply str_int_chars].
  unfold is_digit_char. intros c Hc. lia.
Qed.

Lemma mapM_py_chr_codes (codes : list Z) :
  Forall is_code_point codes -> mapM py_chr (map JInt codes) = Ok codes.
Proof.
  induction 1 as [|c codes Hc _ IH]; [reflexivity|].
  cbn [map mapM py_chr]. unfold is_code_point in Hc.
  replace ((c <? -2147483648) || (2147483647 <? c)) with false by lia.
  unfold chr. replace ((0 <=? c) && (c <? 1114112)) with true by lia.
  cbn [bind]. now rewrite IH.
Qed.

Lemma get_ursidae_name_of_match (rt : Runtime) (text captured : pystr)
      (codes : list Z) :
  search_between (py "ursidae = ") 59 text = Some captured ->
  json_loads rt captured = Ok (JArr (map JInt codes)) ->
  Forall is_code_point codes ->
  get_ursidae_name rt text = Ok codes.
Proof.
  intros Hs Hj Hc. unfold get_ursidae_name. rewrite Hs, Hj.
  unfold _convert_char_codes_to_str. cbn [py_iter bind].
  now rewrite mapM_py_chr_codes.
Qed.

(** C6 (as amended): when the first occurrence of [ursidae = ] in the
    script is followed by a text without semicolon and without line feed
    that [json.loads] reads as a list of integers, and then by a semicolon,
    and every integer of the list is a code point (0 to 0x10FFFF),
    [get_ursidae_name] returns the string whose code points are those
    integers, in order.  The text of the list is any that [json.loads]
    reads as that list: with or without white space between its
    tokens. *)
Theorem get_ursidae_name_inverse (rt : Runtime) (before literal after : pystr)
        (codes : list Z) :
  let text := before ++ py "ursidae = " ++ literal ++ [59] ++ after in
  find_first (py "ursidae = ") text = Some (List.length before) ->
  Forall (fun c => c <> 59 /\ c <> 10) literal ->
  json_loads rt literal = Ok (JArr (map JInt codes)) ->
  Forall is_code_point codes ->
  get_ursidae_name rt text = Ok codes.
Proof.
  intros text Hfirst Hliteral Hloads Hcodes.
  apply (get_ursidae_name_of_match rt text literal codes);
    [|exact Hloads | exact Hcodes].
  apply search_between_first; [exact Hfirst|].
  now apply lazy_until_app.
Qed.

(** The list literal without white space, [[c1,c2,...]], is such a text
    for every list of code points, in an interpreter that lets
    [json.loads] open one container. *)
Lemma get_ursidae_name_of_rendering (rt : Runtime) (before after : pystr)
      (codes : list Z) :
  (0 < recursion_allowance rt)%nat ->
  Forall is_code_point codes ->
  find_first (py "ursidae = ") (script_with_codes before codes after)
  = Some (List.length before) ->
  get_ursidae_name rt (script_with_codes before codes after) = Ok codes.
Proof.
  intros Hdepth Hcodes Hfirst.
  apply (get_ursidae_name_of_match rt _ (render_codes codes)).
  - unfold script_with_codes in *.
    apply search_between_first; [exact Hfirst|].
    apply lazy_until_app, render_codes_chars.
  - now apply json_loads_render_codes.
  - exact Hcodes.
Qed.

(** ** UTF-8 of ASCII text *)

Lemma encode_utf8_ascii (s : pystr) :
  Forall is_ascii s -> encode_utf8 s = Ok s.
Proof.
  induction 1 as [|c s Hc _ IH]; [reflexivity|].
  cbn [encode_utf8]. unfold utf8_char, is_ascii in *.
  replace (c <? 0) with false by lia. replace (c <? 128) with true by lia.
  cbn [bind]. now rewrite IH.
Qed.

Lemma rats_content_ascii (codes : list Z) :
  Forall is_ascii (join (py "|") (map str_int codes)).
Proof.
  apply Forall_join; [repeat constructor; unfold is_ascii; lia|].
  apply Forall_forall. intros s Hin. apply in_map_iff in Hin as (z & <- & _).
  eapply Forall_impl; [|apply str_int_chars].
  unfold is_digit_char, is_ascii. intros c Hc. lia.
Qed.

Lemma is_ascii_byte (s : pystr) : Forall is_ascii s -> Forall is_byte s.
Proof.
  apply Forall_impl. unfold is_ascii, is_byte. lia.
Qed.

(** ** Classification of the submission response *)

(** C2 (as amended): the body of a response with the results marker is
    passed to [json.loads], whether or not the thank-you marker is present:
    when it returns, the result is [ElectionClosed] with the parsed body;
    when it raises [json.JSONDecodeError] the failure is
    [ResultParseError]; any other exception it raises, and there are two,
    [RecursionError] and the [ValueError] of an integer literal beyond the
    digit limit of the interpreter, leaves the callback as it is.  With
    neither marker the failure is [UnexpectedResponse] carrying the text;
    with the thank-you marker alone the result is [Accepted]. *)
Theorem parse_voting_result_classification (rt : Runtime)
        (response : Response) :
  let text := resp_text response in
  let thanks := contains (py "Thank you bea") text in
  let results := contains (py "pandas_future") text in
  (results = true ->
   (forall payload,
      json_loads rt text = Ok payload ->
      parse_voting_result rt response = outcome_of (ElectionClosed payload))
   /\ (json_loads rt text = Raise JSONDecodeError ->
       parse_voting_result rt response = Raise ResultParseError)
   /\ (forall e,
         json_loads rt text = Raise e -> e <> JSONDecodeError ->
         parse_voting_result rt response = Raise e
         /\ (e = RecursionError
             \/ exists digits,
                  exceeds_digit_limit rt digits = true
                  /\ e = DigitLimitError rt digits)))
  /\ (thanks = false -> results = false ->
      parse_voting_result rt response = Raise (UnexpectedResponse text))
  /\ (thanks = true -> results = false ->
      parse_voting_result rt response = outcome_of Accepted).
Proof.
  intros text thanks results. unfold parse_voting_result.
  fold text. fold thanks. fold results.
  split; [|split].
  - intros ->. rewrite orb_true_r. cbn [negb].
    split; [|split].
    + now intros payload ->.
    + now intros ->.
    + intros e He Hne. rewrite He. split.
      * destruct e; congruence.
      * destruct (json_loads_errors rt text e He) as [->|[->|H]];
          [congruence | now left | now right].
  - intros -> ->. reflexivity.
  - intros -> ->. reflexivity.
Qed.

(** ** The form token and the session cookie *)

(** [get_carnivore_value] never raises the not-found error: the result of
    [css] is never [None]. *)
Lemma get_carnivore_value_never_not_found (response : Response) :
  get_carnivore_value response <> Raise ElementNotFound.
Proof.
  unfold get_carnivore_value, is_None.
  destruct (assoc_get _ _); [discriminate|].
  intros H. injection H as H. vm_compute in H. discriminate.
Qed.

(** When nothing is selected, in particular when no element has the id,
    the error raised is the one of a missing [value] attribute. *)
Lemma get_carnivore_value_no_element (response : Response) :
  css response (IdDescendant (py "carnivoreatingbambu") (py "input")) = [] ->
  get_carnivore_value response = Raise AttributeMissing.
Proof.
  intros H. unfold get_carnivore_value. rewrite H. reflexivity.
Qed.

(** ** The session cookie *)

Lemma split_no_sep (sep : char) (p : pystr) :
  Forall (fun c => c <> sep) p -> split sep p = [p].
Proof.
  induction 1 as [|c p Hc _ IH]; [reflexivity|].
  cbn [split]. destruct (Z.eqb_spec c sep); [contradiction|]. now rewrite IH.
Qed.

Lemma split_nonempty (sep : char) (s : pystr) : split sep s <> [].
Proof.
  destruct s as [|c s]; [discriminate|]. cbn [split].
  destruct (c =? sep); [discriminate|]. destruct (split sep s); discriminate.
Qed.

Lemma split_app_sep (sep : char) (p r : pystr) :
  Forall (fun c => c <> sep) p ->
  split sep (p ++ sep :: r) = p :: split sep r.
Proof.
  induction 1 as [|c p Hc _ IH]; cbn [app split].
  - now rewrite Z.eqb_refl.
  - destruct (Z.eqb_spec c sep); [contradiction|]. now rewrite IH.
Qed.

Ltac literal_chars :=
  repeat match goal with
    | |- context [py ?s] =>
        let l := eval vm_compute in (py s) in change (py s) with l
    end;
  repeat constructor; lia.

(** The first piece of the header and what follows it. *)
Lemma split_first_piece (piece attributes : pystr) :
  Forall (fun c => c <> 59) piece ->
  attributes = [] \/ (exists tl, attributes = 59 :: tl) ->
  exists pieces, split 59 (piece ++ attributes) = piece :: pieces.
Proof.
  intros Hp [->|(tl & ->)].
  - rewrite app_nil_r, split_no_sep by exact Hp. now exists [].
  - rewrite split_app_sep by exact Hp. now eexists.
Qed.

(** A header whose text starts with [session=<value>], the value free of
    [=] and [;], gives the pair of [session] and the value. *)
Lemma get_session_cookies_plain_value (header : bytes)
      (value attributes : pystr) :
  decode_utf8 header = Ok (py "session=" ++ value ++ attributes) ->
  Forall (fun c => c <> 59 /\ c <> 61) value ->
  attributes = [] \/ (exists tl, attributes = 59 :: tl) ->
  get_session_cookies (Some header) = Ok (py "session", value).
Proof.
  intros Hheader Hvalue Hattrs. unfold get_session_cookies.
  rewrite Hheader. cbn [bind].
  destruct (split_first_piece (py "session=" ++ value) attributes)
    as (pieces & E); [|exact Hattrs|].
  { apply Forall_app. split; [literal_chars|].
    eapply Forall_impl; [|exact Hvalue]. now intros c [? ?]. }
  rewrite <- app_assoc in E. rewrite E. cbn [find].
  rewrite startswith_app.
  change (py "session=" ++ value) with (py "session" ++ 61 :: value).
  rewrite split_app_sep by literal_chars.
  rewrite split_no_sep; [reflexivity|].
  eapply Forall_impl; [|exact Hvalue]. now intros c [? ?].
Qed.

(** With an [=] inside the value the tuple assignment fails. *)
Lemma get_session_cookies_value_with_equals (header : bytes)
      (v1 v2 attributes : pystr) :
  decode_utf8 header = Ok (py "session=" ++ (v1 ++ 61 :: v2) ++ attributes) ->
  Forall (fun c => c <> 59 /\ c <> 61) v1 ->
  Forall (fun c => c <> 59) v2 ->
  attributes = [] \/ (exists tl, attributes = 59 :: tl) ->
  get_session_cookies (Some header) = Raise TooManyValues.
Proof.
  intros Hheader Hv1 Hv2 Hattrs. unfold get_session_cookies.
  rewrite Hheader. cbn [bind].
  destruct (split_first_piece (py "session=" ++ v1 ++ 61 :: v2) attributes)
    as (pieces & E); [|exact Hattrs|].
  { apply Forall_app. split; [literal_chars|].
    apply Forall_app. split.
    - eapply Forall_impl; [|exact Hv1]. now intros c [? ?].
    - constructor; [lia | exact Hv2]. }
  replace (py "session=" ++ (v1 ++ 61 :: v2) ++ attributes)
    with ((py "session=" ++ v1 ++ 61 :: v2) ++ attributes)
    by (now rewrite <- !app_assoc).
  rewrite E. cbn [find].
  rewrite startswith_app.
  change (py "session=" ++ v1 ++ 61 :: v2)
    with (py "session" ++ 61 :: v1 ++ 61 :: v2).
  rewrite split_app_sep by literal_chars.
  rewrite split_app_sep
    by (eapply Forall_impl; [|exact Hv1]; now intros c [? ?]).
  pose proof (split_nonempty 61 v2) as Hne.
  destruct (split 61 v2); [contradiction | reflexivity].
Qed.

(** Without any piece that starts with [session=] the error is that of an
    absent session cookie. *)
Lemma get_session_cookies_absent (header : bytes) (cookies_str : pystr) :
  decode_utf8 header = Ok cookies_str ->
  Forall (fun piece => startswith (py "session=") piece = false)
         (split 59 cookies_str) ->
  get_session_cookies (Some header) = Raise SessionCookieAbsent.
Proof.
  intros Hheader Hall. unfold get_session_cookies.
  rewrite Hheader. cbn [bind].
  destruct (find _ _) as [piece|] eqn:Hfind; [|reflexivity].
  apply find_some in Hfind as [Hin Hs].
  rewrite Forall_forall in Hall. rewrite (Hall piece Hin) in Hs. discriminate.
Qed.

Example get_session_cookies_example :
  get_session_cookies (Some (py "session=XYZ; Path=/; HttpOnly"))
  = Ok (py "session", py "XYZ").
Proof. reflexivity. Qed.

Example get_session_cookies_unrelated :
  get_session_cookies (Some (py "theme=dark; Path=/"))
  = Raise SessionCookieAbsent.
Proof. reflexivity. Qed.

Example get_session_cookies_no_header :
  get_session_cookies None = Raise MissingHeader.
Proof. reflexivity. Qed.

(** A header that is not UTF-8 makes the [decode] call raise. *)
Example get_session_cookies_not_utf8 :
  get_session_cookies (Some (py "session=" ++ [255]))
  = Raise UnicodeDecodeError.
Proof. reflexivity. Qed.

(** C4 (the code departs from it): a session value that contains [=] makes
    the extraction fail, in the tuple assignment. *)
Theorem get_session_cookies_equals_in_value :
  get_session_cookies (Some (py "session=a=b; Path=/")) = Raise TooManyValues.
Proof. reflexivity. Qed.

(** C5 (the code departs from it): on a document without any element of
    the id the error is [AttributeMissing], not [ElementNotFound]. *)
Theorem get_carnivore_value_absent_element :
  let response := respond (send_group_to_vote (fifth_group (py "1")))
                    {| reply_url := form_page_url;
                       reply_set_cookie := None;
                       reply_text := [];
                       reply_document := [Elem (py "html") [] []] |} in
  get_carnivore_value response = Raise AttributeMissing
  /\ AttributeMissing <> ElementNotFound.
Proof. split; [reflexivity | discriminate]. Qed.

Example get_carnivore_value_without_value :
  get_carnivore_value
    (respond (send_group_to_vote (fifth_group (py "1")))
       {| reply_url := form_page_url;
          reply_set_cookie := None;
          reply_text := [];
          reply_document :=
            [ Elem (py "form") [(py "id", py "carnivoreatingbambu")]
                [ Elem (py "input") [(py "type", py "hidden")] [] ] ] |})
  = Raise AttributeMissing.
Proof. reflexivity. Qed.

Example get_carnivore_value_found :
  get_carnivore_value
    (respond (send_group_to_vote (fifth_group (py "1"))) sample_form_page)
  = Ok (py "T1").
Proof. reflexivity. Qed.

(** C6 (as stated, refuted): a script that contains the assignment
    [ursidae = [98];] after another occurrence of the text [ursidae = ]
    does not give the string of code point 98; a list with an integer that
    is no code point gives no string; and a list that goes on after a line
    feed is not found. *)
Lemma get_ursidae_name_not_inverse :
  (get_ursidae_name sample_runtime
     (script_with_codes (py "Kursidae = 0;") [98] [])
   = Raise (ValueError (py "Input is not a list of character codes.") None)
   /\ get_ursidae_name sample_runtime
        (script_with_codes (py "Kursidae = 0;") [98] [])
      <> Ok [98])
  /\ (get_ursidae_name sample_runtime (script_with_codes [] [1114112] [])
      = Raise (ValueError (py "chr() arg not in range(0x110000)") None)
      /\ get_ursidae_name sample_runtime (script_with_codes [] [1114112] [])
         <> Ok [1114112])
  /\ (get_ursidae_name sample_runtime
        (py "ursidae = [98," ++ [10] ++ py "101];")
      = Raise (ValueError
                 (py "Char codes for Ursidae name not found in response text.")
                 None)
      /\ get_ursidae_name sample_runtime
           (py "ursidae = [98," ++ [10] ++ py "101];")
         <> Ok [98; 101]).
Proof.
  split; [|split]; split; try (vm_compute; reflexivity);
    vm_compute; discriminate.
Qed.

Example get_ursidae_name_bear :
  get_ursidae_name sample_runtime
    (py "var ursidae = [124,124,98,101,97,114,124,124];")
  = Ok (py "||bear||").
Proof. vm_compute. reflexivity. Qed.

Example get_rogue_racoons_hash_example :
  get_rogue_racoons_hash (quoted "<input name='rogue_racoons' value='H1'>")
  = Ok (py "H1").
Proof. vm_compute. reflexivity. Qed.


(** * Further properties of the extractors *)

(** ** What the bounded pattern match returns *)

Lemma lazy_until_sound (term : char) (s m : pystr) :
  lazy_until term s = Some m ->
  exists after,
    s = m ++ term :: after /\ Forall (fun c => c <> term /\ c <> 10) m.
Proof.
  revert m. induction s as [|c s IH]; intros m H; [discriminate|].
  cbn [lazy_until] in H. destruct (Z.eqb_spec c term) as [->|Hc].
  - injection H as <-. now exists s.
  - destruct (Z.eqb_spec c 10) as [->|Hnl]; [discriminate|].
    destruct (lazy_until term s) as [m'|]; [|discriminate].
    injection H as <-. destruct (IH m' eq_refl) as (after & -> & Hall).
    exists after. split; [reflexivity|]. now constructor.
Qed.

Lemma startswith_split (p s : pystr) :
  startswith p s = true -> s = p ++ skipn_str (List.length p) s.
Proof.
  revert s. induction p as [|c p IH]; intros s H; [reflexivity|].
  destruct s as [|x s]; [discriminate|]. cbn [startswith] in H.
  apply andb_prop in H as [Hc H]. apply Z.eqb_eq in Hc as ->.
  cbn [List.length skipn_str app]. now rewrite <- (IH s H).
Qed.

Lemma search_between_sound (prefix : pystr) (term : char) (text m : pystr) :
  search_between prefix term text = Some m ->
  exists before after,
    text = before ++ prefix ++ m ++ term :: after
    /\ Forall (fun c => c <> term /\ c <> 10) m.
Proof.
  induction text as [|c text IH]; rewrite search_between_eq.
  - destruct (startswith prefix []) eqn:Hs; [|discriminate].
    destruct (lazy_until term _) as [m'|] eqn:Hl; [|discriminate].
    intros [= <-]. destruct prefix; [|discriminate]. discriminate.
  - destruct (startswith prefix (c :: text)) eqn:Hs.
    + destruct (lazy_until term _) as [m'|] eqn:Hl.
      * intros [= <-]. apply lazy_until_sound in Hl as (after & Hl & Hall).
        exists [], after. split; [|exact Hall].
        cbn [app]. rewrite <- Hl. now apply startswith_split.
      * intros H. destruct (IH H) as (before & after & -> & Hall).
        now exists (c :: before), after.
    + intros H. destruct (IH H) as (before & after & -> & Hall).
      now exists (c :: before), after.
Qed.

Lemma search_between_absent (prefix : pystr) (term : char) (text : pystr) :
  contains prefix text = false -> search_between prefix term text = None.
Proof.
  induction text as [|c text IH]; rewrite search_between_eq;
    cbn [contains]; intros H; apply orb_false_elim in H as [Hs H];
    rewrite Hs; [reflexivity | now apply IH].
Qed.

(** X1: a token [get_rogue_racoons_hash] returns stands in the text
    between the marker [oons" value="] and a double quote, and holds
    neither a double quote nor a line feed. *)
Theorem get_rogue_racoons_hash_sound (text token : pystr) :
  get_rogue_racoons_hash text = Ok token ->
  exists before after,
    text = before ++ payload_marker ++ token ++ [34] ++ after
    /\ Forall (fun c => c <> 34 /\ c <> 10) token.
Proof.
  unfold get_rogue_racoons_hash. cbv zeta. fold payload_marker.
  destruct (search_between payload_marker 34 text) as [m|] eqn:H;
    [|discriminate].
  intros [= <-]. exact (search_between_sound _ _ _ _ H).
Qed.

(** X2: when the first occurrence of the marker [oons" value="] is
    followed by a token free of double quotes and line feeds and then by a
    double quote, [get_rogue_racoons_hash] returns that token. *)
Theorem get_rogue_racoons_hash_complete (before token after : pystr) :
  Forall (fun c => c <> 34 /\ c <> 10) token ->
  find_first payload_marker
             (before ++ payload_marker ++ token ++ [34] ++ after)
  = Some (List.length before) ->
  get_rogue_racoons_hash (before ++ payload_marker ++ token ++ [34] ++ after)
  = Ok token.
Proof.
  intros Htoken Hfirst. unfold get_rogue_racoons_hash. cbv zeta.
  fold payload_marker.
  rewrite (search_between_first payload_marker 34 before
             (token ++ [34] ++ after) token Hfirst);
    [reflexivity|].
  now apply lazy_until_app.
Qed.

(** X3: a text that does not contain the marker of an extractor makes it
    raise its not-found error: [ursidae = ] for [get_ursidae_name],
    [kretzoi = ] for [_get_letters_map], [oons" value="] for
    [get_rogue_racoons_hash]. *)
Theorem extractors_marker_absent (rt : Runtime) (text : pystr) :
  (contains (py "ursidae = ") text = false ->
   get_ursidae_name rt text = Raise UrsidaeNotFound)
  /\ (contains (py "kretzoi = ") text = false ->
      _get_letters_map rt text = Raise MapNotFound)
  /\ (contains payload_marker text = false ->
      get_rogue_racoons_hash text = Raise HashNotFound).
Proof.
  split; [|split]; intros H.
  - unfold get_ursidae_name. now rewrite (search_between_absent _ 59 _ H).
  - unfold _get_letters_map. now rewrite (search_between_absent _ 59 _ H).
  - unfold get_rogue_racoons_hash. cbv zeta. fold payload_marker.
    now rewrite (search_between_absent _ 34 _ H).
Qed.

(** X4: a letter map [_get_letters_map] returns is what [json.loads]
    reads from the text between [kretzoi = ] and the next semicolon of the
    same line. *)
Theorem _get_letters_map_sound (rt : Runtime) (text : pystr) (map_ : json) :
  _get_letters_map rt text = Ok map_ ->
  exists before map_str after,
    text = before ++ py "kretzoi = " ++ map_str ++ [59] ++ after
    /\ Forall (fun c => c <> 59 /\ c <> 10) map_str
    /\ json_loads rt map_str = Ok map_.
Proof.
  unfold _get_letters_map.
  destruct (search_between (py "kretzoi = ") 59 text) as [m|] eqn:H;
    [|discriminate].
  destruct (json_loads rt m) as [v|e] eqn:Hj; [|destruct e; discriminate].
  intros [= <-].
  destruct (search_between_sound _ _ _ _ H) as (before & after & E & Hall).
  now exists before, m, after.
Qed.

(** When the only occurrence of the prefix is followed by a line feed
    before any terminator, nothing is found. *)
Lemma search_between_line_break (prefix : pystr) (term : char)
      (before body : pystr) :
  find_first prefix (before ++ prefix ++ body) = Some (List.length before) ->
  contains prefix (skipn_str 1 (prefix ++ body)) = false ->
  lazy_until term body = None ->
  search_between prefix term (before ++ prefix ++ body) = None.
Proof.
  intros Hfirst Hlater Hlazy. induction before as [|c before IH].
  - cbn [app] in *. rewrite search_between_eq.
    rewrite startswith_app, skipn_str_app, Hlazy.
    destruct (prefix ++ body) as [|x rest]; [reflexivity|].
    cbn [skipn_str] in Hlater. now apply search_between_absent.
  - cbn [app List.length] in *. cbn [find_first] in Hfirst.
    rewrite search_between_eq.
    destruct (startswith prefix (c :: before ++ prefix ++ body));
      [discriminate|].
    apply IH.
    destruct (find_first prefix (before ++ prefix ++ body)); cbn in Hfirst;
      congruence.
Qed.

Lemma lazy_until_line_break (term : char) (m after : pystr) :
  Forall (fun c => c <> term) m ->
  term <> 10 ->
  lazy_until term (m ++ 10 :: after) = None.
Proof.
  intros Hall Hterm. induction Hall as [|c m Hc _ IH]; cbn [app lazy_until].
  - destruct (Z.eqb_spec 10 term); [congruence | reflexivity].
  - destruct (Z.eqb_spec c term); [contradiction|].
    destruct (c =? 10); [reflexivity|]. now rewrite IH.
Qed.

(** X5: an assignment to [ursidae] whose list is continued on a following
    line is not found: when the only occurrence of [ursidae = ] is followed
    by a line feed before any semicolon, [get_ursidae_name] raises its
    not-found error. *)
Theorem get_ursidae_name_line_break (rt : Runtime)
        (before first_line after : pystr) :
  let text := before ++ py "ursidae = " ++ first_line ++ [10] ++ after in
  Forall (fun c => c <> 59) first_line ->
  find_first (py "ursidae = ") text = Some (List.length before) ->
  contains (py "ursidae = ")
           (py "rsidae = " ++ first_line ++ [10] ++ after) = false ->
  get_ursidae_name rt text = Raise UrsidaeNotFound.
Proof.
  intros text Hline Hfirst Hlater. unfold get_ursidae_name. subst text.
  rewrite (search_between_line_break (py "ursidae = ") 59 before
             (first_line ++ [10] ++ after) Hfirst).
  - reflexivity.
  - exact Hlater.
  - apply lazy_until_line_break; [exact Hline | discriminate].
Qed.

(** ** The identity name *)

Lemma chr_ok (z c : Z) : chr z = Ok c <-> (is_code_point z /\ c = z).
Proof.
  unfold chr, is_code_point.
  destruct ((0 <=? z) && (z <? 1114112)) eqn:E.
  - split; [intros [= <-]; split; [lia | reflexivity] | now intros [_ ->]].
  - split; [discriminate | intros [H _]; lia].
Qed.

Lemma py_chr_ok (v : json) (c : char) :
  py_chr v = Ok c <-> code_of v = Some c.
Proof.
  destruct v as [|b|z| | | |]; cbn [py_chr code_of];
    try (split; discriminate).
  - destruct b; (split; [intros H; apply chr_ok in H as [_ ->]; reflexivity|]);
      intros [= <-]; reflexivity.
  - destruct ((z <? -2147483648) || (2147483647 <? z)) eqn:Hov.
    + replace ((0 <=? z) && (z <? 1114112)) with false by lia.
      split; discriminate.
    + destruct ((0 <=? z) && (z <? 1114112)) eqn:E.
      * split; [intros H; apply chr_ok in H as [_ ->]; reflexivity|].
        intros [= <-]. apply chr_ok. unfold is_code_point. split; [lia|reflexivity].
      * split; [|discriminate]. intros H. apply chr_ok in H as [H _].
        unfold is_code_point in H. lia.
Qed.

Lemma code_of_code_point (v : json) (c : Z) :
  code_of v = Some c -> is_code_point c.
Proof.
  unfold is_code_point. destruct v as [|b|z| | | |]; cbn [code_of];
    try discriminate.
  - destruct b; intros [= <-]; lia.
  - destruct ((0 <=? z) && (z <? 1114112)) eqn:E; [|discriminate].
    intros [= <-]. lia.
Qed.

Lemma mapM_py_chr_ok (items : list json) (s : pystr) :
  mapM py_chr items = Ok s <-> map code_of items = map Some s.
Proof.
  revert s. induction items as [|v items IH]; intros s; cbn [mapM map].
  - split; [intros [= <-]; reflexivity|]. destruct s; [reflexivity | discriminate].
  - destruct (py_chr v) as [c|e] eqn:Hv; cbn [bind].
    + apply py_chr_ok in Hv.
      destruct (mapM py_chr items) as [cs|e] eqn:Hm; cbn [bind].
      * split.
        -- intros [= <-]. cbn [map]. rewrite Hv. f_equal. now apply IH.
        -- destruct s as [|c' s]; [discriminate|]. cbn [map].
           rewrite Hv. intros [= -> Hs]. apply IH in Hs.
           injection Hs as ->. reflexivity.
      * split; [discriminate|]. destruct s as [|c' s]; [discriminate|].
        cbn [map]. intros [= _ Hs]. apply IH in Hs. discriminate.
    + split; [discriminate|]. destruct s as [|c' s]; [discriminate|].
      cbn [map]. intros [= Hc _]. apply py_chr_ok in Hc. congruence.
Qed.

(** X6: [_convert_char_codes_to_str] turns a list into a string exactly
    when every element is an integer that is a code point or a boolean
    (read as 1 or 0); the string has the code of each element, in order. *)
Theorem _convert_char_codes_to_str_list (items : list json) (s : pystr) :
  _convert_char_codes_to_str (JArr items) = Ok s
  <-> map code_of items = map Some s.
Proof.
  unfold _convert_char_codes_to_str. cbn [py_iter bind].
  rewrite <- mapM_py_chr_ok.
  destruct (mapM py_chr items) as [cs|[]]; split; congruence.
Qed.

Lemma _convert_char_codes_to_str_code_points (v : json) (s : pystr) :
  _convert_char_codes_to_str v = Ok s -> Forall is_code_point s.
Proof.
  unfold _convert_char_codes_to_str.
  destruct (py_iter v) as [items|e] eqn:Hi; cbn [bind].
  - destruct (mapM py_chr items) as [cs|e] eqn:Hm.
    + intros [= <-]. apply mapM_py_chr_ok in Hm.
      clear Hi. revert cs Hm. induction items as [|x items IH];
        intros [|c cs] Hm; try discriminate; [constructor|].
      cbn [map] in Hm. injection Hm as Hc Hm. constructor.
      * exact (code_of_code_point x c Hc).
      * now apply IH.
    + destruct e; discriminate.
  - destruct e; discriminate.
Qed.

(** X7: a name [get_ursidae_name] returns is a Python string (each of
    its characters a code point, 0 to 0x10FFFF) converted from the value
    that [json.loads] reads between [ursidae = ] and the next semicolon of
    the same line. *)
Theorem get_ursidae_name_sound (rt : Runtime) (text s : pystr) :
  get_ursidae_name rt text = Ok s ->
  Forall is_code_point s
  /\ exists before char_codes_str after char_codes,
       text = before ++ py "ursidae = " ++ char_codes_str ++ [59] ++ after
       /\ Forall (fun c => c <> 59 /\ c <> 10) char_codes_str
       /\ json_loads rt char_codes_str = Ok char_codes
       /\ _convert_char_codes_to_str char_codes = Ok s.
Proof.
  unfold get_ursidae_name.
  destruct (search_between (py "ursidae = ") 59 text) as [m|] eqn:H;
    [|discriminate].
  destruct (json_loads rt m) as [v|e] eqn:Hj; [|destruct e; discriminate].
  intros Hc. split; [exact (_convert_char_codes_to_str_code_points v s Hc)|].
  destruct (search_between_sound _ _ _ _ H) as (before & after & E & Hall).
  now exists before, m, after, v.
Qed.

(** ** The session cookie, further *)

Lemma split_pieces_clean (sep : char) (s : pystr) :
  Forall (Forall (fun c => c <> sep)) (split sep s).
Proof.
  induction s as [|c s IH]; cbn [split]; [repeat constructor|].
  destruct (Z.eqb_spec c sep) as [->|Hc]; [now constructor|].
  destruct (split sep s) as [|piece pieces]; [repeat constructor; exact Hc|].
  inversion_clear IH as [|? ? Hp Hps]. constructor; [|exact Hps].
  now constructor.
Qed.

Lemma split_singleton (sep : char) (s v : pystr) :
  split sep s = [v] -> v = s /\ Forall (fun c => c <> sep) s.
Proof.
  revert v. induction s as [|c s IH]; intros v; cbn [split].
  - intros [= <-]. now split.
  - destruct (Z.eqb_spec c sep) as [->|Hc].
    + intros [= _ H]. now apply split_nonempty in H.
    + destruct (split sep s) as [|piece pieces] eqn:E;
        [now apply split_nonempty in E|].
      intros [= <- ->]. destruct (IH piece eq_refl) as [-> Hall].
      split; [reflexivity | now constructor].
Qed.

Lemma get_session_cookies_pieces (header : bytes) (key value : pystr) :
  get_session_cookies (Some header) = Ok (key, value) ->
  exists cookies_str,
    decode_utf8 header = Ok cookies_str
    /\ key = py "session"
    /\ Forall (fun c => c <> 61 /\ c <> 59) value
    /\ In (py "session=" ++ value) (split 59 cookies_str).
Proof.
  unfold get_session_cookies.
  destruct (decode_utf8 header) as [cookies_str|] eqn:Hheader;
    [|discriminate].
  cbn [bind]. intros H. exists cookies_str. split; [reflexivity|].
  revert H.
  destruct (find _ (split 59 cookies_str)) as [piece|] eqn:Hfind;
    [|discriminate].
  apply find_some in Hfind as [Hin Hstart].
  pose proof (split_pieces_clean 59 cookies_str) as Hclean.
  rewrite Forall_forall in Hclean. specialize (Hclean piece Hin).
  apply startswith_split in Hstart.
  remember (skipn_str (List.length (py "session=")) piece) as rest eqn:Hr.
  clear Hr. subst piece.
  apply Forall_app in Hclean as [_ Hclean].
  change (py "session=" ++ rest) with (py "session" ++ 61 :: rest).
  rewrite split_app_sep by literal_chars.
  destruct (split 61 rest) as [|v [|? ?]] eqn:Hsplit; try discriminate.
  intros [= <- <-]. apply split_singleton in Hsplit as [-> Hno].
  split; [reflexivity|]. split; [|exact Hin].
  rewrite Forall_forall in *. intros c Hc. split; auto.
Qed.

(** X8: whenever [get_session_cookies] returns a pair, the header is
    UTF-8, the key is [session], the value holds neither [=] nor [;], and
    [session=<value>] is one of the pieces of the text of the header
    between semicolons. *)
Theorem get_session_cookies_ok_shape (header : bytes) (key value : pystr) :
  get_session_cookies (Some header) = Ok (key, value) ->
  exists cookies_str,
    decode_utf8 header = Ok cookies_str
    /\ key = py "session"
    /\ Forall (fun c => c <> 61 /\ c <> 59) value
    /\ In (py "session=" ++ value) (split 59 cookies_str).
Proof. exact (get_session_cookies_pieces header key value). Qed.

(** X9: a [session=] attribute that is not the first piece of the header
    and follows the semicolon after a space is not found: for a header
    whose text is [<first>; session=<value>] the error is that of an absent
    session cookie. *)
Theorem get_session_cookies_after_space (header : bytes)
        (first value : pystr) :
  decode_utf8 header = Ok (first ++ py "; session=" ++ value) ->
  Forall (fun c => c <> 59) first ->
  Forall (fun c => c <> 59) value ->
  startswith (py "session=") first = false ->
  get_session_cookies (Some header) = Raise SessionCookieAbsent.
Proof.
  intros Hheader Hfirst Hvalue Hstart.
  apply (get_session_cookies_absent header _ Hheader).
  change (py "; session=" ++ value) with (59 :: py " session=" ++ value).
  rewrite split_app_sep by exact Hfirst.
  rewrite split_no_sep.
  - constructor; [exact Hstart|]. constructor; [reflexivity | constructor].
  - apply Forall_app. split; [literal_chars | exact Hvalue].
Qed.

(** ** The text of a hash *)

Lemma b64_char_symbol (x : Z) : b64_symbol (b64_char (Z.land x 63)).
Proof.
  left. unfold b64_char. apply nth_In.
  pose proof (sextet_range x) as H.
  change (List.length b64_alphabet) with 64%nat. lia.
Qed.

Lemma b64encode_symbols (data : bytes) : Forall b64_symbol (b64encode data).
Proof.
  induction data as [|a|a b|a b c tl IH] using list_ind3;
    cbn [b64encode]; cbv zeta;
    repeat (constructor; [first [apply b64_char_symbol | now right]|]);
    [constructor | constructor | constructor | exact IH].
Qed.

Lemma b64encode_length (data : bytes) :
  exists groups, List.length (b64encode data) = (4 * groups)%nat.
Proof.
  induction data as [|a|a b|a b c tl [n IH]] using list_ind3.
  - now exists 0%nat.
  - now exists 1%nat.
  - now exists 1%nat.
  - exists (S n). cbn [b64encode]. cbv zeta. cbn [List.length].
    rewrite IH. lia.
Qed.

(** ** The bytes of UTF-8 *)

Ltac byte_bounds :=
  repeat match goal with
    | |- Forall _ [] => constructor
    | |- Forall _ (_ :: _) => constructor
    end;
  Z.div_mod_to_equations; lia.

Lemma Ok_inj {A} (a b : A) : Ok a = Ok b -> a = b.
Proof. now intros [= ->]. Qed.

Lemma utf8_char_bytes (c : char) (b : bytes) :
  utf8_char c = Ok b -> Forall is_byte b.
Proof.
  unfold utf8_char, is_byte.
  destruct (c <? 0) eqn:H0; [discriminate|].
  destruct (c <? 128) eqn:H1.
  { intros H. apply Ok_inj in H. subst b. byte_bounds. }
  destruct (c <? 2048) eqn:H2.
  { intros H. apply Ok_inj in H. subst b. bits_to_arith. byte_bounds. }
  destruct (c <? 65536) eqn:H3.
  { destruct ((55296 <=? c) && (c <=? 57343)); [discriminate|].
    intros H. apply Ok_inj in H. subst b. bits_to_arith. byte_bounds. }
  destruct (c <? 1114112) eqn:H4; [|discriminate].
  intros H. apply Ok_inj in H. subst b. bits_to_arith. byte_bounds.
Qed.

Lemma encode_utf8_bytes (s : pystr) (b : bytes) :
  encode_utf8 s = Ok b -> Forall is_byte b.
Proof.
  revert b. induction s as [|c s IH]; intros b; cbn [encode_utf8].
  - intros [= <-]. constructor.
  - destruct (utf8_char c) as [bc|] eqn:Hc; [|discriminate]. cbn [bind].
    destruct (encode_utf8 s) as [bs|]; [|discriminate]. cbn [bind].
    intros [= <-]. apply Forall_app. split.
    + exact (utf8_char_bytes c bc Hc).
    + now apply IH.
Qed.

(** ** UTF-8 read back *)

Lemma utf8_char_decodes (c : char) (bs rest : bytes) :
  utf8_char c = Ok bs ->
  decode_utf8 (bs ++ rest) = (s <- decode_utf8 rest ;; Ok (c :: s)).
Proof.
  unfold utf8_char.
  destruct (c <? 0) eqn:H0; [discriminate|].
  destruct (c <? 128) eqn:H1.
  { intros H. apply Ok_inj in H. subst bs. cbn [app decode_utf8].
    replace ((0 <=? c) && (c <? 128)) with true by lia. reflexivity. }
  destruct (c <? 2048) eqn:H2.
  { intros H. apply Ok_inj in H. subst bs. bits_to_arith.
    set (b0 := 192 + c / 64). set (b1 := 128 + c mod 64).
    assert (Hb0 : 194 <= b0 <= 223) by (subst b0; Z.div_mod_to_equations; lia).
    assert (Hb1 : 128 <= b1 <= 191) by (subst b1; Z.div_mod_to_equations; lia).
    assert (Hc : (b0 - 192) * 64 + (b1 - 128) = c)
      by (subst b0 b1; Z.div_mod_to_equations; lia).
    clearbody b0 b1. cbn [app decode_utf8]. unfold is_continuation.
    replace ((0 <=? b0) && (b0 <? 128)) with false by lia.
    replace ((194 <=? b0) && (b0 <=? 223)) with true by lia.
    replace ((128 <=? b1) && (b1 <=? 191)) with true by lia.
    now rewrite Hc. }
  destruct (c <? 65536) eqn:H3.
  { destruct ((55296 <=? c) && (c <=? 57343)) eqn:Hs; [discriminate|].
    intros H. apply Ok_inj in H. subst bs. bits_to_arith.
    set (b0 := 224 + c / 4096). set (b1 := 128 + (c / 64) mod 64).
    set (b2 := 128 + c mod 64).
    assert (Hb0 : 224 <= b0 <= 239) by (subst b0; Z.div_mod_to_equations; lia).
    assert (Hb1 : 128 <= b1 <= 191) by (subst b1; Z.div_mod_to_equations; lia).
    assert (Hb2 : 128 <= b2 <= 191) by (subst b2; Z.div_mod_to_equations; lia).
    assert (Hlow : b0 = 224 -> 160 <= b1)
      by (subst b0 b1; Z.div_mod_to_equations; lia).
    assert (Hhigh : b0 = 237 -> b1 <= 159)
      by (subst b0 b1; Z.div_mod_to_equations; lia).
    assert (Hc : (b0 - 224) * 4096 + (b1 - 128) * 64 + (b2 - 128) = c)
      by (subst b0 b1 b2; Z.div_mod_to_equations; lia).
    clearbody b0 b1 b2. cbn [app decode_utf8].
    unfold second_of_three, is_continuation.
    replace ((0 <=? b0) && (b0 <? 128)) with false by lia.
    replace ((194 <=? b0) && (b0 <=? 223)) with false by lia.
    replace ((224 <=? b0) && (b0 <=? 239)) with true by lia.
    replace ((128 <=? b2) && (b2 <=? 191)) with true by lia.
    replace (if b0 =? 224 then (160 <=? b1) && (b1 <=? 191)
             else if b0 =? 237 then (128 <=? b1) && (b1 <=? 159)
                  else (128 <=? b1) && (b1 <=? 191)) with true
      by (destruct (Z.eqb_spec b0 224); [lia|];
          destruct (Z.eqb_spec b0 237); lia).
    cbn [andb]. now rewrite Hc. }
  destruct (c <? 1114112) eqn:H4; [|discriminate].
  intros H. apply Ok_inj in H. subst bs. bits_to_arith.
  set (b0 := 240 + c / 262144). set (b1 := 128 + (c / 4096) mod 64).
  set (b2 := 128 + (c / 64) mod 64). set (b3 := 128 + c mod 64).
  assert (Hb0 : 240 <= b0 <= 244) by (subst b0; Z.div_mod_to_equations; lia).
  assert (Hb1 : 128 <= b1 <= 191) by (subst b1; Z.div_mod_to_equations; lia).
  assert (Hb2 : 128 <= b2 <= 191) by (subst b2; Z.div_mod_to_equations; lia).
  assert (Hb3 : 128 <= b3 <= 191) by (subst b3; Z.div_mod_to_equations; lia).
  assert (Hlow : b0 = 240 -> 144 <= b1)
    by (subst b0 b1; Z.div_mod_to_equations; lia).
  assert (Hhigh : b0 = 244 -> b1 <= 143)
    by (subst b0 b1; Z.div_mod_to_equations; lia).
  assert (Hc : (b0 - 240) * 262144 + (b1 - 128) * 4096 + (b2 - 128) * 64
               + (b3 - 128) = c)
    by (subst b0 b1 b2 b3; Z.div_mod_to_equations; lia).
  clearbody b0 b1 b2 b3. cbn [app decode_utf8].
  unfold second_of_four, is_continuation.
  replace ((0 <=? b0) && (b0 <? 128)) with false by lia.
  replace ((194 <=? b0) && (b0 <=? 223)) with false by lia.
  replace ((224 <=? b0) && (b0 <=? 239)) with false by lia.
  replace ((240 <=? b0) && (b0 <=? 244)) with true by lia.
  replace ((128 <=? b2) && (b2 <=? 191)) with true by lia.
  replace ((128 <=? b3) && (b3 <=? 191)) with true by lia.
  replace (if b0 =? 240 then (144 <=? b1) && (b1 <=? 191)
           else if b0 =? 244 then (128 <=? b1) && (b1 <=? 143)
                else (128 <=? b1) && (b1 <=? 191)) with true
    by (destruct (Z.eqb_spec b0 240); [lia|];
        destruct (Z.eqb_spec b0 244); lia).
  cbn [andb]. now rewrite Hc.
Qed.

(** Decoding gives back the text that was encoded. *)
Lemma decode_utf8_encode_utf8 (s : pystr) (b : bytes) :
  encode_utf8 s = Ok b -> decode_utf8 b = Ok s.
Proof.
  revert b. induction s as [|c s IH]; intros b; cbn [encode_utf8].
  - now intros [= <-].
  - destruct (utf8_char c) as [bc|] eqn:Hc; [|discriminate]. cbn [bind].
    destruct (encode_utf8 s) as [bs|] eqn:Hs; [|discriminate]. cbn [bind].
    intros [= <-]. rewrite (utf8_char_decodes c bc bs Hc).
    now rewrite (IH bs eq_refl).
Qed.

(** ** Joining a path and a query to a base URL *)

Lemma partition_at_absent (sep : char) (s : pystr) :
  Forall (fun c => c <> sep) s -> partition_at sep s = (s, None).
Proof.
  induction 1 as [|c s Hc _ IH]; [reflexivity|]. cbn [partition_at].
  destruct (Z.eqb_spec c sep); [contradiction|]. now rewrite IH.
Qed.


Lemma existsb_none {A} (f : A -> bool) (l : list A) :
  Forall (fun x => f x = false) l -> existsb f l = false.
Proof.
  induction 1 as [|x l Hx _ IH]; [reflexivity|]. cbn [existsb].
  now rewrite Hx, IH.
Qed.

Lemma plain_path_chars (path : pystr) :
  plain_path path = true ->
  Forall (fun c => c <> 35 /\ c <> 63 /\ c <> 59
                   /\ is_removed_char c = false) path.
Proof.
  unfold plain_path. intros H.
  apply andb_prop in H as [H _]. apply andb_prop in H as [H _].
  apply andb_prop in H as [H _]. rewrite forallb_forall in H.
  apply Forall_forall. intros c Hc. specialize (H c Hc).
  destruct (is_removed_char c); [now rewrite !orb_true_r in H|].
  rewrite orb_false_r in H. repeat split; try reflexivity; lia.
Qed.



Lemma split_reference_path (path : pystr) :
  plain_path path = true -> split_reference path = Some (path, [], []).
Proof.
  intros Hpath. pose proof (plain_path_chars path Hpath) as Hchars.
  unfold split_reference.
  rewrite partition_at_absent
    by (eapply Forall_impl; [|exact Hchars]; now intros c (? & _)).
  rewrite partition_at_absent
    by (eapply Forall_impl; [|exact Hchars]; now intros c (_ & ? & _)).
  replace (existsb is_removed_char path) with false.
  2:{ symmetry. apply existsb_none.
      eapply Forall_impl; [|exact Hchars]. now intros c (_ & _ & _ & ?). }
  replace (existsb (Z.eqb 59) path) with false.
  2:{ symmetry. apply existsb_none.
      eapply Forall_impl; [|exact Hchars]. intros c (_ & _ & ? & _). lia. }
  unfold plain_path in Hpath.
  apply andb_prop in Hpath as [Hpath Hdots].
  apply andb_prop in Hpath as [Hpath Hdouble].
  apply andb_prop in Hpath as [_ Hslash].
  now rewrite Hslash, Hdouble, Hdots.
Qed.


Lemma urljoin_path (rt : Runtime) (base origin path : pystr) :
  url_origin base = Some origin -> plain_path path = true ->
  urljoin rt base path = Ok (origin ++ path).
Proof.
  intros Horigin Hpath. unfold urljoin.
  rewrite Horigin, (split_reference_path path Hpath).
  now rewrite !app_nil_r.
Qed.


(** ** The middleware *)

Lemma _get_random_platform_in (draw : nat) :
  In (_get_random_platform draw) all_platforms.
Proof.
  unfold _get_random_platform. apply nth_In.
  apply Nat.mod_upper_bound. discriminate.
Qed.

(** X10: the platform the middleware draws is an entry of the table, and
    every entry of the table can be drawn. *)
Theorem _get_random_platform_range :
  (forall draw, In (_get_random_platform draw) all_platforms)
  /\ (forall platform,
        In platform all_platforms ->
        exists draw, _get_random_platform draw = platform).
Proof.
  split; [exact _get_random_platform_in|].
  intros platform Hin. apply (In_nth _ _ {| platform_os := []; platform_ua := [] |})
    in Hin as (n & Hn & <-).
  exists n. unfold _get_random_platform. now rewrite Nat.mod_small.
Qed.

(** X11: the middleware leaves a request without the [fake_platform] key
    as it is; on a request with the key it sets the user agent and the
    operating system of one and the same entry of the table, and changes
    nothing else: URL, method, cookies, body, callback, errback, filter
    flag and the other meta keys stay. *)
Theorem process_request_effect (draw : nat) (request : Request) :
  let request' := process_request draw request in
  (meta_fake_platform (req_meta request) = None -> request' = request)
  /\ (meta_fake_platform (req_meta request) <> None ->
      exists platform,
        In platform all_platforms
        /\ user_agent (req_headers request') = Some (platform_ua platform)
        /\ meta_os (req_meta request') = Some (platform_os platform))
  /\ req_url request' = req_url request
  /\ req_method request' = req_method request
  /\ req_cookies request' = req_cookies request
  /\ req_body request' = req_body request
  /\ req_callback request' = req_callback request
  /\ req_errback request' = req_errback request
  /\ req_dont_filter request' = req_dont_filter request
  /\ meta_fake_platform (req_meta request')
     = meta_fake_platform (req_meta request)
  /\ meta_group (req_meta request') = meta_group (req_meta request)
  /\ meta_carnivore_value (req_meta request')
     = meta_carnivore_value (req_meta request)
  /\ meta_rats_hash (req_meta request') = meta_rats_hash (req_meta request).
Proof.
  intros request'. subst request'. unfold process_request.
  destruct (meta_fake_platform (req_meta request)) as [flag|] eqn:Hflag.
  - split; [discriminate|]. split; [|cbn; rewrite ?Hflag; repeat split].
    intros _. exists (_get_random_platform draw).
    split; [apply _get_random_platform_in | now split].
  - split; [reflexivity|]. split; [congruence|]. rewrite ?Hflag. repeat split.
Qed.

(** ** Loops that succeed *)

Lemma mapM_ok {A B} (f : A -> result B) (xs : list A) (ys : list B) :
  mapM f xs = Ok ys -> Forall2 (fun x y => f x = Ok y) xs ys.
Proof.
  revert ys. induction xs as [|x xs IH]; intros ys; cbn [mapM].
  - intros [= <-]. constructor.
  - destruct (f x) as [y|] eqn:Hx; [|discriminate]. cbn [bind].
    destruct (mapM f xs) as [ys'|]; [|discriminate]. cbn [bind].
    intros [= <-]. constructor; [exact Hx | now apply IH].
Qed.

(** * Properties of the pipeline *)

Section PipelineProperties.

Variable rt : Runtime.

#[local] Set Default Proof Using "Type".

Local Abbreviation json_loads := (json_loads rt).
Local Abbreviation get_ursidae_name := (get_ursidae_name rt).
Local Abbreviation _get_letters_map := (_get_letters_map rt).
Local Abbreviation urljoin := (urljoin rt).
Local Abbreviation py_str := (py_str rt).
Local Abbreviation get_base_url := (get_base_url rt).
Local Abbreviation resp_urljoin := (resp_urljoin rt).
Local Abbreviation get_rats_hash := (get_rats_hash rt).
Local Abbreviation get_daxiongmao_file_url := (get_daxiongmao_file_url rt).
Local Abbreviation parse := (parse rt).
Local Abbreviation parse_hastorni_js_file := (parse_hastorni_js_file rt).
Local Abbreviation parse_voting_result := (parse_voting_result rt).
Local Abbreviation run_callback := (run_callback rt).
Local Abbreviation react := (react rt).
Local Abbreviation sent := (sent rt).
Local Abbreviation attempt := (attempt rt).
Local Abbreviation chain := (chain rt).
Local Abbreviation next_request := (next_request rt).
Local Abbreviation sample_submission := (sample_submission rt).
Local Abbreviation sample_requests := (sample_requests rt).
Local Abbreviation sample_payload_request := (sample_payload_request rt).

(** ** The group hash *)

Lemma mapM_letters_found (members : list (pystr * json)) (code : char -> Z)
      (letters : pystr) :
  (forall c, In c letters -> dict_get [c] members = Some (JInt (code c))) ->
  mapM (fun letter => v <- py_getitem (JObj members) letter ;; Ok (py_str v))
       (map (fun c => [c]) letters)
  = Ok (map (fun c => str_int (code c)) letters).
Proof.
  set (f := fun letter : pystr => _).
  induction letters as [|c letters IH]; intros Hall; [reflexivity|].
  cbn [map mapM]. unfold f at 1. cbn [py_getitem].
  rewrite (Hall c (or_introl eq_refl)).
  cbn [bind py_str]. rewrite IH; [reflexivity|].
  intros c' Hin. apply Hall. now right.
Qed.

Lemma mapM_letters_absent (members : list (pystr * json)) (letters : pystr) :
  (exists c, In c letters /\ dict_get [c] members = None) ->
  exists c, In c letters /\ dict_get [c] members = None
    /\ mapM (fun letter => v <- py_getitem (JObj members) letter ;; Ok (py_str v))
            (map (fun c => [c]) letters)
       = Raise (KeyError [c]).
Proof.
  set (f := fun letter : pystr => _).
  induction letters as [|c letters IH]; intros (c0 & Hin & Habs); [destruct Hin|].
  cbn [map mapM]. unfold f at 1. cbn [py_getitem].
  destruct (dict_get [c] members) as [v|] eqn:Hc.
  - destruct Hin as [->|Hin]; [congruence|].
    destruct IH as (c1 & Hin1 & Habs1 & E); [now exists c0|].
    exists c1. split; [now right|]. split; [exact Habs1|].
    cbn [bind]. now rewrite E.
  - exists c. split; [now left|]. split; [exact Hc | reflexivity].
Qed.

(** C1: for a letter map that gives an integer code to every character of
    the group name, [get_rats_hash] returns a base64 string whose decoding
    is the decimal codes of the letters of the name, in name order, joined
    by [|]. *)
Theorem get_rats_hash_decodes (response : Response)
        (members : list (pystr * json)) (group : Group) (code : char -> Z) :
  _get_letters_map (resp_text response) = Ok (JObj members) ->
  meta_group (resp_meta response) = Some group ->
  (forall c, In c (name group) ->
             dict_get [c] members = Some (JInt (code c))) ->
  let content := join (py "|") (map (fun c => str_int (code c)) (name group)) in
  get_rats_hash response = Ok (b64encode content)
  /\ b64decode (b64encode content) = Some content.
Proof.
  intros Hmap Hgroup Hall content.
  assert (Hascii : Forall is_ascii content).
  { subst content. rewrite <- (map_map code str_int). apply rats_content_ascii. }
  split.
  - unfold get_rats_hash. rewrite Hmap, Hgroup. cbn [bind getitem].
    rewrite (mapM_letters_found members code (name group) Hall). cbn [bind].
    fold content. rewrite (encode_utf8_ascii content Hascii). reflexivity.
  - apply b64decode_b64encode, is_ascii_byte, Hascii.
Qed.

(** C8 (the code departs from it): when a character of the group name is
    absent from the letter map, the lookup [letters_map[letter]] raises the
    built-in [KeyError] with the first absent character, and
    [get_rats_hash], which catches nothing, lets it through as it is. *)
Theorem get_rats_hash_unknown_letter (response : Response)
        (members : list (pystr * json)) (group : Group) :
  _get_letters_map (resp_text response) = Ok (JObj members) ->
  meta_group (resp_meta response) = Some group ->
  (exists c, In c (name group) /\ dict_get [c] members = None) ->
  exists c, In c (name group) /\ dict_get [c] members = None
    /\ get_rats_hash response = Raise (KeyError [c]).
Proof.
  intros Hmap Hgroup Habs.
  destruct (mapM_letters_absent members (name group) Habs)
    as (c & Hin & Hc & E).
  exists c. split; [exact Hin|]. split; [exact Hc|].
  unfold get_rats_hash. rewrite Hmap, Hgroup. cbn [bind getitem].
  now rewrite E.
Qed.

(** ** The stage-3 URL *)



(** ** The transaction *)

Lemma bind_ok {A B} (r : result A) (k : A -> result B) (b : B) :
  bind r k = Ok b -> exists a, r = Ok a /\ k a = Ok b.
Proof. destruct r as [a|e]; [intros H; now exists a | discriminate]. Qed.

Lemma getitem_ok {A} (key : string) (entry : option A) (a : A) :
  getitem key entry = Ok a -> entry = Some a.
Proof. destruct entry; [intros [= ->]; reflexivity | discriminate]. Qed.

Ltac inv_bind H :=
  repeat match type of H with
    | bind _ _ = Ok _ =>
        let a := fresh "a" in
        let E := fresh "E" in
        apply bind_ok in H as (a & E & H)
    | (let _ := _ in _) = Ok _ => cbv zeta in H
    | (let '(_, _) := ?p in _) = Ok _ => destruct p
    end.

Ltac inv_ok :=
  repeat match goal with
    | H : Ok _ = Ok _ |- _ => injection H as H; try subst
    | H : getitem _ _ = Ok _ |- _ => apply getitem_ok in H
    end.

Lemma process_request_plain (draw : nat) (q : Request) :
  meta_fake_platform (req_meta q) = None -> process_request draw q = q.
Proof. unfold process_request. now intros ->. Qed.

Lemma parse_ok (response : Response) (rs : list Request) (group : Group) :
  meta_group (resp_meta response) = Some group ->
  parse response = Ok rs ->
  exists q, rs = [q]
    /\ req_callback q = cb_parse_hastorni_js_file
    /\ req_errback q = None
    /\ meta_fake_platform (req_meta q) = None
    /\ meta_group (req_meta q) = Some group.
Proof.
  intros Hg H. unfold parse in H. rewrite Hg in H. cbn [getitem] in H.
  inv_bind H. inv_ok. eexists. split; [reflexivity|]. now cbn.
Qed.

Lemma parse_hastorni_js_file_ok (response : Response) (rs : list Request)
      (group : Group) :
  meta_group (resp_meta response) = Some group ->
  parse_hastorni_js_file response = Ok rs ->
  exists q h, rs = [q]
    /\ req_callback q = cb_parse_daxiongmao_js_file
    /\ req_errback q = None
    /\ meta_fake_platform (req_meta q) = None
    /\ meta_group (req_meta q) = Some group
    /\ meta_rats_hash (req_meta q) = Some h
    /\ get_rats_hash response = Ok h.
Proof.
  intros Hg H. unfold parse_hastorni_js_file in H. rewrite Hg in H.
  cbn [getitem] in H. inv_bind H. inv_ok.
  eexists. eexists. split; [reflexivity|]. cbn. now repeat split.
Qed.

Lemma parse_daxiongmao_js_file_ok (response : Response) (rs : list Request)
      (group : Group) :
  meta_group (resp_meta response) = Some group ->
  parse_daxiongmao_js_file response = Ok rs ->
  exists q t h, rs = [q]
    /\ req_callback q = cb_parse_voting_result
    /\ req_errback q = Some eb_handle_vote_failure
    /\ meta_fake_platform (req_meta q) = None
    /\ meta_group (req_meta q) = Some group
    /\ req_method q = py "POST"
    /\ req_url q = voting_url
    /\ req_body q = FormEncoded (form_fields t (name group) (vote group) h)
    /\ get_rogue_racoons_hash (resp_text response) = Ok t
    /\ meta_rats_hash (resp_meta response) = Some h.
Proof.
  intros Hg H. unfold parse_daxiongmao_js_file in H. rewrite Hg in H.
  cbn [getitem] in H. inv_bind H. inv_ok.
  eexists. eexists. eexists. split; [reflexivity|]. cbn. now repeat split.
Qed.

Lemma start_request_ok (group : Group) (draw : nat) :
  request_ok group (process_request draw (send_group_to_vote group)).
Proof.
  split; [reflexivity|]. cbn. split; [reflexivity|]. now exists draw.
Qed.

(** Every request sent in the transaction of a group carries that group;
    only the submission has an errback; the submission is a POST of the
    four fields. *)
Lemma sent_ok (group : Group) (q : Request) :
  sent group q -> request_ok group q.
Proof.
  induction 1 as [draw | request o request' draw Hsent IH Hin].
  - apply start_request_ok.
  - destruct IH as [Hgroup Hstage]. destruct o as [reply|].
    + (* a response arrived: the callback of the request ran *)
      cbn [react] in Hin. unfold run_callback in Hin.
      unfold stage_of in Hstage.
      change (resp_request (respond request reply)) with request in Hin.
      assert (Hmeta : meta_group (resp_meta (respond request reply))
                      = Some group) by exact Hgroup.
      destruct (req_callback request) eqn:Hcb.
      * destruct (parse (respond request reply)) as [rs|e] eqn:Hparse;
          [|destruct Hin].
        destruct (parse_ok _ _ _ Hmeta Hparse)
          as (q & -> & Hc & He & Hf & Hg).
        cbn [bind] in Hin. destruct Hin as [<-|[]].
        rewrite (process_request_plain draw q Hf).
        split; [exact Hg|]. unfold stage_of. rewrite Hc. now split.
      * destruct (parse_hastorni_js_file (respond request reply))
          as [rs|e] eqn:Hparse; [|destruct Hin].
        destruct (parse_hastorni_js_file_ok _ _ _ Hmeta Hparse)
          as (q & h & -> & Hc & He & Hf & Hg & Hh & Hrats).
        cbn [bind] in Hin. destruct Hin as [<-|[]].
        rewrite (process_request_plain draw q Hf).
        split; [exact Hg|]. unfold stage_of. rewrite Hc.
        now split.
      * destruct (parse_daxiongmao_js_file (respond request reply))
          as [rs|e] eqn:Hparse; [|destruct Hin].
        destruct (parse_daxiongmao_js_file_ok _ _ _ Hmeta Hparse)
          as (q & t & h & -> & Hc & He & Hf & Hg & Hm & _ & Hb & Ht & Hh).
        cbn [bind] in Hin. destruct Hin as [<-|[]].
        rewrite (process_request_plain draw q Hf).
        split; [exact Hg|]. unfold stage_of. rewrite Hc.
        split; [exact He|]. split; [exact Hf|]. split; [exact Hm|].
        now exists t, h.
      * destruct (parse_voting_result (respond request reply));
          destruct Hin.
    + (* the download failed: the errback of the request ran, if any *)
      cbn [react] in Hin. unfold stage_of in Hstage.
      destruct (req_errback request) as [[]|] eqn:Herr; [|destruct Hin].
      unfold handle_vote_failure in Hin. rewrite Hgroup in Hin.
      cbn in Hin. destruct Hin as [<-|[]].
      apply start_request_ok.
Qed.

Lemma submission_fields_of (group : Group) (q : Request) :
  sent group q -> stage_of q = Submission ->
  exists t h,
    req_body q = FormEncoded (form_fields t (name group) (vote group) h).
Proof.
  intros Hsent Hstage. destruct (sent_ok group q Hsent) as [_ H].
  rewrite Hstage in H. destruct H as (_ & _ & _ & t & h & Hb).
  now exists t, h.
Qed.

(** ** The shape of the callbacks' results *)

Lemma parse_inv (response : Response) (rs : list Request) :
  parse response = Ok rs ->
  exists group key value carnivore_value url os,
    meta_group (resp_meta response) = Some group
    /\ get_session_cookies (resp_set_cookie response) = Ok (key, value)
    /\ get_carnivore_value response = Ok carnivore_value
    /\ resp_urljoin response (py "/hastorni.js") = Ok url
    /\ meta_os (resp_meta response) = Some os
    /\ rs = [ {| req_url := url;
                 req_method := py "GET";
                 req_headers := req_headers (resp_request response);
                 req_cookies := [(key, value)];
                 req_body := NoBody;
                 req_callback := cb_parse_hastorni_js_file;
                 req_errback := None;
                 req_dont_filter := true;
                 req_meta := {| meta_fake_platform := None;
                                meta_group := Some group;
                                meta_os := Some os;
                                meta_carnivore_value := Some carnivore_value;
                                meta_rats_hash := None |} |} ].
Proof.
  intros H. unfold parse in H. inv_bind H. inv_ok.
  repeat match goal with
    | p : (pystr * pystr)%type |- _ => destruct p
    end.
  repeat eexists; eauto.
Qed.

Lemma parse_hastorni_js_file_inv (response : Response) (rs : list Request) :
  parse_hastorni_js_file response = Ok rs ->
  exists group ursidae_name url rats_hash,
    meta_group (resp_meta response) = Some group
    /\ get_ursidae_name (resp_text response) = Ok ursidae_name
    /\ get_daxiongmao_file_url response ursidae_name = Ok url
    /\ get_rats_hash response = Ok rats_hash
    /\ rs = [ {| req_url := url;
                 req_method := py "GET";
                 req_headers := req_headers (resp_request response);
                 req_cookies := req_cookies (resp_request response);
                 req_body := NoBody;
                 req_callback := cb_parse_daxiongmao_js_file;
                 req_errback := None;
                 req_dont_filter := false;
                 req_meta := {| meta_fake_platform := None;
                                meta_group := Some group;
                                meta_os := None;
                                meta_carnivore_value := None;
                                meta_rats_hash := Some rats_hash |} |} ].
Proof.
  intros H. unfold parse_hastorni_js_file in H. inv_bind H. inv_ok.
  repeat eexists; eauto.
Qed.

Lemma parse_daxiongmao_js_file_inv (response : Response) (rs : list Request) :
  parse_daxiongmao_js_file response = Ok rs ->
  exists group rogue_racoons key value rats_hash,
    meta_group (resp_meta response) = Some group
    /\ get_rogue_racoons_hash (resp_text response) = Ok rogue_racoons
    /\ get_session_cookies (resp_set_cookie response) = Ok (key, value)
    /\ meta_rats_hash (resp_meta response) = Some rats_hash
    /\ rs = [ {| req_url := voting_url;
                 req_method := py "POST";
                 req_headers := req_headers (resp_request response);
                 req_cookies := [(key, value)];
                 req_body :=
                   FormEncoded (form_fields rogue_racoons (name group)
                                            (vote group) rats_hash);
                 req_callback := cb_parse_voting_result;
                 req_errback := Some eb_handle_vote_failure;
                 req_dont_filter := false;
                 req_meta := {| meta_fake_platform := None;
                                meta_group := Some group;
                                meta_os := None;
                                meta_carnivore_value := None;
                                meta_rats_hash := None |} |} ].
Proof.
  intros H. unfold parse_daxiongmao_js_file in H. inv_bind H. inv_ok.
  repeat match goal with
    | p : (pystr * pystr)%type |- _ => destruct p
    end.
  repeat eexists; eauto.
Qed.

Lemma get_daxiongmao_file_url_inv (response : Response)
      (ursidae_name url : pystr) :
  get_daxiongmao_file_url response ursidae_name = Ok url ->
  exists ua os carnivore_value identity base,
    user_agent (req_headers (resp_request response)) = Some ua
    /\ meta_os (resp_meta response) = Some os
    /\ meta_carnivore_value (resp_meta response) = Some carnivore_value
    /\ encode_utf8 (ua ++ ursidae_name ++ os) = Ok identity
    /\ get_base_url response = Ok base
    /\ urljoin base (py "/daxiongmao.js?" ++ carnivore_value ++ py "="
                     ++ b64encode identity ++ py "&key=aadfa") = Ok url.
Proof.
  intros H. unfold get_daxiongmao_file_url, resp_urljoin in H.
  inv_bind H. inv_ok. repeat eexists; eauto.
Qed.

Lemma get_session_cookies_key (headers : option bytes) (key value : pystr) :
  get_session_cookies headers = Ok (key, value) -> key = py "session".
Proof.
  destruct headers as [header|]; [|discriminate].
  intros H. now apply get_session_cookies_pieces in H as (? & _ & ? & _).
Qed.

(** ** The attempts of a transaction *)

(** The requests of the attempts are the requests sent. *)
Lemma attempt_sent (group : Group) (history : list (Request * Reply))
      (q : Request) :
  attempt group history q -> sent group q.
Proof.
  induction 1 as [draw
                 | history request reply request' draw _ IH Hin
                 | history request request' draw _ IH Hin].
  - apply sent_start.
  - exact (sent_next rt group request (Received reply) request' draw IH Hin).
  - exact (sent_next rt group request TransportFailure request' draw IH Hin).
Qed.

Lemma sent_attempt (group : Group) (q : Request) :
  sent group q -> exists history, attempt group history q.
Proof.
  induction 1 as [draw | request o request' draw _ (history & IH) Hin].
  - exists []. apply attempt_start.
  - destruct o as [reply|].
    + exists (history ++ [(request, reply)]).
      now apply attempt_reply.
    + exists []. now apply (attempt_retry rt group history request).
Qed.

(** The stage of the request an attempt has reached is the number of its
    exchanges. *)
Lemma chain_stage (group : Group) (history : list (Request * Reply))
      (q : Request) :
  chain group history q ->
  nth_error [FormPage; Script; Payload; Submission] (List.length history)
  = Some (stage_of q).
Proof.
  unfold chain, stage_of.
  destruct history as [|[q1 r1] [|[q2 r2] [|[q3 r3] [|? ?]]]];
    cbn [List.length nth_error].
  - now intros (draw & ->).
  - intros (_ & H).
    now destruct (parse_inv _ _ H)
      as (? & ? & ? & ? & ? & ? & _ & _ & _ & _ & _ & [= ->]).
  - intros (_ & _ & H).
    now destruct (parse_hastorni_js_file_inv _ _ H)
      as (? & ? & ? & ? & _ & _ & _ & _ & [= ->]).
  - intros (_ & _ & _ & H).
    now destruct (parse_daxiongmao_js_file_inv _ _ H)
      as (? & ? & ? & ? & ? & _ & _ & _ & _ & [= ->]).
  - intros [].
Qed.

(** The exchanges of an attempt are linked by the callbacks: no attempt
    has more than three, and the request it has reached is the one the
    callback of the stage before yields on the last reply. *)
Lemma attempt_chain (group : Group) (history : list (Request * Reply))
      (q : Request) :
  attempt group history q -> chain group history q.
Proof.
  induction 1 as [draw
                 | history request reply request' draw Hattempt IH Hin
                 | history request request' draw Hattempt IH Hin].
  - now exists draw.
  - pose proof (chain_stage group history request IH) as Hstage.
    cbn [react] in Hin. unfold run_callback in Hin.
    change (resp_request (respond request reply)) with request in Hin.
    unfold stage_of in Hstage. unfold chain in IH |- *.
    destruct history as [|[q1 r1] [|[q2 r2] [|[q3 r3] [|? ?]]]];
      cbn [List.length nth_error app] in *; [| | | |destruct IH].
    + destruct (req_callback request); try discriminate.
      destruct (parse (respond request reply)) as [rs|] eqn:H;
        [|destruct Hin].
      destruct (parse_inv _ _ H)
        as (? & ? & ? & ? & ? & ? & _ & _ & _ & _ & _ & E).
      subst rs. cbn [bind] in Hin. destruct Hin as [<-|[]].
      rewrite process_request_plain by reflexivity.
      split; [assumption | reflexivity].
    + destruct (req_callback request); try discriminate.
      destruct (parse_hastorni_js_file (respond request reply))
        as [rs|] eqn:H; [|destruct Hin].
      destruct (parse_hastorni_js_file_inv _ _ H)
        as (? & ? & ? & ? & _ & _ & _ & _ & E).
      subst rs. cbn [bind] in Hin. destruct Hin as [<-|[]].
      rewrite process_request_plain by reflexivity.
      destruct IH as (Hstart & Hparse).
      split; [assumption | split; [assumption | reflexivity]].
    + destruct (req_callback request); try discriminate.
      destruct (parse_daxiongmao_js_file (respond request reply))
        as [rs|] eqn:H; [|destruct Hin].
      destruct (parse_daxiongmao_js_file_inv _ _ H)
        as (? & ? & ? & ? & ? & _ & _ & _ & _ & E).
      subst rs. cbn [bind] in Hin. destruct Hin as [<-|[]].
      rewrite process_request_plain by reflexivity.
      destruct IH as (Hstart & Hparse & Hscript).
      split; [assumption | split; [assumption | split; [assumption|]]].
      reflexivity.
    + destruct (req_callback request); try discriminate.
      destruct (parse_voting_result (respond request reply)); destruct Hin.
  - destruct (sent_ok group request (attempt_sent _ _ _ Hattempt))
      as [Hgroup _].
    cbn [react] in Hin.
    destruct (req_errback request) as [[]|]; [|destruct Hin].
    unfold handle_vote_failure in Hin. rewrite Hgroup in Hin.
    cbn in Hin. destruct Hin as [<-|[]]. now exists draw.
Qed.





(** C7: a failed download of the submission, and of no other request of
    the transaction, makes the spider schedule the start request of the
    same group again (the request to the form page that [start_requests]
    yields for the group, same name and vote); an exception in a callback
    schedules nothing. *)
Theorem transport_failure_restarts (group : Group) (q : Request) :
  sent group q ->
  (stage_of q = Submission ->
   react q TransportFailure = [send_group_to_vote group])
  /\ (stage_of q <> Submission -> react q TransportFailure = [])
  /\ (forall reply e,
        run_callback (respond q reply) = Raise e ->
        react q (Received reply) = [])
  /\ (stage_of (send_group_to_vote group) = FormPage
      /\ req_url (send_group_to_vote group) = form_page_url
      /\ req_dont_filter (send_group_to_vote group) = true
      /\ meta_group (req_meta (send_group_to_vote group)) = Some group
      /\ (forall final_decision,
            In group (groups final_decision) ->
            In (send_group_to_vote group) (start_requests final_decision))
      /\ forall draw, sent group (process_request draw (send_group_to_vote group))).
Proof.
  intros Hsent. destruct (sent_ok group q Hsent) as [Hgroup Hstage].
  split; [|split; [|split; [|repeat split]]].
  - intros Hsub. rewrite Hsub in Hstage. destruct Hstage as (Herr & _).
    cbn [react]. rewrite Herr. unfold handle_vote_failure. now rewrite Hgroup.
  - intros Hnot. cbn [react].
    destruct (stage_of q); try congruence;
      destruct Hstage as (Herr & _); now rewrite Herr.
  - intros reply e Hraise. cbn [react]. now rewrite Hraise.
  - intros final_decision Hin. unfold start_requests. now apply in_map.
  - intros draw. apply sent_start.
Qed.

Lemma next_request_sent (group : Group) (draw : nat) (q q' : Request)
      (o : outcome) :
  sent group q -> next_request draw q o = Some q' -> sent group q'.
Proof.
  intros Hsent H. unfold next_request in H.
  destruct (react q o) as [|r [|? ?]] eqn:Hreact; try discriminate.
  injection H as <-. apply (sent_next rt group q o r draw Hsent).
  rewrite Hreact. now left.
Qed.

Lemma sample_submission_sent (script : Reply) (group : Group) (q : Request) :
  sample_submission script group = Some q -> sent group q.
Proof.
  unfold sample_submission, option_bind. intros H.
  destruct (next_request 0 _ (Received sample_form_page)) as [q2|] eqn:H2;
    [|discriminate].
  destruct (next_request 0 q2 (Received script)) as [q3|] eqn:H3;
    [|discriminate].
  eapply next_request_sent; [|exact H].
  eapply next_request_sent; [|exact H3].
  eapply next_request_sent; [|exact H2].
  apply sent_start.
Qed.

Lemma next_request_attempt (group : Group) (draw : nat)
      (history : list (Request * Reply)) (q q' : Request) (reply : Reply) :
  attempt group history q ->
  next_request draw q (Received reply) = Some q' ->
  attempt group (history ++ [(q, reply)]) q'.
Proof.
  intros Hattempt H. unfold next_request in H.
  destruct (react q (Received reply)) as [|r [|? ?]] eqn:Hreact;
    try discriminate.
  injection H as <-.
  apply (attempt_reply rt group history q reply r draw Hattempt).
  rewrite Hreact. now left.
Qed.

(** The sample replies, when they lead to a submission, make one attempt
    of three exchanges. *)
Lemma sample_requests_attempt (script : Reply) (group : Group)
      (q2 q3 q4 : Request) :
  sample_requests script group = Some (q2, q3, q4) ->
  attempt group
          [ (process_request 0 (send_group_to_vote group), sample_form_page);
            (q2, script); (q3, sample_payload) ]
          q4.
Proof.
  unfold sample_requests, option_bind. intros H.
  destruct (next_request 0 _ (Received sample_form_page)) as [r2|] eqn:H2;
    [|discriminate].
  destruct (next_request 0 r2 (Received script)) as [r3|] eqn:H3;
    [|discriminate].
  destruct (next_request 0 r3 (Received sample_payload)) as [r4|] eqn:H4;
    [|discriminate].
  injection H as <- <- <-.
  apply (next_request_attempt group 0 [_; _] r3 r4 sample_payload);
    [|exact H4].
  apply (next_request_attempt group 0 [_] r2 r3 script); [|exact H3].
  apply (next_request_attempt group 0 [] _ r2 sample_form_page);
    [|exact H2].
  apply attempt_start.
Qed.


Lemma sample_requests_attempt_payload (script : Reply) (group : Group)
      (q2 q3 q4 : Request) :
  sample_requests script group = Some (q2, q3, q4) ->
  attempt group
          [ (process_request 0 (send_group_to_vote group), sample_form_page);
            (q2, script) ]
          q3.
Proof.
  unfold sample_requests, option_bind. intros H.
  destruct (next_request 0 _ (Received sample_form_page)) as [r2|] eqn:H2;
    [|discriminate].
  destruct (next_request 0 r2 (Received script)) as [r3|] eqn:H3;
    [|discriminate].
  destruct (next_request 0 r3 (Received sample_payload)) as [r4|] eqn:H4;
    [|discriminate].
  injection H as <- <- <-.
  apply (next_request_attempt group 0 [_] r2 r3 script); [|exact H3].
  apply (next_request_attempt group 0 [] _ r2 sample_form_page);
    [|exact H2].
  apply attempt_start.
Qed.
(** ** What the requests of a transaction carry *)

Lemma start_request_platform (group : Group) (draw : nat) :
  platform_ok (process_request draw (send_group_to_vote group)).
Proof.
  exists (_get_random_platform draw).
  split; [apply _get_random_platform_in|]. split; reflexivity.
Qed.

Lemma sent_platform_ok (group : Group) (q : Request) :
  sent group q -> platform_ok q.
Proof.
  induction 1 as [draw | request o request' draw Hsent IH Hin].
  - apply start_request_platform.
  - pose proof (sent_ok group request Hsent) as [Hgroup Hstage].
    destruct o as [reply|].
    + cbn [react] in Hin. unfold run_callback in Hin.
      unfold stage_of in Hstage. unfold platform_ok, stage_of in IH.
      change (resp_request (respond request reply)) with request in Hin.
      assert (Hreq : resp_request (respond request reply) = request)
        by reflexivity.
      assert (Hmeta : resp_meta (respond request reply) = req_meta request)
        by reflexivity.
      remember (respond request reply) as response eqn:Hresp.
      destruct IH as (p & Hp & Hua & Hos).
      destruct (req_callback request) eqn:Hcb.
      * (* the form page *)
        destruct (parse response) as [rs|e] eqn:Hparse; [|destruct Hin].
        destruct (parse_inv _ _ Hparse)
          as (g & key & value & cv & url & os & _ & _ & _ & _ & Hos' & ->).
        cbn [bind] in Hin. destruct Hin as [<-|[]].
        rewrite process_request_plain by reflexivity.
        rewrite Hmeta in Hos'. rewrite (Hos (or_introl eq_refl)) in Hos'.
        injection Hos' as <-.
        exists p. rewrite Hreq. now repeat split.
      * (* the script *)
        destruct (parse_hastorni_js_file response) as [rs|e] eqn:Hparse;
          [|destruct Hin].
        destruct (parse_hastorni_js_file_inv _ _ Hparse)
          as (g & uname & url & rats & _ & _ & _ & _ & ->).
        cbn [bind] in Hin. destruct Hin as [<-|[]].
        rewrite process_request_plain by reflexivity.
        exists p. rewrite Hreq. split; [exact Hp|]. split; [exact Hua|].
        cbn. intros [H|H]; discriminate.
      * (* the payload *)
        destruct (parse_daxiongmao_js_file response) as [rs|e] eqn:Hparse;
          [|destruct Hin].
        destruct (parse_daxiongmao_js_file_inv _ _ Hparse)
          as (g & token & key & value & rats & _ & _ & _ & _ & ->).
        cbn [bind] in Hin. destruct Hin as [<-|[]].
        rewrite process_request_plain by reflexivity.
        exists p. rewrite Hreq. split; [exact Hp|]. split; [exact Hua|].
        cbn. intros [H|H]; discriminate.
      * destruct (parse_voting_result response); destruct Hin.
    + (* the download failed *)
      cbn [react] in Hin. unfold stage_of in Hstage.
      destruct (req_errback request) as [[]|] eqn:Herr; [|destruct Hin].
      unfold handle_vote_failure in Hin. rewrite Hgroup in Hin.
      cbn in Hin. destruct Hin as [<-|[]].
      apply start_request_platform.
Qed.

(** X12: a response moves a transaction one stage forward, by at most one
    request, and ends it after the submission; a failed download leads
    only to a request of the form page stage. *)
Theorem react_stage_order (q q' : Request) (o : outcome) :
  In q' (react q o) ->
  match o with
  | Received _ =>
      react q o = [q'] /\ next_stage (stage_of q) = Some (stage_of q')
  | TransportFailure =>
      react q o = [q'] /\ stage_of q' = FormPage
      /\ req_errback q = Some eb_handle_vote_failure
  end.
Proof.
  destruct o as [reply|]; cbn [react]; unfold run_callback, stage_of.
  - change (resp_request (respond q reply)) with q.
    destruct (req_callback q).
    + destruct (parse _) as [rs|] eqn:H; [|intros []].
      destruct (parse_inv _ _ H)
        as (? & ? & ? & ? & ? & ? & _ & _ & _ & _ & _ & ->).
      cbn [bind]. intros [<-|[]]. now split.
    + destruct (parse_hastorni_js_file _) as [rs|] eqn:H; [|intros []].
      destruct (parse_hastorni_js_file_inv _ _ H)
        as (? & ? & ? & ? & _ & _ & _ & _ & ->).
      cbn [bind]. intros [<-|[]]. now split.
    + destruct (parse_daxiongmao_js_file _) as [rs|] eqn:H; [|intros []].
      destruct (parse_daxiongmao_js_file_inv _ _ H)
        as (? & ? & ? & ? & ? & _ & _ & _ & _ & ->).
      cbn [bind]. intros [<-|[]]. now split.
    + destruct (parse_voting_result _); intros [].
  - destruct (req_errback q) as [[]|]; [|intros []].
    unfold handle_vote_failure.
    destruct (meta_group (req_meta q)); [|intros []].
    cbn. intros [<-|[]]. now repeat split.
Qed.

(** X13: every request of a transaction carries the user agent of an
    entry of the platform table, and the requests that carry an operating
    system (form page and script stages) carry that of the same entry. *)
Theorem sent_platform (group : Group) (q : Request) :
  sent group q -> platform_ok q.
Proof. exact (sent_platform_ok group q). Qed.

(** X14: the cookies of the request an attempt has reached: none on the
    form page request; on the script and the payload request the one pair
    [session] with the value that [get_session_cookies] extracts from the
    form page reply of this attempt; on the submission the one pair
    [session] with the value it extracts from the payload reply of this
    attempt. *)
Theorem sent_cookies (group : Group) (history : list (Request * Reply))
        (q : Request) :
  attempt group history q ->
  match stage_of q with
  | FormPage => history = [] /\ req_cookies q = []
  | Script | Payload =>
      exists q1 r1 later value,
        history = (q1, r1) :: later
        /\ stage_of q1 = FormPage
        /\ get_session_cookies (reply_set_cookie r1)
           = Ok (py "session", value)
        /\ req_cookies q = [(py "session", value)]
  | Submission =>
      exists earlier q3 r3 value,
        history = earlier ++ [(q3, r3)]
        /\ stage_of q3 = Payload
        /\ get_session_cookies (reply_set_cookie r3)
           = Ok (py "session", value)
        /\ req_cookies q = [(py "session", value)]
  end.
Proof.
  intros Hattempt.
  pose proof (attempt_chain group history q Hattempt) as Hchain.
  pose proof (chain_stage group history q Hchain) as Hlen.
  unfold chain in Hchain.
  destruct history as [|[q1 r1] [|[q2 r2] [|[q3 r3] [|? ?]]]];
    cbn [List.length nth_error] in Hlen; [| | | |destruct Hchain];
    injection Hlen as <-.
  - destruct Hchain as (draw & ->). now split.
  - destruct Hchain as ((draw & ->) & Hparse).
    destruct (parse_inv _ _ Hparse)
      as (? & key & value & ? & ? & ? & _ & Hsess & _ & _ & _ & [= ->]).
    pose proof (get_session_cookies_key _ _ _ Hsess) as ->.
    eexists _, r1, [], value. now repeat split.
  - destruct Hchain as ((draw & ->) & Hparse & Hscript).
    destruct (parse_inv _ _ Hparse)
      as (? & key & value & ? & ? & ? & _ & Hsess & _ & _ & _ & [= ->]).
    pose proof (get_session_cookies_key _ _ _ Hsess) as ->.
    destruct (parse_hastorni_js_file_inv _ _ Hscript)
      as (? & ? & ? & ? & _ & _ & _ & _ & [= ->]).
    eexists _, r1, _, value. now repeat split.
  - destruct Hchain as (_ & _ & Hscript & Hpayload).
    destruct (parse_hastorni_js_file_inv _ _ Hscript)
      as (? & ? & ? & ? & _ & _ & _ & _ & [= ->]).
    destruct (parse_daxiongmao_js_file_inv _ _ Hpayload)
      as (? & ? & key & value & ? & _ & _ & Hsess & _ & [= ->]).
    pose proof (get_session_cookies_key _ _ _ Hsess) as ->.
    eexists [_; _], _, r3, value. now repeat split.
Qed.

(** X15: the URL of the payload request an attempt has reached is the join
    of the base URL of the script reply of this attempt with
    [/daxiongmao.js?<form token>=<identity hash>&key=aadfa], where the form
    token is the one [get_carnivore_value] extracts from the form page
    reply of this attempt and the identity hash is the base64 of user
    agent, identity name of that script and operating system, user agent
    and operating system being those of one entry of the platform table. *)
Theorem sent_stage3_url (group : Group) (history : list (Request * Reply))
        (q : Request) :
  attempt group history q -> stage_of q = Payload ->
  exists q1 r1 q2 r2 platform token ursidae_name identity base,
    history = [(q1, r1); (q2, r2)]
    /\ In platform all_platforms
    /\ get_carnivore_value (respond q1 r1) = Ok token
    /\ get_ursidae_name (reply_text r2) = Ok ursidae_name
    /\ encode_utf8 (platform_ua platform ++ ursidae_name
                    ++ platform_os platform) = Ok identity
    /\ get_base_url (respond q2 r2) = Ok base
    /\ urljoin base (py "/daxiongmao.js?" ++ token ++ py "="
                     ++ b64encode identity ++ py "&key=aadfa")
       = Ok (req_url q).
Proof.
  intros Hattempt Hstage.
  pose proof (attempt_chain group history q Hattempt) as Hchain.
  pose proof (chain_stage group history q Hchain) as Hlen.
  rewrite Hstage in Hlen. unfold chain in Hchain.
  destruct history as [|[q1 r1] [|[q2 r2] [|[q3 r3] [|? ?]]]];
    try discriminate; [|destruct Hchain].
  destruct Hchain as ((draw & Hq1) & Hparse & Hscript).
  destruct (start_request_platform group draw) as (p & Hp & Hua & Hos).
  rewrite <- Hq1 in Hua, Hos. specialize (Hos (or_introl (eq_trans
    (f_equal stage_of Hq1) eq_refl))).
  destruct (parse_inv _ _ Hparse)
    as (? & ? & ? & token & ? & os & _ & _ & Htoken & _ & Hos' & [= Eq2]).
  change (resp_meta (respond q1 r1)) with (req_meta q1) in Hos'.
  rewrite Hos in Hos'. injection Hos' as <-.
  destruct (parse_hastorni_js_file_inv _ _ Hscript)
    as (? & uname & url & ? & _ & Hname & Hurl & _ & [= Eq]).
  destruct (get_daxiongmao_file_url_inv _ _ _ Hurl)
    as (ua & os & cv & identity & base & Hua' & Hos' & Hcv & Henc & Hbase
        & Hjoin).
  change (resp_request (respond q2 r2)) with q2 in Hua'.
  change (resp_meta (respond q2 r2)) with (req_meta q2) in Hos', Hcv.
  rewrite Eq2 in Hua', Hos', Hcv. cbn in Hua', Hos', Hcv.
  change (resp_request (respond q1 r1)) with q1 in Hua'.
  rewrite Hua in Hua'. injection Hua' as <-. injection Hos' as <-.
  injection Hcv as <-.
  exists q1, r1, q2, r2, p, token, uname, identity, base.
  rewrite Eq. now repeat split.
Qed.

(** X16: every key that a callback reads from [response.meta], and the
    [user-agent] header that [get_daxiongmao_file_url] reads, is there on
    a request of a transaction: [group] always; [os] at the form page
    stage; [user-agent], [os] and [carnivore_value] at the script stage;
    [rats_hash] at the payload stage.  None of these lookups raises
    [KeyError] in a callback. *)
Theorem callback_keys_present (group : Group) (q : Request) :
  sent group q ->
  getitem "group" (meta_group (req_meta q)) = Ok group
  /\ match stage_of q with
     | FormPage => exists os, getitem "os" (meta_os (req_meta q)) = Ok os
     | Script =>
         exists ua os carnivore_value,
           getitem "user-agent" (user_agent (req_headers q)) = Ok ua
           /\ getitem "os" (meta_os (req_meta q)) = Ok os
           /\ getitem "carnivore_value" (meta_carnivore_value (req_meta q))
              = Ok carnivore_value
     | Payload =>
         exists rats_hash,
           getitem "rats_hash" (meta_rats_hash (req_meta q)) = Ok rats_hash
     | Submission => True
     end.
Proof.
  intros Hsent. destruct (sent_ok group q Hsent) as [Hgroup _].
  split; [now rewrite Hgroup|].
  destruct (sent_platform_ok group q Hsent) as (p & _ & Hua & Hos).
  destruct (sent_attempt group q Hsent) as (history & Hattempt).
  pose proof (attempt_chain group history q Hattempt) as Hchain.
  pose proof (chain_stage group history q Hchain) as Hlen.
  unfold chain in Hchain.
  destruct history as [|[q1 r1] [|[q2 r2] [|[q3 r3] [|? ?]]]];
    cbn [List.length nth_error] in Hlen; [| | | |destruct Hchain];
    injection Hlen as Hstage; rewrite <- Hstage in *.
  - exists (platform_os p). now rewrite (Hos (or_introl eq_refl)).
  - destruct Hchain as (_ & Hparse).
    destruct (parse_inv _ _ Hparse)
      as (? & ? & ? & cv & ? & ? & _ & _ & _ & _ & _ & [= Eq]).
    exists (platform_ua p), (platform_os p), cv.
    rewrite Hua, (Hos (or_intror eq_refl)), Eq. now repeat split.
  - destruct Hchain as (_ & _ & Hscript).
    destruct (parse_hastorni_js_file_inv _ _ Hscript)
      as (? & ? & ? & rats & _ & _ & _ & _ & [= Eq]).
    exists rats. now rewrite Eq.
  - exact I.
Qed.

(** X17: a group hash [get_rats_hash] returns is base64 text: characters
    of the base64 alphabet and the padding sign only, in groups of
    four. *)
Theorem get_rats_hash_text (response : Response) (rats : pystr) :
  get_rats_hash response = Ok rats ->
  Forall b64_symbol rats
  /\ exists groups, List.length rats = (4 * groups)%nat.
Proof.
  intros H. unfold get_rats_hash in H. inv_bind H. inv_ok.
  split; [apply b64encode_symbols | apply b64encode_length].
Qed.

(** X18: when [get_daxiongmao_file_url] returns a URL, the response
    carried a user agent, an operating system and a form token, the URL is
    the join of the base URL of the response with
    [/daxiongmao.js?<form token>=<identity hash>&key=aadfa], and the
    identity hash is base64 text that decodes to bytes that are the UTF-8
    of user agent, identity name and operating system concatenated. *)
Theorem get_daxiongmao_file_url_decodes (response : Response)
        (ursidae_name url : pystr) :
  get_daxiongmao_file_url response ursidae_name = Ok url ->
  exists ua os carnivore_value identity base,
    user_agent (req_headers (resp_request response)) = Some ua
    /\ meta_os (resp_meta response) = Some os
    /\ meta_carnivore_value (resp_meta response) = Some carnivore_value
    /\ encode_utf8 (ua ++ ursidae_name ++ os) = Ok identity
    /\ get_base_url response = Ok base
    /\ urljoin base (py "/daxiongmao.js?" ++ carnivore_value ++ py "="
                     ++ b64encode identity ++ py "&key=aadfa") = Ok url
    /\ Forall b64_symbol (b64encode identity)
    /\ b64decode (b64encode identity) = Some identity
    /\ decode_utf8 identity = Ok (ua ++ ursidae_name ++ os).
Proof.
  intros H.
  destruct (get_daxiongmao_file_url_inv _ _ _ H)
    as (ua & os & cv & identity & base & Hua & Hos & Hcv & Henc & Hbase
        & Hurl).
  exists ua, os, cv, identity, base. repeat (split; [assumption|]).
  split; [apply b64encode_symbols|]. split.
  - apply b64decode_b64encode. exact (encode_utf8_bytes _ _ Henc).
  - exact (decode_utf8_encode_utf8 _ _ Henc).
Qed.

(** X19: a group hash is returned only when every character of the group
    name is a key of the letter map: the hash is then the base64 of the
    UTF-8 bytes of the [str] of the values found, in name order, joined by
    [|], and decodes to those bytes. *)
Theorem get_rats_hash_sound (response : Response) (rats : pystr) :
  get_rats_hash response = Ok rats ->
  exists group letters_map values content,
    meta_group (resp_meta response) = Some group
    /\ _get_letters_map (resp_text response) = Ok letters_map
    /\ Forall2 (fun c v => py_getitem letters_map [c] = Ok v)
               (name group) values
    /\ encode_utf8 (join (py "|") (map py_str values)) = Ok content
    /\ rats = b64encode content
    /\ b64decode rats = Some content.
Proof.
  intros H. unfold get_rats_hash in H. inv_bind H. inv_ok.
  rename a into letters_map, a0 into group, a1 into numbers, a2 into content.
  apply mapM_ok in E1.
  assert (Hvalues : exists values,
             Forall2 (fun c v => py_getitem letters_map [c] = Ok v)
                     (name group) values
             /\ numbers = map py_str values).
  { clear E2. revert numbers E1.
    induction (name group) as [|c letters IH]; intros numbers Hall;
      inversion Hall as [|letter number ? ? Hletter Hrest]; subst.
    - now exists [].
    - destruct (IH _ Hrest) as (values & Hvalues & ->).
      apply bind_ok in Hletter as (v & Hv & [= <-]).
      exists (v :: values). split; [now constructor | reflexivity]. }
  destruct Hvalues as (values & Hvalues & ->).
  exists group, letters_map, values, content.
  repeat (split; [assumption || reflexivity|]).
  apply b64decode_b64encode. exact (encode_utf8_bytes _ _ E2).
Qed.

(** X20: a request belongs to the transaction of one group only: it
    carries that group in its meta, so a request sent in the transaction of
    one group is sent in the transaction of no other. *)
Theorem sent_group_unique (group group' : Group) (q : Request) :
  sent group q -> sent group' q ->
  meta_group (req_meta q) = Some group /\ group' = group.
Proof.
  intros H H'. destruct (sent_ok group q H) as [Hg _].
  destruct (sent_ok group' q H') as [Hg' _].
  split; [exact Hg | congruence].
Qed.


End PipelineProperties.

(** * The sample transaction *)

(** The callbacks use the base-URL function of the runtime only at the
    responses they are given: two runtimes that differ in it, and agree on
    every argument, schedule the same requests. *)
Lemma react_html_ext (allow limit : nat)
      (hb hb' : pystr -> pystr -> result pystr)
      (uo : pystr -> pystr -> result pystr) (repr : json -> pystr) :
  (forall text url, hb text url = hb' text url) ->
  forall q o,
    react (Build_Runtime allow limit hb uo repr) q o
    = react (Build_Runtime allow limit hb' uo repr) q o.
Proof.
  intros H.
  set (rt := Build_Runtime allow limit hb uo repr).
  set (rt' := Build_Runtime allow limit hb' uo repr).
  assert (Hj : forall r ref, resp_urljoin rt r ref = resp_urljoin rt' r ref).
  { intros r ref. unfold resp_urljoin, get_base_url. cbn [html_base_url rt rt'].
    rewrite H. reflexivity. }
  assert (Hd : forall r n,
             get_daxiongmao_file_url rt r n = get_daxiongmao_file_url rt' r n).
  { intros r n. unfold get_daxiongmao_file_url.
    destruct (getitem "os" _); [|reflexivity]. cbn [bind].
    destruct (getitem "user-agent" _); [|reflexivity]. cbn [bind].
    destruct (encode_utf8 _); [|reflexivity]. cbn [bind].
    destruct (getitem "carnivore_value" _); [|reflexivity]. cbn [bind].
    apply Hj. }
  assert (Hp : forall r, parse rt r = parse rt' r).
  { intros r. unfold parse. now rewrite Hj. }
  assert (Hh : forall r, parse_hastorni_js_file rt r = parse_hastorni_js_file rt' r).
  { intros r. unfold parse_hastorni_js_file.
    destruct (getitem "group" _); [|reflexivity]. cbn [bind].
    change (get_ursidae_name rt') with (get_ursidae_name rt).
    destruct (get_ursidae_name rt _); [|reflexivity]. cbn [bind].
    rewrite Hd. reflexivity. }
  intros q [reply|]; [|reflexivity].
  unfold react, run_callback.
  destruct (req_callback _); rewrite ?Hp, ?Hh; reflexivity.
Qed.

Lemma str_eqb_eq (a b : pystr) : str_eqb a b = true -> a = b.
Proof.
  unfold str_eqb. destruct (list_eq_dec Z.eq_dec a b); [trivial | discriminate].
Qed.

Lemma sample_submission_html_ext (allow limit : nat)
      (hb hb' : pystr -> pystr -> result pystr)
      (uo : pystr -> pystr -> result pystr) (repr : json -> pystr) :
  (forall text url, hb text url = hb' text url) ->
  forall script group,
    sample_submission (Build_Runtime allow limit hb uo repr) script group
    = sample_submission (Build_Runtime allow limit hb' uo repr) script group.
Proof.
  intros H script group. unfold sample_submission, next_request, option_bind.
  rewrite (react_html_ext allow limit hb hb' uo repr H).
  destruct (react _ _ (Received sample_form_page)) as [|q2 [|? ?]];
    try reflexivity.
  rewrite (react_html_ext allow limit hb hb' uo repr H).
  destruct (react _ _ (Received script)) as [|q3 [|? ?]]; try reflexivity.
  all: now rewrite (react_html_ext allow limit hb hb' uo repr H).
Qed.

(** The sample transaction runs the same with any runtime that allows one
    level of nesting and finds no [<base>] element in the two sample
    documents. *)
Lemma sample_submission_runtime (rt : Runtime) (final_decision : pystr) :
  (0 < recursion_allowance rt)%nat ->
  no_base_element rt sample_form_page ->
  no_base_element rt sample_script ->
  sample_submission rt sample_script (fifth_group final_decision)
  = sample_submission sample_runtime sample_script (fifth_group final_decision).
Proof.
  intros Hd H1 H2. destruct rt as [allow limit hb uo repr].
  unfold no_base_element in H1, H2.
  cbn [recursion_allowance html_base_url] in *.
  destruct allow as [|allow]; [lia|].
  set (t1 := firstn 4096 (reply_text sample_form_page)) in *.
  set (t2 := firstn 4096 (reply_text sample_script)) in *.
  set (u1 := reply_url sample_form_page) in *.
  set (u2 := reply_url sample_script) in *.
  pose (hb' := fun text url =>
          if (str_eqb text t1 && str_eqb url u1)
             || (str_eqb text t2 && str_eqb url u2)
          then Ok url else hb text url).
  assert (Hext : forall text url, hb text url = hb' text url).
  { intros text url. unfold hb'.
    destruct (str_eqb text t1 && str_eqb url u1) eqn:E1.
    - apply andb_true_iff in E1 as [Ea Eb].
      apply str_eqb_eq in Ea, Eb. now subst.
    - destruct (str_eqb text t2 && str_eqb url u2) eqn:E2; [|reflexivity].
      apply andb_true_iff in E2 as [Ea Eb].
      apply str_eqb_eq in Ea, Eb. now subst. }
  rewrite (sample_submission_html_ext (S allow) limit hb hb' uo repr Hext).
  subst hb' t1 t2 u1 u2. clear. vm_compute. reflexivity.
Qed.

(** The sample transaction of the fifth group ends in this submission. *)
Lemma sample_submission_fifth (final_decision : pystr) :
  sample_submission sample_runtime sample_script (fifth_group final_decision)
  = Some (submission_request (fifth_group final_decision)
            (form_fields (py "H1") (py "beary_pawsitively_forbearance")
               final_decision
               (py "MTJ8MTR8MTF8MjF8MjZ8MTB8MjB8MTF8MjV8MjJ8MTZ8MjN8MTZ8MjR8MTR8MTd8MjZ8MTB8MTV8MTl8MjF8MTJ8MTR8MTF8MjF8MTF8MTh8MTN8MTQ="))).
Proof. vm_compute. reflexivity. Qed.

(** C10: the vote string of the group record is the [survive] field of
    every submission; the vote of the fifth group is the [final_decision]
    argument, whatever string it is, and a transaction of that group does
    reach a submission carrying it unchanged (on the sample replies, with
    any runtime that allows one level of nesting in [json.loads] and finds
    no [<base>] element in the form page and the script). *)
Theorem vote_forwarded_verbatim (rt : Runtime) (final_decision : pystr) :
  (forall group q,
     sent rt group q -> stage_of q = Submission ->
     exists payload_token group_hash,
       req_body q = FormEncoded (form_fields payload_token (name group)
                                             (vote group) group_hash))
  /\ nth_error (groups final_decision) 4 = Some (fifth_group final_decision)
  /\ vote (fifth_group final_decision) = final_decision
  /\ ((0 < recursion_allowance rt)%nat ->
      no_base_element rt sample_form_page ->
      no_base_element rt sample_script ->
      exists q payload_token group_hash,
        sent rt (fifth_group final_decision) q
        /\ stage_of q = Submission
        /\ req_body q =
           FormEncoded [ (py "rogue_racoons", payload_token);
                         (py "username", name (fifth_group final_decision));
                         (py "survive", final_decision);
                         (py "rats", group_hash) ]).
Proof.
  split; [|split; [reflexivity | split; [reflexivity|]]].
  - intros group q Hsent Hstage.
    destruct (submission_fields_of rt group q Hsent Hstage) as (t & h & Hb).
    now exists t, h.
  - intros Hdepth Hform Hscript.
    eexists. eexists. eexists. split; [|split].
    + apply (sample_submission_sent rt sample_script).
      rewrite (sample_submission_runtime rt final_decision Hdepth Hform Hscript).
      apply sample_submission_fifth.
    + reflexivity.
    + reflexivity.
Qed.

(** The scenario of the specification: a form page with token [T1], a
    script with codes [[98,101,97,114]] and map [{b:1,e:2,a:3,r:4}], a
    payload with token [H1]; the submission has the four fields, and a
    reply with the thank-you marker is accepted. *)
Example end_to_end_scenario (group_vote : pystr) :
  let group := {| name := py "bear"; vote := group_vote |} in
  let submission :=
    submission_request group
      (form_fields (py "H1") (py "bear") group_vote (py "MXwyfDN8NA==")) in
  sample_submission sample_runtime bear_script group = Some submission
  /\ b64decode (py "MXwyfDN8NA==") = Some (py "1|2|3|4")
  /\ parse_voting_result sample_runtime
       (respond submission
          {| reply_url := voting_url; reply_set_cookie := None;
             reply_text := py "Thank you bear"; reply_document := [] |})
     = outcome_of Accepted.
Proof. repeat split; vm_compute; reflexivity. Qed.

(** * The statements at concrete inputs *)

(** C1 at the name [AB] with the map [{A:5,B:7}]: the hash decodes to
    [5|7]. *)
Lemma get_rats_hash_decodes_witness :
  get_rats_hash sample_runtime (ab_response "AB") = Ok (py "NXw3")
  /\ b64decode (py "NXw3") = Some (py "5|7").
Proof.
  apply (get_rats_hash_decodes sample_runtime (ab_response "AB")
           [(py "A", JInt 5); (py "B", JInt 7)]
           {| name := py "AB"; vote := py "1" |}
           (fun c => if c =? 65 then 5 else 7)).
  - vm_compute. reflexivity.
  - reflexivity.
  - intros c [<-|[<-|[]]]; reflexivity.
Defined.

(** C8 at the name [ABC] with the map [{A:5,B:7}]: [C] is not a key, and
    the built-in [KeyError('C')] leaves the function. *)
Lemma get_rats_hash_unknown_letter_witness :
  exists c, In c (py "ABC")
    /\ dict_get [c] [(py "A", JInt 5); (py "B", JInt 7)] = None
    /\ get_rats_hash sample_runtime (ab_response "ABC") = Raise (KeyError [c]).
Proof.
  apply (get_rats_hash_unknown_letter sample_runtime (ab_response "ABC")
           [(py "A", JInt 5); (py "B", JInt 7)]
           {| name := py "ABC"; vote := py "1" |}).
  - vm_compute. reflexivity.
  - reflexivity.
  - exists 67. split; [right; right; left; reflexivity | reflexivity].
Defined.



(** C2 (as amended) at five responses: results marker with a JSON body
    (and the thank-you marker as well), results marker with a body that is
    not JSON, results marker with an integer of 4301 digits, neither
    marker, the thank-you marker alone. *)
Lemma parse_voting_result_classification_witness :
  let reply text :=
    respond (submission_request (fifth_group (py "1")) [])
      {| reply_url := voting_url; reply_set_cookie := None;
         reply_text := text; reply_document := [] |} in
  parse_voting_result sample_runtime
    (reply (quoted "{'pandas_future': 'Thank you bear', 'votes': [3, 2]}"))
  = outcome_of
      (ElectionClosed
         (JObj [(py "pandas_future", JStr (py "Thank you bear"));
                (py "votes", JArr [JInt 3; JInt 2])]))
  /\ parse_voting_result sample_runtime (reply (py "pandas_future: soon"))
     = Raise ResultParseError
  /\ (parse_voting_result sample_runtime (reply long_integer_body)
      = Raise (DigitLimitError sample_runtime 4301)
      /\ (DigitLimitError sample_runtime 4301 = RecursionError
          \/ exists digits,
               exceeds_digit_limit sample_runtime digits = true
               /\ DigitLimitError sample_runtime 4301
                  = DigitLimitError sample_runtime digits))
  /\ parse_voting_result sample_runtime (reply (py "Service unavailable"))
     = Raise (UnexpectedResponse (py "Service unavailable"))
  /\ parse_voting_result sample_runtime (reply (py "Thank you bear"))
     = outcome_of Accepted.
Proof.
  intros reply. split; [|split; [|split; [|split]]].
  - apply (proj1 (proj1 (parse_voting_result_classification sample_runtime
                           (reply (quoted "{'pandas_future': 'Thank you bear', 'votes': [3, 2]}")))
                        eq_refl)).
    vm_compute. reflexivity.
  - apply (proj1 (proj2 (proj1 (parse_voting_result_classification
                                  sample_runtime
                                  (reply (py "pandas_future: soon")))
                               eq_refl))).
    vm_compute. reflexivity.
  - apply (proj2 (proj2 (proj1 (parse_voting_result_classification
                                  sample_runtime (reply long_integer_body))
                               ltac:(vm_compute; reflexivity)))).
    + vm_compute. reflexivity.
    + discriminate.
  - exact (proj1 (proj2 (parse_voting_result_classification sample_runtime
                           (reply (py "Service unavailable"))))
                 eq_refl eq_refl).
  - exact (proj2 (proj2 (parse_voting_result_classification sample_runtime
                           (reply (py "Thank you bear"))))
                 eq_refl eq_refl).
Defined.

(** C2 (as stated, refuted): a body with the results marker and an integer
    of 4301 digits, read with the default limit of 4300 digits.
    [json.loads] raises the [ValueError] of the digit limit, which is not a
    [JSONDecodeError]: the [except] clause does not catch it and the
    callback fails with that error, not with the result-parse error. *)
Lemma parse_voting_result_digit_limit :
  let response :=
    respond (submission_request (fifth_group (py "1")) [])
      {| reply_url := voting_url; reply_set_cookie := None;
         reply_text := long_integer_body; reply_document := [] |} in
  contains (py "pandas_future") (resp_text response) = true
  /\ json_loads sample_runtime (resp_text response)
     = Raise (DigitLimitError sample_runtime 4301)
  /\ parse_voting_result sample_runtime response
     = Raise (DigitLimitError sample_runtime 4301)
  /\ parse_voting_result sample_runtime response <> Raise ResultParseError.
Proof.
  intros response.
  assert (H : parse_voting_result sample_runtime response
              = Raise (DigitLimitError sample_runtime 4301))
    by (vm_compute; reflexivity).
  split; [vm_compute; reflexivity|].
  split; [vm_compute; reflexivity|].
  split; [exact H|]. rewrite H. discriminate.
Qed.



(** C6 (as amended) at the code list of the specification, written with a
    space after each comma. *)
Lemma get_ursidae_name_inverse_witness :
  get_ursidae_name sample_runtime
    (py "var " ++ py "ursidae = "
     ++ py "[124, 124, 98, 101, 97, 114, 124, 124]" ++ [59]
     ++ py " var x = 1;")
  = Ok (py "||bear||").
Proof.
  apply (get_ursidae_name_inverse sample_runtime (py "var ")
           (py "[124, 124, 98, 101, 97, 114, 124, 124]") (py " var x = 1;")
           [124; 124; 98; 101; 97; 114; 124; 124]).
  - vm_compute. reflexivity.
  - literal_chars.
  - vm_compute. reflexivity.
  - repeat constructor; unfold is_code_point; lia.
Defined.

(** C7 at the submission of the sample transaction, and at its start
    request. *)
Lemma transport_failure_restarts_witness :
  let group := fifth_group (py "1") in
  let submission :=
    submission_request group
      (form_fields (py "H1") (name group) (vote group)
         (py "MTJ8MTR8MTF8MjF8MjZ8MTB8MjB8MTF8MjV8MjJ8MTZ8MjN8MTZ8MjR8MTR8MTd8MjZ8MTB8MTV8MTl8MjF8MTJ8MTR8MTF8MjF8MTF8MTh8MTN8MTQ=")) in
  react sample_runtime submission TransportFailure
  = [send_group_to_vote group]
  /\ react sample_runtime
       (process_request 0 (send_group_to_vote group)) TransportFailure
     = [].
Proof.
  intros group submission. split.
  - apply (transport_failure_restarts sample_runtime group submission).
    + apply (sample_submission_sent sample_runtime sample_script).
      exact (sample_submission_fifth (py "1")).
    + reflexivity.
  - apply (transport_failure_restarts sample_runtime group
             (process_request 0 (send_group_to_vote group))).
    + apply sent_start.
    + discriminate.
Defined.

(** C10 at the final decision [maybe], with the sample runtime. *)
Lemma vote_forwarded_verbatim_witness :
  exists q payload_token group_hash,
    sent sample_runtime (fifth_group (py "maybe")) q
    /\ stage_of q = Submission
    /\ req_body q =
       FormEncoded [ (py "rogue_racoons", payload_token);
                     (py "username", py "beary_pawsitively_forbearance");
                     (py "survive", py "maybe");
                     (py "rats", group_hash) ].
Proof.
  apply (proj2 (proj2 (proj2
           (vote_forwarded_verbatim sample_runtime (py "maybe"))))).
  - cbn. lia.
  - reflexivity.
  - reflexivity.
Defined.

(** X1 at the sample payload: the token [H1]. *)
Lemma get_rogue_racoons_hash_sound_witness :
  exists before after,
    reply_text sample_payload
    = before ++ payload_marker ++ py "H1" ++ [34] ++ after
    /\ Forall (fun c => c <> 34 /\ c <> 10) (py "H1").
Proof.
  apply (get_rogue_racoons_hash_sound (reply_text sample_payload) (py "H1")).
  vm_compute. reflexivity.
Defined.

(** X2 at an [input] element with the token [H1]. *)
Lemma get_rogue_racoons_hash_complete_witness :
  get_rogue_racoons_hash
    (quoted "<input name='rogue_rac" ++ payload_marker ++ py "H1" ++ [34]
     ++ py ">")
  = Ok (py "H1").
Proof.
  apply (get_rogue_racoons_hash_complete (quoted "<input name='rogue_rac")
           (py "H1") (py ">")).
  - literal_chars.
  - vm_compute. reflexivity.
Defined.

(** X3 at a script without any of the three markers. *)
Lemma extractors_marker_absent_witness :
  get_ursidae_name sample_runtime (py "var x = 1;") = Raise UrsidaeNotFound
  /\ _get_letters_map sample_runtime (py "var x = 1;") = Raise MapNotFound
  /\ get_rogue_racoons_hash (py "var x = 1;") = Raise HashNotFound.
Proof.
  destruct (extractors_marker_absent sample_runtime (py "var x = 1;"))
    as (H1 & H2 & H3).
  split; [|split].
  - apply H1. vm_compute. reflexivity.
  - apply H2. vm_compute. reflexivity.
  - apply H3. vm_compute. reflexivity.
Defined.

(** X4 at the script of the scenario. *)
Lemma _get_letters_map_sound_witness :
  exists before map_str after,
    reply_text bear_script
    = before ++ py "kretzoi = " ++ map_str ++ [59] ++ after
    /\ Forall (fun c => c <> 59 /\ c <> 10) map_str
    /\ json_loads sample_runtime map_str
       = Ok (JObj [(py "b", JInt 1); (py "e", JInt 2);
                   (py "a", JInt 3); (py "r", JInt 4)]).
Proof.
  apply (_get_letters_map_sound sample_runtime (reply_text bear_script)).
  vm_compute. reflexivity.
Defined.

(** X5 at a list broken after its first code. *)
Lemma get_ursidae_name_line_break_witness :
  get_ursidae_name sample_runtime
    (py "var " ++ py "ursidae = " ++ py "[98," ++ [10] ++ py "101];")
  = Raise UrsidaeNotFound.
Proof.
  apply (get_ursidae_name_line_break sample_runtime (py "var ") (py "[98,")
           (py "101];")).
  - literal_chars.
  - vm_compute. reflexivity.
  - vm_compute. reflexivity.
Defined.

(** X6 at a list of an integer and a boolean. *)
Lemma _convert_char_codes_to_str_list_witness :
  _convert_char_codes_to_str (JArr [JInt 98; JBool true]) = Ok [98; 1].
Proof.
  apply (proj2 (_convert_char_codes_to_str_list [JInt 98; JBool true]
                  [98; 1])).
  reflexivity.
Defined.

(** X7 at the script of the scenario: the name [bear]. *)
Lemma get_ursidae_name_sound_witness :
  Forall is_code_point (py "bear")
  /\ exists before char_codes_str after char_codes,
       reply_text bear_script
       = before ++ py "ursidae = " ++ char_codes_str ++ [59] ++ after
       /\ Forall (fun c => c <> 59 /\ c <> 10) char_codes_str
       /\ json_loads sample_runtime char_codes_str = Ok char_codes
       /\ _convert_char_codes_to_str char_codes = Ok (py "bear").
Proof.
  apply (get_ursidae_name_sound sample_runtime (reply_text bear_script)
           (py "bear")).
  vm_compute. reflexivity.
Defined.

(** X8 at the header of the sample form page. *)
Lemma get_session_cookies_ok_shape_witness :
  exists cookies_str,
    decode_utf8 (py "session=S1; Path=/; HttpOnly") = Ok cookies_str
    /\ py "session" = py "session"
    /\ Forall (fun c => c <> 61 /\ c <> 59) (py "S1")
    /\ In (py "session=" ++ py "S1") (split 59 cookies_str).
Proof.
  apply (get_session_cookies_ok_shape (py "session=S1; Path=/; HttpOnly")
           (py "session") (py "S1")).
  vm_compute. reflexivity.
Defined.

(** X9 at a header whose second attribute is the session. *)
Lemma get_session_cookies_after_space_witness :
  get_session_cookies (Some (py "theme=dark; session=S1"))
  = Raise SessionCookieAbsent.
Proof.
  apply (get_session_cookies_after_space (py "theme=dark; session=S1")
           (py "theme=dark") (py "S1")).
  - vm_compute. reflexivity.
  - literal_chars.
  - literal_chars.
  - vm_compute. reflexivity.
Defined.

(** X10 at the fourth entry of the table. *)
Lemma _get_random_platform_range_witness :
  exists draw,
    _get_random_platform draw
    = nth 3 all_platforms {| platform_os := []; platform_ua := [] |}.
Proof.
  apply (proj2 _get_random_platform_range).
  do 3 right. left. reflexivity.
Defined.

(** X11 at the start request of the fifth group. *)
Lemma process_request_effect_witness :
  let request := send_group_to_vote (fifth_group (py "1")) in
  exists platform,
    In platform all_platforms
    /\ user_agent (req_headers (process_request 0 request))
       = Some (platform_ua platform)
    /\ meta_os (req_meta (process_request 0 request))
       = Some (platform_os platform).
Proof.
  intros request.
  apply (proj1 (proj2 (process_request_effect 0 request))).
  discriminate.
Defined.

(** X12 at the sample form page: the next request is of the script
    stage. *)
Lemma react_stage_order_witness :
  let q := process_request 0 (send_group_to_vote (fifth_group (py "1"))) in
  exists q',
    react sample_runtime q (Received sample_form_page) = [q']
    /\ next_stage (stage_of q) = Some (stage_of q').
Proof.
  intros q.
  destruct (react sample_runtime q (Received sample_form_page))
    as [|q' rest] eqn:E; [vm_compute in E; discriminate|].
  exists q'. rewrite <- E.
  apply (react_stage_order sample_runtime q q' (Received sample_form_page)).
  rewrite E. left. reflexivity.
Defined.

(** X13 at the submission of the sample transaction. *)
Lemma sent_platform_witness :
  exists q,
    sample_submission sample_runtime sample_script (fifth_group (py "1"))
    = Some q
    /\ platform_ok q.
Proof.
  eexists. split.
  - exact (sample_submission_fifth (py "1")).
  - apply (sent_platform sample_runtime (fifth_group (py "1"))).
    apply (sample_submission_sent sample_runtime sample_script).
    exact (sample_submission_fifth (py "1")).
Defined.

(** X14 at the submission of the sample transaction: its cookie is the
    one of the payload reply, [S2]. *)
Lemma sent_cookies_witness :
  let group := fifth_group (py "1") in
  exists q2 q3 q,
    sample_requests sample_runtime sample_script group = Some (q2, q3, q)
    /\ exists earlier q3' r3 value,
         [ (process_request 0 (send_group_to_vote group), sample_form_page);
           (q2, sample_script); (q3, sample_payload) ]
         = earlier ++ [(q3', r3)]
         /\ stage_of q3' = Payload
         /\ get_session_cookies (reply_set_cookie r3)
            = Ok (py "session", value)
         /\ req_cookies q = [(py "session", value)].
Proof.
  intros group.
  destruct (sample_requests sample_runtime sample_script group)
    as [[[q2 q3] q]|] eqn:E; [|vm_compute in E; discriminate].
  pose proof (sample_requests_attempt sample_runtime sample_script group
                q2 q3 q E) as Hattempt.
  assert (Hstage : stage_of q = Submission)
    by (vm_compute in E; injection E as <- <- <-; reflexivity).
  exists q2, q3, q. split; [reflexivity|].
  pose proof (sent_cookies sample_runtime group _ q Hattempt) as H.
  rewrite Hstage in H. exact H.
Defined.

(** X15 at the payload request of the sample transaction. *)
Lemma sent_stage3_url_witness :
  let group := fifth_group (py "1") in
  exists q2 q3 q,
    sample_requests sample_runtime sample_script group = Some (q2, q3, q)
    /\ exists q1' r1 q2' r2 platform token ursidae_name identity base,
         [ (process_request 0 (send_group_to_vote group), sample_form_page);
           (q2, sample_script) ]
         = [(q1', r1); (q2', r2)]
         /\ In platform all_platforms
         /\ get_carnivore_value (respond q1' r1) = Ok token
         /\ get_ursidae_name sample_runtime (reply_text r2) = Ok ursidae_name
         /\ encode_utf8 (platform_ua platform ++ ursidae_name
                         ++ platform_os platform) = Ok identity
         /\ get_base_url sample_runtime (respond q2' r2) = Ok base
         /\ urljoin sample_runtime base
              (py "/daxiongmao.js?" ++ token ++ py "="
               ++ b64encode identity ++ py "&key=aadfa")
            = Ok (req_url q3).
Proof.
  intros group.
  destruct (sample_requests sample_runtime sample_script group)
    as [[[q2 q3] q]|] eqn:E; [|vm_compute in E; discriminate].
  pose proof (sample_requests_attempt_payload sample_runtime sample_script
                group q2 q3 q E) as Hattempt.
  assert (Hstage : stage_of q3 = Payload)
    by (vm_compute in E; injection E as <- <- <-; reflexivity).
  exists q2, q3, q. split; [reflexivity|].
  exact (sent_stage3_url sample_runtime group _ q3 Hattempt Hstage).
Defined.

(** X16 at the start request of the fifth group, as the middleware passes
    it on. *)
Lemma callback_keys_present_witness :
  let group := fifth_group (py "1") in
  let q := process_request 0 (send_group_to_vote group) in
  getitem "group" (meta_group (req_meta q)) = Ok group
  /\ exists os, getitem "os" (meta_os (req_meta q)) = Ok os.
Proof.
  intros group q.
  apply (callback_keys_present sample_runtime group q).
  apply sent_start.
Defined.

(** X17 at the name [AB] with the map [{A:5,B:7}]. *)
Lemma get_rats_hash_text_witness :
  Forall b64_symbol (py "NXw3")
  /\ exists groups, List.length (py "NXw3") = (4 * groups)%nat.
Proof.
  apply (get_rats_hash_text sample_runtime (ab_response "AB") (py "NXw3")).
  vm_compute. reflexivity.
Defined.

(** X18 at the first platform, the identity name [||bear||] and the form
    token [T1]. *)
Lemma get_daxiongmao_file_url_decodes_witness :
  exists ua os carnivore_value identity base,
    user_agent (req_headers (resp_request identity_response)) = Some ua
    /\ meta_os (resp_meta identity_response) = Some os
    /\ meta_carnivore_value (resp_meta identity_response)
       = Some carnivore_value
    /\ encode_utf8 (ua ++ py "||bear||" ++ os) = Ok identity
    /\ get_base_url sample_runtime identity_response = Ok base
    /\ urljoin sample_runtime base
         (py "/daxiongmao.js?" ++ carnivore_value ++ py "="
          ++ b64encode identity ++ py "&key=aadfa")
       = Ok (py "https://panda.belvo.io/daxiongmao.js?T1=TW96aWxsYS81LjAgKFdpbmRvd3MgTlQgNS4xIHJ2OiA1Mi4wKSBHZWNrby8yMDEwMDEwMSBGaXJlZm94LzUyLjB8fGJlYXJ8fFdpbjMy&key=aadfa")
    /\ Forall b64_symbol (b64encode identity)
    /\ b64decode (b64encode identity) = Some identity
    /\ decode_utf8 identity = Ok (ua ++ py "||bear||" ++ os).
Proof.
  apply (get_daxiongmao_file_url_decodes sample_runtime identity_response
           (py "||bear||")).
  vm_compute. reflexivity.
Defined.

(** X19 at the name [AB] with the map [{A:5,B:7}]. *)
Lemma get_rats_hash_sound_witness :
  exists group letters_map values content,
    meta_group (resp_meta (ab_response "AB")) = Some group
    /\ _get_letters_map sample_runtime (resp_text (ab_response "AB"))
       = Ok letters_map
    /\ Forall2 (fun c v => py_getitem letters_map [c] = Ok v)
               (name group) values
    /\ encode_utf8 (join (py "|") (map (py_str sample_runtime) values))
       = Ok content
    /\ py "NXw3" = b64encode content
    /\ b64decode (py "NXw3") = Some content.
Proof.
  apply (get_rats_hash_sound sample_runtime (ab_response "AB") (py "NXw3")).
  vm_compute. reflexivity.
Defined.

(** X20 at the start request of the fifth group. *)
Lemma sent_group_unique_witness :
  let group := fifth_group (py "1") in
  let q := process_request 0 (send_group_to_vote group) in
  meta_group (req_meta q) = Some group /\ group = group.
Proof.
  intros group q.
  apply (sent_group_unique sample_runtime group group q);
    apply sent_start.
Defined.
